(** * WeatherScraper: data acquisition, normalisation and local storage

    A shallow embedding of [data_storage.py], [city_autocomplete.py] and
    [weather_scraper.py], and the properties of the written specification
    that were checked against it.

    Python values are embedded as the values [json.load] can yield; raised
    exceptions are explicit results; the file system, the network and the
    clocks are explicit state. *)

From Stdlib Require Import ZArith QArith Qround String Ascii List SpecFloat Lia Lqa.
From stdpp Require Import base option list strings gmap pretty sorting.

Set Warnings "-register-all".

Local Open Scope Z_scope.
Local Open Scope string_scope.

(** ** Python values, exceptions and the operators the code uses *)

Module Py.

(** *** Floats: IEEE 754 binary64, as CPython's [float] *)

Definition float := spec_float.
Definition prec : Z := 53.
Definition emax : Z := 1024.

Definition fadd : float -> float -> float := SFadd prec emax.
Definition fmul : float -> float -> float := SFmul prec emax.
Definition fdiv : float -> float -> float := SFdiv prec emax.

(** The float nearest to [m * 2^e]. *)
Definition dyadic (m e : Z) : float := binary_normalize prec emax m e false.

(** The float nearest to the ratio of two integers: what a decimal literal
    such as [3.6] (= 36/10) denotes, and what [int / int] computes. *)
Definition ratio (a b : Z) : float :=
  let mag n := match n with
               | Z0 => S754_zero false
               | Zpos p => S754_finite false p 0
               | Zneg p => S754_finite true p 0
               end in
  fdiv (mag a) (mag b).

(** *** Values *)

Inductive value : Type :=
| VNone
| VBool (b : bool)
| VInt (n : Z)
| VFloat (f : float)
| VStr (s : string)
| VList (l : list value)
| VDict (items : list (string * value)).

Definition type_name (v : value) : string :=
  match v with
  | VNone => "NoneType"
  | VBool _ => "bool"
  | VInt _ => "int"
  | VFloat _ => "float"
  | VStr _ => "str"
  | VList _ => "list"
  | VDict _ => "dict"
  end.

(** Truth value, as tested by [if], [or] and [and]. *)
Definition truthy (v : value) : bool :=
  match v with
  | VNone => false
  | VBool b => b
  | VInt n => negb (Z.eqb n 0)
  | VFloat (S754_zero _) => false
  | VFloat _ => true
  | VStr s => negb (String.eqb s "")
  | VList l => match l with [] => false | _ => true end
  | VDict d => match d with [] => false | _ => true end
  end.

(** *** Exceptions *)

Inductive exn_class : Set :=
| Exception            (* the base class, raised by the code itself *)
| RequestException     (* requests.exceptions.RequestException and subclasses *)
| RequestsJSONDecodeError (* raised by response.json(): both of the next two *)
| JSONDecodeError
| KeyError
| IndexError
| TypeError
| ValueError
| AttributeError
| OverflowError
| UnicodeDecodeError   (* a ValueError: bytes that are not UTF-8 *)
| FileNotFoundError    (* the next three are OSErrors *)
| FileExistsError
| NotADirectoryError.

(** An exception object: its class and [str(e)]. *)
Record exn : Set := Exn { exn_class_of : exn_class; exn_str : string }.

(** [isinstance(e, requests.exceptions.RequestException)] *)
Definition is_request_exception (e : exn) : bool :=
  match exn_class_of e with
  | RequestException | RequestsJSONDecodeError => true
  | _ => false
  end.

(** [isinstance(e, (KeyError, IndexError, json.JSONDecodeError))] *)
Definition is_parse_exception (e : exn) : bool :=
  match exn_class_of e with
  | KeyError | IndexError | JSONDecodeError | RequestsJSONDecodeError => true
  | _ => false
  end.

Inductive result (A : Type) : Type :=
| Ok (a : A)
| Raised (e : exn).
Arguments Ok {A} a.
Arguments Raised {A} e.

#[export] Instance result_ret : MRet result := fun A a => Ok a.
#[export] Instance result_bind : MBind result := fun A B f m =>
  match m with
  | Ok a => f a
  | Raised e => Raised e
  end.

#[export] Instance result_fmap : FMap result := fun A B f m =>
  match m with
  | Ok a => Ok (f a)
  | Raised e => Raised e
  end.

Definition raise {A} (c : exn_class) (msg : string) : result A :=
  Raised (Exn c msg).

(** *** Containers *)

Fixpoint assoc (k : string) (items : list (string * value)) : option value :=
  match items with
  | [] => None
  | (k', v) :: rest => if String.eqb k' k then Some v else assoc k rest
  end.

(** [d[k] = v] on a dict: replace in place, or append as the newest key. *)
Fixpoint assoc_set (k : string) (v : value) (items : list (string * value))
  : list (string * value) :=
  match items with
  | [] => [(k, v)]
  | (k', v') :: rest =>
      if String.eqb k' k then (k, v) :: rest else (k', v') :: assoc_set k v rest
  end.

(** [v[k]] for a string key. *)
Definition getitem (v : value) (k : string) : result value :=
  match v with
  | VDict d => match assoc k d with
               | Some x => Ok x
               | None => raise KeyError ("'" +:+ k +:+ "'")
               end
  | VList _ => raise TypeError "list indices must be integers or slices, not str"
  | VStr _ => raise TypeError "string indices must be integers, not 'str'"
  | _ => raise TypeError ("'" +:+ type_name v +:+ "' object is not subscriptable")
  end.

Definition chars (s : string) : list value :=
  (fun a => VStr (String a EmptyString)) <$> list_ascii_of_string s.

(** [v[i]] for a literal index [i >= 0]. *)
Definition getindex (v : value) (i : nat) : result value :=
  match v with
  | VList l => match l !! i with
               | Some x => Ok x
               | None => raise IndexError "list index out of range"
               end
  | VStr s => match chars s !! i with
              | Some x => Ok x
              | None => raise IndexError "string index out of range"
              end
  | VDict _ => raise KeyError (pretty i)
  | _ => raise TypeError ("'" +:+ type_name v +:+ "' object is not subscriptable")
  end.

(** [v.get(k, dflt)] *)
Definition dict_get (v : value) (k : string) (dflt : value) : result value :=
  match v with
  | VDict d => Ok (default dflt (assoc k d))
  | _ => raise AttributeError
           ("'" +:+ type_name v +:+ "' object has no attribute 'get'")
  end.

(** [len(v)] *)
Definition len (v : value) : result Z :=
  match v with
  | VList l => Ok (Z.of_nat (length l))
  | VDict d => Ok (Z.of_nat (length d))
  | VStr s => Ok (Z.of_nat (String.length s))
  | _ => raise TypeError ("object of type '" +:+ type_name v +:+ "' has no len()")
  end.

(** The elements a [for] loop or a comprehension visits. *)
Definition iter (v : value) : result (list value) :=
  match v with
  | VList l => Ok l
  | VDict d => Ok ((fun kv => VStr kv.1) <$> d)
  | VStr s => Ok (chars s)
  | _ => raise TypeError ("'" +:+ type_name v +:+ "' object is not iterable")
  end.

(** [needle in hay] on strings: [needle] occurs as a substring. *)
Fixpoint str_contains (needle hay : string) : bool :=
  String.prefix needle hay ||
  match hay with
  | EmptyString => false
  | String _ rest => str_contains needle rest
  end.

(** [k in v] for a string [k]. *)
Definition contains (k : string) (v : value) : result bool :=
  match v with
  | VDict d => Ok (bool_decide (is_Some (assoc k d)))
  | VList l => Ok (existsb (fun x => match x with
                                     | VStr s => String.eqb s k
                                     | _ => false
                                     end) l)
  | VStr s => Ok (str_contains k s)
  | _ => raise TypeError
           ("argument of type '" +:+ type_name v +:+ "' is not iterable")
  end.

(** *** Numbers *)

(** [float(n)] for an int, as in mixed arithmetic. *)
Definition float_of_int (n : Z) : result float :=
  match dyadic n 0 with
  | S754_infinity _ => raise OverflowError "int too large to convert to float"
  | f => Ok f
  end.

Definition unsupported {A} (op : string) (v : value) (right : string)
  : result A :=
  raise TypeError ("unsupported operand type(s) for " +:+ op +:+ ": '"
                     +:+ type_name v +:+ "' and '" +:+ right +:+ "'").

Definition quoted (s : string) : string :=
  let q := String (ascii_of_nat 34) EmptyString in q +:+ s +:+ q.

(** A number as the float that arithmetic with a float takes it for. *)
Definition as_float (v : value) : option (result float) :=
  match v with
  | VFloat f => Some (Ok f)
  | VInt n => Some (float_of_int n)
  | VBool b => Some (Ok (dyadic (if b then 1 else 0) 0))
  | _ => None
  end.

(** [v + f] for a float [f] *)
Definition add_float (v : value) (f : float) : result float :=
  match as_float v, v with
  | Some x, _ => x ≫= fun x => Ok (fadd x f)
  | None, (VStr _ | VList _) =>
      raise TypeError ("can only concatenate " +:+ type_name v +:+ " (not "
                         +:+ quoted "float" +:+ ") to " +:+ type_name v)
  | None, _ => unsupported "+" v "float"
  end.

(** [v * f] for a float [f] *)
Definition mul_float (v : value) (f : float) : result float :=
  match as_float v, v with
  | Some x, _ => x ≫= fun x => Ok (fmul x f)
  | None, (VStr _ | VList _) =>
      raise TypeError "can't multiply sequence by non-int of type 'float'"
  | None, _ => unsupported "*" v "float"
  end.

(** [v / n] for a non-zero int [n] *)
Definition div_int (v : value) (n : Z) : result float :=
  let int_div a :=
    match ratio a n with
    | S754_infinity _ =>
        raise OverflowError "integer division result too large for a float"
    | q => Ok q
    end in
  match v with
  | VFloat f => x ← float_of_int n; Ok (fdiv f x)
  | VInt a => int_div a
  | VBool b => int_div (if b then 1 else 0)
  | _ => unsupported "/" v "int"
  end.

(** [int(f)]: truncation toward zero. *)
Definition int_of_float (f : float) : result Z :=
  match f with
  | S754_zero _ => Ok 0
  | S754_finite s m e =>
      let mag := if Z.leb 0 e then Z.pos m * 2 ^ e else Z.pos m / 2 ^ (- e) in
      Ok (if s then - mag else mag)
  | S754_infinity _ => raise OverflowError "cannot convert float infinity to integer"
  | S754_nan => raise ValueError "cannot convert float NaN to integer"
  end.

End Py.

Import Py.

(** *** Strings

    A string is its sequence of code points, restricted to U+0000..U+00FF.
    On that range [str.lower()] is exactly the map below; [upper], [title]
    and [str] of floats and containers are library functions taken as
    parameters (see [PyLib]). *)

Definition lower_char (a : ascii) : ascii :=
  let n := N_of_ascii a in
  if ((65 <=? n) && (n <=? 90) || (192 <=? n) && (n <=? 222) && negb (n =? 215))%N
  then ascii_of_N (n + 32)
  else a.

Fixpoint lower (s : string) : string :=
  match s with
  | EmptyString => EmptyString
  | String a rest => String (lower_char a) (lower rest)
  end.

(** ** Naive local date-times, as [datetime.datetime] *)

Module Datetime.

(** A date-time is its proleptic Gregorian day number ([toordinal()]) and
    the microsecond of that day. *)
Record datetime : Set := DT { ordinal : Z; micros : Z }.

Definition day_micros : Z := 86400000000.

Definition valid (d : datetime) : Prop := 0 <= micros d < day_micros.

(** [d.weekday()]: Monday is 0. *)
Definition weekday (d : datetime) : Z := (ordinal d + 6) mod 7.

(** [d - timedelta(days=n)] *)
Definition minus_days (d : datetime) (n : Z) : datetime :=
  DT (ordinal d - n) (micros d).

(** [d.replace(hour=h, minute=m, second=s, microsecond=us)] *)
Definition replace_time (d : datetime) (h m s us : Z) : datetime :=
  DT (ordinal d) (((h * 60 + m) * 60 + s) * 1000000 + us).

(** [a <= b] *)
Definition le (a b : datetime) : Prop :=
  ordinal a < ordinal b \/ (ordinal a = ordinal b /\ micros a <= micros b).

Definition leb (a b : datetime) : bool :=
  Z.ltb (ordinal a) (ordinal b)
  || (Z.eqb (ordinal a) (ordinal b) && Z.leb (micros a) (micros b)).

(** What [datetime.fromisoformat] makes of a string: a [ValueError], a naive
    date-time, or an aware one (the string carried a UTC offset). *)
Inductive parsed : Set :=
| Invalid
| Naive (d : datetime)
| Aware (d : datetime) (utcoffset : Z).

End Datetime.

Import Datetime.

(** ** Library functions taken as parameters *)

Class PyLib : Type := {
  upper : string -> string;               (* str.upper *)
  title : string -> string;               (* str.title *)
  str_float : float -> string;            (* str(f) for a float *)
  str_container : value -> string;        (* str(v) for a list or a dict *)
  int_of_str : string -> option Z;        (* int(s); None is a ValueError *)
  isoformat : datetime -> string;         (* datetime.isoformat *)
  date_isoformat : datetime -> string;    (* datetime.date().isoformat() *)
  fromisoformat : string -> parsed;       (* datetime.fromisoformat *)
}.

(** [str(v)], also what an f-string makes of [v]. *)
Definition str {py : PyLib} (v : value) : string :=
  match v with
  | VNone => "None"
  | VBool true => "True"
  | VBool false => "False"
  | VInt n => pretty n
  | VFloat f => str_float f
  | VStr s => s
  | VList _ | VDict _ => str_container v
  end.

(** [int(v)] *)
Definition int {py : PyLib} (v : value) : result Z :=
  match v with
  | VInt n => Ok n
  | VBool b => Ok (if b then 1 else 0)
  | VFloat f => int_of_float f
  | VStr s => match int_of_str s with
              | Some n => Ok n
              | None => raise ValueError
                          ("invalid literal for int() with base 10: '" +:+ s +:+ "'")
              end
  | _ => raise TypeError
           ("int() argument must be a string, a bytes-like object or a real number, not '"
              +:+ type_name v +:+ "'")
  end.

(** [v.lower()], [v.upper()], [v.title()]: only strings have them. *)
Definition str_method (name : string) (f : string -> string) (v : value)
  : result string :=
  match v with
  | VStr s => Ok (f s)
  | _ => raise AttributeError
           ("'" +:+ type_name v +:+ "' object has no attribute '" +:+ name +:+ "'")
  end.

(** ** data_storage.py *)

Module Storage.

(** A file on disk: text that [json.load] rejects, the value it yields
    (which is also the value [json.dump] wrote), or bytes that are not UTF-8
    text, with what the codec says of them. A path with no file is absent
    from the map. The map holds the regular files, each under its path as
    the program writes it; directories are not recorded, and the process may
    open every file for reading and writing. *)
Inductive file : Type :=
| Unparseable
| Json (v : value)
| Undecodable (reason : string).

Abbreviation fs := (gmap string file).

(** Code that reads and writes files and may raise: the file system is
    threaded through, and a raised exception keeps the writes made so far. *)
Definition io (A : Type) : Type := fs -> result A * fs.

#[export] Instance io_ret : MRet io := fun A a s => (Ok a, s).
#[export] Instance io_bind : MBind io := fun A B f m s =>
  match m s with
  | (Ok a, s') => f a s'
  | (Raised e, s') => (Raised e, s')
  end.

Definition lift {A} (r : result A) : io A := fun s => (r, s).

(** [os.path.join(a, b)] for a relative [b] (POSIX). *)
Definition path_join (a b : string) : string :=
  match a with
  | "" => b
  | _ => if String.eqb (substring (String.length a - 1) 1 a) "/"
         then a +:+ b
         else a +:+ "/" +:+ b
  end.

(** The object: [self.data_dir], [self.history_file], [self.search_file]. *)
Record DataStorage : Set := {
  data_dir : string;
  history_file : string;
  search_file : string;
}.

(** [open] raises [FileNotFoundError] for a path without a file and
    [json.load] raises [JSONDecodeError] for text that is not JSON: the two
    that the [except] clause turns into the default. Bytes that are not
    UTF-8 make [json.load] raise [UnicodeDecodeError], which is neither. *)
Definition _read_json (filepath : string) : io value := fun s =>
  let default := if str_contains "history" filepath then VDict [] else VList [] in
  (match s !! filepath with
   | Some (Json v) => Ok v
   | Some Unparseable | None => Ok default
   | Some (Undecodable reason) => raise UnicodeDecodeError reason
   end, s).

Definition _write_json (filepath : string) (data : value) : io unit := fun s =>
  (Ok tt, <[filepath := Json data]> s).

(** The levels of a directory path: the paths of its ancestors, from the
    outermost on, and then its own, each without a trailing slash; the
    levels of [a/b/c] are [a], [a/b] and [a/b/c]. *)
Definition is_level (path : string) : bool :=
  negb (String.eqb path "")
  && negb (String.eqb (substring (String.length path - 1) 1 path) "/").

Fixpoint levels_from (before rest : string) : list string :=
  let here := if is_level before then [before] else [] in
  match rest with
  | "" => here
  | String c rest' =>
      ((if Ascii.eqb c "/" then here else [])
         ++ levels_from (before +:+ String c "") rest')%list
  end.

Definition levels (path : string) : list string := levels_from "" path.

(** [os.mkdir] of the levels in turn. A level that is there already is
    passed over when it is a directory; a file in its place makes the [mkdir]
    of the next level raise [NotADirectoryError], and at the last level the
    [mkdir] of [name] itself raise [FileExistsError]. *)
Fixpoint mkdir_levels (name : string) (paths : list string) (s : fs)
  : result unit :=
  match paths with
  | [] => Ok tt
  | path :: rest =>
      match s !! path, rest with
      | None, _ => mkdir_levels name rest s
      | Some _, [] =>
          raise FileExistsError ("[Errno 17] File exists: '" +:+ name +:+ "'")
      | Some _, child :: _ =>
          raise NotADirectoryError
                ("[Errno 20] Not a directory: '" +:+ child +:+ "'")
      end
  end.

(** [os.makedirs(name, exist_ok=True)]. What it creates are directories,
    so the files are as they were. *)
Definition makedirs (name : string) : io unit := fun s =>
  (if String.eqb name ""
   then raise FileNotFoundError "[Errno 2] No such file or directory: ''"
   else mkdir_levels name (levels name) s, s).

(** [os.path.exists(path)] *)
Definition path_exists (path : string) : io bool := fun s =>
  (Ok (bool_decide (is_Some (s !! path))), s).

(** [DataStorage(data_dir)] *)
Definition __init__ (dir : string) : io DataStorage :=
  let self := {| data_dir := dir;
                 history_file := path_join dir "weather_history.json";
                 search_file := path_join dir "search_history.json" |} in
  makedirs dir ;;
  present ← path_exists (history_file self);
  (if negb present then _write_json (history_file self) (VDict []) else mret tt) ;;
  present ← path_exists (search_file self);
  (if negb present then _write_json (search_file self) (VList []) else mret tt) ;;
  mret self.

Section WithLib.
Context {py : PyLib}.

(** *** _filter_current_week *)

(** Monday 00:00:00 of the week of [now]. *)
Definition start_of_week (now : datetime) : datetime :=
  replace_time (minus_days now (weekday now)) 0 0 0 0.

(** The body of the [try] for one entry: is it appended? *)
Definition in_current_week (start : datetime) (entry : value) : result bool :=
  ts ← getitem entry "timestamp";
  match ts with
  | VStr s =>
      match fromisoformat s with
      | Invalid => raise ValueError ("Invalid isoformat string: '" +:+ s +:+ "'")
      | Naive timestamp => Ok (leb start timestamp)
      | Aware _ _ =>
          raise TypeError "can't compare offset-naive and offset-aware datetimes"
      end
  | _ => raise TypeError "fromisoformat: argument must be str"
  end.

(** [except (KeyError, ValueError)] *)
Definition skipped (e : exn) : bool :=
  match exn_class_of e with
  | KeyError | ValueError | JSONDecodeError | RequestsJSONDecodeError
  | UnicodeDecodeError => true
  | _ => false
  end.

Fixpoint filter_loop (start : datetime) (data_list filtered : list value)
  : result (list value) :=
  match data_list with
  | [] => Ok filtered
  | entry :: rest =>
      match in_current_week start entry with
      | Ok true => filter_loop start rest (filtered ++ [entry])
      | Ok false => filter_loop start rest filtered
      | Raised e => if skipped e then filter_loop start rest filtered else Raised e
      end
  end.

Definition _filter_current_week (now : datetime) (data_list : value)
  : result (list value) :=
  entries ← iter data_list;
  filter_loop (start_of_week now) entries [].

(** *** get_weather_history *)

Definition get_weather_history (self : DataStorage) (city : string)
    (now : datetime) : io (list value) :=
  history ← _read_json (history_file self);
  let city_key := lower city in
  present ← lift (contains city_key history);
  if negb present then mret []
  else
    data ← lift (getitem history city_key);
    lift (_filter_current_week now data).

(** *** add_search, get_search_history *)

Definition search_entry (city : string) (now : datetime) : value :=
  VDict [("city", VStr city); ("timestamp", VStr (isoformat now))].

(** [[s for s in searches if s['city'].lower() != city.lower()]] *)
Fixpoint without_city (city : string) (searches : list value)
  : result (list value) :=
  match searches with
  | [] => Ok []
  | s :: rest =>
      c ← getitem s "city";
      lc ← str_method "lower" lower c;
      kept ← without_city city rest;
      Ok (if bool_decide (lc <> lower city) then s :: kept else kept)
  end.

Definition add_search (self : DataStorage) (city : string) (now : datetime)
  : io unit :=
  searches ← _read_json (search_file self);
  let entry := search_entry city now in
  elements ← lift (iter searches);
  searches ← lift (without_city city elements);
  let searches := entry :: searches in
  let searches := take 20 searches in
  _write_json (search_file self) (VList searches).

Definition get_search_history (self : DataStorage) : io (list value) :=
  searches ← _read_json (search_file self);
  elements ← lift (iter searches);
  lift (mapM (fun s => getitem s "city") elements).

(** *** clear_old_data

    Each pass of the loop reads the clock anew: [now i] is the reading of
    pass [i]. *)

(** The position [history[city]] denotes in a list of [n] elements. *)
Definition list_index (city : value) (n : nat) : result nat :=
  let position (i : Z) :=
    let j := if Z.ltb i 0 then i + Z.of_nat n else i in
    if Z.leb 0 j && Z.ltb j (Z.of_nat n) then Ok (Z.to_nat j)
    else raise IndexError "list index out of range" in
  match city with
  | VInt i => position i
  | VBool b => position (if b then 1 else 0)
  | _ => raise TypeError
           ("list indices must be integers or slices, not " +:+ type_name city)
  end.

(** The loop over a dict visits its keys; assigning to a key keeps them. *)
Fixpoint clear_dict (now : nat -> datetime) (i : nat) (keys : list string)
    (history : list (string * value)) : result (list (string * value)) :=
  match keys with
  | [] => Ok history
  | city :: rest =>
      data ← getitem (VDict history) city;
      filtered ← _filter_current_week (now i) data;
      clear_dict now (S i) rest (assoc_set city (VList filtered) history)
  end.

(** The loop over a list visits position [i] of the list as it is then;
    [remaining] counts the passes left. *)
Fixpoint clear_list (now : nat -> datetime) (i remaining : nat)
    (history : list value) : result (list value) :=
  match remaining, history !! i with
  | S remaining, Some city =>
      j ← list_index city (length history);
      filtered ← _filter_current_week (now i) (default VNone (history !! j));
      clear_list now (S i) remaining (<[j := VList filtered]> history)
  | _, _ => Ok history
  end.

Definition clear_old_data (self : DataStorage) (now : nat -> datetime)
  : io unit :=
  history ← _read_json (history_file self);
  history ← lift match history with
                 | VDict d => VDict <$> clear_dict now 0 d.*1 d
                 | VList l => VList <$> clear_list now 0 (length l) l
                 | VStr s => match chars s with
                             | VStr city :: _ =>
                                 getitem history city ;; Ok history
                             | _ => Ok history
                             end
                 | _ => iter history ;; Ok history
                 end;
  _write_json (history_file self) history.

(** *** save_weather_data

    [now] is the clock when the snapshot is stamped, [now'] when the list is
    filtered. The stamp is also written into the caller's dict. *)

(** [v[k] = x] for a string key. *)
Definition setitem (v : value) (k : string) (x : value) : result value :=
  match v with
  | VDict d => Ok (VDict (assoc_set k x d))
  | VList _ => raise TypeError "list indices must be integers or slices, not str"
  | _ => raise TypeError
           ("'" +:+ type_name v +:+ "' object does not support item assignment")
  end.

(** [v.append(x)] *)
Definition append (v x : value) : result value :=
  match v with
  | VList l => Ok (VList (l ++ [x]))
  | _ => raise AttributeError
           ("'" +:+ type_name v +:+ "' object has no attribute 'append'")
  end.

Definition save_weather_data (self : DataStorage) (city : string)
    (weather_data : list (string * value)) (now now' : datetime) : io unit :=
  history ← _read_json (history_file self);
  let city_key := lower city in
  present ← lift (contains city_key history);
  history ← lift (if negb present then setitem history city_key (VList [])
                  else Ok history);
  let weather_data :=
    match assoc "timestamp" weather_data with
    | None => assoc_set "timestamp" (VStr (isoformat now)) weather_data
    | Some _ => weather_data
    end in
  snapshots ← lift (getitem history city_key);
  snapshots ← lift (append snapshots (VDict weather_data));
  filtered ← lift (_filter_current_week now' snapshots);
  history ← lift (setitem history city_key (VList filtered));
  _write_json (history_file self) history.

End WithLib.

End Storage.

(** ** An instance of the library

    Enough of CPython's behaviour to run the model on concrete inputs: ASCII
    text, integral floats, and timestamps in the form [isoformat] itself
    produces ([YYYY-MM-DDTHH:MM:SS] with an optional [.ffffff]). The calendar
    arithmetic follows CPython's [_ymd2ord] and [_ord2ymd]. Every theorem
    below holds for any instance; this one serves the examples. *)

Module Cpython.

Definition upper_char (a : ascii) : ascii :=
  let n := N_of_ascii a in
  if ((97 <=? n) && (n <=? 122))%N then ascii_of_N (n - 32) else a.

Definition is_alpha (a : ascii) : bool :=
  let n := N_of_ascii (upper_char a) in ((65 <=? n) && (n <=? 90))%N.

Fixpoint upper (s : string) : string :=
  match s with
  | EmptyString => EmptyString
  | String a rest => String (upper_char a) (upper rest)
  end.

(** [str.title]: a letter is upper-cased after a non-letter, lower-cased
    after a letter. *)
Fixpoint title_from (after_letter : bool) (s : string) : string :=
  match s with
  | EmptyString => EmptyString
  | String a rest =>
      String (if after_letter then lower_char a else upper_char a)
             (title_from (is_alpha a) rest)
  end.

Definition title : string -> string := title_from false.

Definition digit (a : ascii) : option Z :=
  let n := N_of_ascii a in
  if ((48 <=? n) && (n <=? 57))%N then Some (Z.of_N (n - 48)) else None.

Fixpoint digits_from (acc : Z) (s : string) : option Z :=
  match s with
  | EmptyString => Some acc
  | String a rest => d ← digit a; digits_from (10 * acc + d) rest
  end.

(** A non-empty run of decimal digits. *)
Definition digits (s : string) : option Z :=
  match s with
  | EmptyString => None
  | _ => digits_from 0 s
  end.

Definition int_of_str (s : string) : option Z :=
  match s with
  | String "-" rest => Z.opp <$> digits rest
  | _ => digits s
  end.

(** [n] in decimal, padded with zeros to [width] digits. *)
Definition zero_padded (width : nat) (n : Z) : string :=
  let s := pretty n in
  String.concat "" (replicate (width - String.length s) "0") +:+ s.

Definition str_float (f : float) : string :=
  match int_of_float f with
  | Ok n => pretty n +:+ ".0"
  | Raised _ => "nan"
  end.

Definition is_leap (y : Z) : bool :=
  Z.eqb (y mod 4) 0 && (negb (Z.eqb (y mod 100) 0) || Z.eqb (y mod 400) 0).

Definition days_before_year (y : Z) : Z :=
  let y := y - 1 in y * 365 + y / 4 - y / 100 + y / 400.

Definition days_in_month (y m : Z) : Z :=
  if Z.eqb m 2 then (if is_leap y then 29 else 28)
  else if bool_decide (m ∈ [4; 6; 9; 11]) then 30 else 31.

Definition days_before_month (y m : Z) : Z :=
  nth (Z.to_nat m) [0; 0; 31; 59; 90; 120; 151; 181; 212; 243; 273; 304; 334] 0
  + (if Z.ltb 2 m && is_leap y then 1 else 0).

Definition ymd2ord (y m d : Z) : Z :=
  days_before_year y + days_before_month y m + d.

Definition ord2ymd (n : Z) : Z * Z * Z :=
  let n := n - 1 in
  let n400 := n / 146097 in let n := n mod 146097 in
  let n100 := n / 36524 in let n := n mod 36524 in
  let n4 := n / 1461 in let n := n mod 1461 in
  let n1 := n / 365 in let n := n mod 365 in
  let year := n400 * 400 + 1 + n100 * 100 + n4 * 4 + n1 in
  if Z.eqb n1 4 || Z.eqb n100 4 then (year - 1, 12, 31)
  else
    let leapyear := Z.eqb n1 3 && (negb (Z.eqb n4 24) || Z.eqb n100 3) in
    let month := Z.shiftr (n + 50) 5 in
    let preceding := days_before_month 1 month
                     + (if Z.ltb 2 month && leapyear then 1 else 0) in
    if Z.ltb n preceding
    then let month := month - 1 in
         let preceding := preceding
           - (days_in_month 1 month
              + (if Z.eqb month 2 && leapyear then 1 else 0)) in
         (year, month, n - preceding + 1)
    else (year, month, n - preceding + 1).

Definition date_isoformat (d : datetime) : string :=
  let '(y, m, dd) := ord2ymd (ordinal d) in
  zero_padded 4 y +:+ "-" +:+ zero_padded 2 m +:+ "-" +:+ zero_padded 2 dd.

Definition isoformat (d : datetime) : string :=
  let secs := micros d / 1000000 in
  let us := micros d mod 1000000 in
  date_isoformat d +:+ "T" +:+ zero_padded 2 (secs / 3600) +:+ ":"
    +:+ zero_padded 2 (secs / 60 mod 60) +:+ ":" +:+ zero_padded 2 (secs mod 60)
    +:+ (if Z.eqb us 0 then "" else "." +:+ zero_padded 6 us).

Definition fromisoformat (s : string) : parsed :=
  let field i n := digits (substring i n s) in
  let sep i c := bool_decide (substring i 1 s = c) in
  let fraction :=
    if bool_decide (String.length s = 19%nat) then Some 0
    else if bool_decide (String.length s = 26%nat) && sep 19%nat "."
         then field 20%nat 6%nat
         else None in
  match field 0%nat 4%nat, field 5%nat 2%nat, field 8%nat 2%nat,
        field 11%nat 2%nat, field 14%nat 2%nat, field 17%nat 2%nat, fraction with
  | Some y, Some m, Some d, Some hh, Some mm, Some ss, Some us =>
      if sep 4%nat "-" && sep 7%nat "-" && sep 10%nat "T"
         && sep 13%nat ":" && sep 16%nat ":"
         && Z.leb 1 y && Z.leb 1 m && Z.leb m 12
         && Z.leb 1 d && Z.leb d (days_in_month y m)
         && Z.ltb hh 24 && Z.ltb mm 60 && Z.ltb ss 60
      then Naive (DT (ymd2ord y m d) (((hh * 60 + mm) * 60 + ss) * 1000000 + us))
      else Invalid
  | _, _, _, _, _, _, _ => Invalid
  end.

Definition lib : PyLib :=
  Build_PyLib upper title str_float (fun _ => "[...]") int_of_str
              isoformat date_isoformat fromisoformat.

End Cpython.

(** ** The network and the clock *)

Module Net.

(** [requests.get(url, params=..., headers=..., timeout=...)] *)
Record request : Type := Request {
  url : string;
  params : list (string * value);
  headers : list (string * string);
  timeout : Z;
}.

(** A response: its status, the text of the [HTTPError] that
    [raise_for_status] raises for it, and what [response.json()] does. *)
Record response : Type := Response {
  status_code : Z;
  http_error : string;
  json : result value;
}.

(** What a request meets: [requests.get] raises or returns a response,
    after some time. *)
Record exchange : Type := Exchange {
  outcome : exn + response;
  duration : Q;
}.

(** The world outside the process: the clock ([time.time()], in seconds),
    what the [n]-th outbound request will meet, the requests sent so far
    with the time each left (newest first), and what was printed. *)
Record world : Type := World {
  clock : Q;
  network : nat -> request -> exchange;
  sent : list (Q * request);
  stdout : list string;
}.

Definition get (req : request) (w : world) : result response * world :=
  let x := network w (length (sent w)) req in
  (match outcome x with inl e => Raised e | inr r => Ok r end,
   {| clock := (clock w + duration x)%Q;
      network := network w;
      sent := (clock w, req) :: sent w;
      stdout := stdout w |}).

Definition raise_for_status (r : response) : result unit :=
  if Z.leb 400 (status_code r) && Z.ltb (status_code r) 600
  then raise RequestException (http_error r)
  else Ok tt.

(** [time.sleep(seconds)] *)
Definition sleep (seconds : Q) (w : world) : world :=
  {| clock := (clock w + seconds)%Q;
     network := network w;
     sent := sent w;
     stdout := stdout w |}.

Definition print (line : string) (w : world) : world :=
  {| clock := clock w;
     network := network w;
     sent := sent w;
     stdout := (stdout w ++ [line])%list |}.

(** Code that talks to the network and may raise. *)
Definition net (A : Type) : Type := world -> result A * world.

#[export] Instance net_ret : MRet net := fun A a w => (Ok a, w).
#[export] Instance net_bind : MBind net := fun A B f m w =>
  match m w with
  | (Ok a, w') => f a w'
  | (Raised e, w') => (Raised e, w')
  end.

Definition pure {A} (r : result A) : net A := fun w => (r, w).

(** [response = requests.get(...); response.raise_for_status()] *)
Definition get_ok (req : request) : net response :=
  r ← get req; pure (raise_for_status r) ;; mret r.

End Net.

(** ** city_autocomplete.py *)

Module Autocomplete.
Import Net.

(** One suggestion: the dict with the keys [display], [value], [city],
    [country], [country_code] and [state]. *)
Record city : Type := City {
  display : string;
  search_value : string;
  city_name : value;
  country : value;
  country_code : string;
  state : value;
}.

(** The object. *)
Record CityAutocomplete : Type := {
  nominatim_url : string;
  user_agent : list (string * string);
  cache : gmap string (list city);
  last_request_time : Q;
  min_request_interval : Q;
}.

Definition __init__ : CityAutocomplete := {|
  nominatim_url := "https://nominatim.openstreetmap.org/search";
  user_agent := [("User-Agent", "WeatherApp/1.0")];
  cache := ∅;
  last_request_time := 0;
  min_request_interval := 1;
|}.

Definition set_last_request_time (self : CityAutocomplete) (t : Q)
  : CityAutocomplete :=
  {| nominatim_url := nominatim_url self;
     user_agent := user_agent self;
     cache := cache self;
     last_request_time := t;
     min_request_interval := min_request_interval self |}.

Definition set_cache (self : CityAutocomplete) (key : string)
    (cities : list city) : CityAutocomplete :=
  {| nominatim_url := nominatim_url self;
     user_agent := user_agent self;
     cache := <[key := cities]> (cache self);
     last_request_time := last_request_time self;
     min_request_interval := min_request_interval self |}.

(** [f"{query.lower()}_{limit}"] *)
Definition cache_key (query : string) (limit : Z) : string :=
  lower query +:+ "_" +:+ pretty limit.

(** [a or b] *)
Definition or_else (a b : value) : value := if truthy a then a else b.

(** [a == s] for a string literal [s] *)
Definition eq_str (a : value) (s : string) : bool :=
  match a with
  | VStr x => String.eqb x s
  | _ => false
  end.

Section WithLib.
Context {py : PyLib}.

(** One pass of the loop over the results: the city appended, if any. *)
Definition parse_result (result_ : value) : result (option city) :=
  address ← dict_get result_ "address" (VDict []);
  city ← dict_get address "city" VNone;
  town ← dict_get address "town" VNone;
  village ← dict_get address "village" VNone;
  municipality ← dict_get address "municipality" VNone;
  name ← dict_get result_ "name" (VStr "");
  let city_name :=
    or_else city (or_else town (or_else village (or_else municipality name))) in
  country ← dict_get address "country" (VStr "Unknown");
  code ← dict_get address "country_code" (VStr "");
  country_code ← str_method "upper" upper code;
  state ← dict_get address "state" (VStr "");
  if truthy city_name && truthy country then
    if truthy state && eq_str country "United States" then
      Ok (Some {| display := str city_name +:+ ", " +:+ str state +:+ ", "
                               +:+ country_code;
                  search_value := str city_name +:+ "," +:+ str state +:+ ","
                                    +:+ str country;
                  city_name := city_name; country := country;
                  country_code := country_code; state := state |})
    else
      Ok (Some {| display := str city_name +:+ ", " +:+ str country;
                  search_value := str city_name +:+ "," +:+ str country;
                  city_name := city_name; country := country;
                  country_code := country_code; state := state |})
  else Ok None.

Fixpoint parse_results (results : list value) (cities : list city)
  : result (list city) :=
  match results with
  | [] => Ok cities
  | result_ :: rest =>
      c ← parse_result result_;
      parse_results rest (cities ++ option_list c)%list
  end.

(** Remove duplicates based on display name. *)
Fixpoint unique (cities : list city) (seen : gset string) : list city :=
  match cities with
  | [] => []
  | c :: rest =>
      if decide (display c ∈ seen) then unique rest seen
      else c :: unique rest ({[display c]} ∪ seen)
  end.

(** The body of the [try]: the request, and what is made of the answer.
    What it assigns to [self] stays assigned when it raises. *)
Definition fetch (self : CityAutocomplete) (query : string) (limit : Z)
    (w : world) : result (list city) * CityAutocomplete * world :=
  let req := {| url := nominatim_url self;
                params := [("q", VStr query); ("format", VStr "json");
                           ("limit", VInt limit); ("featuretype", VStr "city");
                           ("addressdetails", VInt 1)];
                headers := user_agent self;
                timeout := 5 |} in
  let '(got, w) := get req w in
  match got ≫= (fun r => raise_for_status r ;; Ok r) with
  | Raised e => (Raised e, self, w)
  | Ok r =>
      let self := set_last_request_time self (clock w) in
      (results ← json r;
       elements ← iter results;
       cities ← parse_results elements [];
       Ok (unique cities ∅),
       self, w)
  end.

(** Rate limiting - wait if needed. *)
Definition wait_if_needed (self : CityAutocomplete) (w : world) : world :=
  let current_time := clock w in
  let time_since_last := (current_time - last_request_time self)%Q in
  if Qlt_le_dec time_since_last (min_request_interval self)
  then sleep (min_request_interval self - time_since_last)%Q w
  else w.

Definition search_cities (self : CityAutocomplete) (query : string)
    (limit : Z) (w : world) : list city * CityAutocomplete * world :=
  if bool_decide (query = "") || Nat.ltb (String.length query) 2
  then ([], self, w)
  else
    let key := cache_key query limit in
    match cache self !! key with
    | Some cached => (cached, self, w)
    | None =>
        let w := wait_if_needed self w in
        match fetch self query limit w with
        | (Ok unique_cities, self, w) =>
            (unique_cities, set_cache self key unique_cities, w)
        | (Raised e, self, w) =>
            ([], self, print ("Error searching cities: " +:+ exn_str e) w)
        end
    end.

End WithLib.

End Autocomplete.

(** ** weather_scraper.py *)

Module Scraper.
Import Net.

(** The object; [owm_api_key] is what [os.getenv] returned. *)
Record WeatherScraper : Type := {
  base_url : string;
  owm_api_key : option string;
  owm_base_url : string;
  owm_onecall_url : string;
  user_agent : list (string * string);
}.

Definition __init__ (getenv : string -> option string) : WeatherScraper := {|
  base_url := "https://wttr.in";
  owm_api_key := getenv "OPENWEATHERMAP_API_KEY";
  owm_base_url := "https://api.openweathermap.org/data/2.5";
  owm_onecall_url := "https://api.openweathermap.org/data/3.0/onecall";
  user_agent := [("User-Agent",
                  "Mozilla/5.0 (Windows NT 10.0; Win64; x64) AppleWebKit/537.36")];
|}.

(** [if self.owm_api_key:] *)
Definition has_key (self : WeatherScraper) : bool :=
  match owm_api_key self with
  | Some k => negb (String.eqb k "")
  | None => false
  end.

Definition appid (self : WeatherScraper) : value :=
  match owm_api_key self with
  | Some k => VStr k
  | None => VNone
  end.

(** A subscript: [v['k']] or [v[i]]; [at_path v [a; b; c]] is [v[a][b][c]]. *)
Inductive key : Set := K (k : string) | I (i : nat).

Definition subscript (v : value) (k : key) : result value :=
  match k with
  | K s => getitem v s
  | I i => getindex v i
  end.

Definition at_path (v : value) (path : list key) : result value :=
  foldl (fun r k => r ≫= fun v => subscript v k) (Ok v) path.

(** [{'k1': e1, 'k2': e2, ...}]: the values are computed in order. *)
Fixpoint dict_of (fields : list (string * result value))
  : result (list (string * value)) :=
  match fields with
  | [] => Ok []
  | (k, e) :: rest => v ← e; d ← dict_of rest; Ok ((k, v) :: d)
  end.

Definition directions : list string :=
  ["N"; "NNE"; "NE"; "ENE"; "E"; "ESE"; "SE"; "SSE";
   "S"; "SSW"; "SW"; "WSW"; "W"; "WNW"; "NW"; "NNW"].

(** The float literals [11.25], [22.5] and [3.6]. *)
Definition f_11_25 : float := dyadic 45 (-2).
Definition f_22_5 : float := dyadic 45 (-1).
Definition f_3_6 : float := ratio 36 10.

(** [int((degrees + 11.25) / 22.5) % 16] *)
Definition direction_index (degrees : value) : result Z :=
  x ← add_float degrees f_11_25;
  n ← int_of_float (fdiv x f_22_5);
  Ok (n mod 16).

Definition _degrees_to_direction (degrees : value) : result string :=
  index ← direction_index degrees;
  Ok (default "" (directions !! Z.to_nat index)).

Section WithLib.
Context {py : PyLib}.

Definition str_int (v : value) : result value :=
  n ← int v; Ok (VStr (pretty n)).

(** *** get_current_weather: the primary source *)

(** [location.get(k, [{}])[0].get('value', dflt)] *)
Definition area_field (location : value) (k : string) (dflt : string)
  : result value :=
  l ← dict_get location k (VList [VDict []]);
  first ← getindex l 0;
  dict_get first "value" (VStr dflt).

Definition wttr_weather_data (data : value) (city : string) (now : datetime)
  : result value :=
  current ← at_path data [K "current_condition"; I 0];
  location ← at_path data [K "nearest_area"; I 0];
  area_name ← area_field location "areaName" (title city);
  country ← area_field location "country" "Unknown";
  region ← area_field location "region" "";
  VDict <$> dict_of [
    ("city", Ok area_name);
    ("country", Ok country);
    ("region", Ok region);
    ("temperature", getitem current "temp_C");
    ("feels_like", getitem current "FeelsLikeC");
    ("condition", at_path current [K "weatherDesc"; I 0; K "value"]);
    ("humidity", getitem current "humidity");
    ("wind_speed", getitem current "windspeedKmph");
    ("wind_direction", getitem current "winddir16Point");
    ("pressure", getitem current "pressure");
    ("visibility", getitem current "visibility");
    ("uv_index", getitem current "uvIndex");
    ("precipitation", getitem current "precipMM");
    ("weather_code", getitem current "weatherCode");
    ("timestamp", Ok (VStr (isoformat now)));
    ("source", Ok (VStr "wttr.in"))
  ].

(** [f"{self.base_url}/{city}?format=j1"] *)
Definition wttr_request (self : WeatherScraper) (city : string) : request :=
  {| url := base_url self +:+ "/" +:+ city +:+ "?format=j1";
     params := [];
     headers := user_agent self;
     timeout := 10 |}.

(** The body of the [try]. *)
Definition try_wttr (self : WeatherScraper) (city : string)
    (now : datetime) : net value :=
  response ← get_ok (wttr_request self city);
  pure (data ← json response; wttr_weather_data data city now).

(** *** _get_weather_from_owm *)

Definition owm_weather_data (data : value) (now : datetime) : result value :=
  VDict <$> dict_of [
    ("city", getitem data "name");
    ("country", at_path data [K "sys"; K "country"]);
    ("region", Ok (VStr ""));
    ("temperature", at_path data [K "main"; K "temp"] ≫= str_int);
    ("feels_like", at_path data [K "main"; K "feels_like"] ≫= str_int);
    ("condition",
       d ← at_path data [K "weather"; I 0; K "description"];
       VStr <$> str_method "title" title d);
    ("humidity", v ← at_path data [K "main"; K "humidity"]; Ok (VStr (str v)));
    ("wind_speed",
       speed ← at_path data [K "wind"; K "speed"];
       kmh ← mul_float speed f_3_6;
       n ← int_of_float kmh;
       Ok (VStr (pretty n)));
    ("wind_direction",
       wind ← getitem data "wind";
       deg ← dict_get wind "deg" (VInt 0);
       VStr <$> _degrees_to_direction deg);
    ("pressure", v ← at_path data [K "main"; K "pressure"]; Ok (VStr (str v)));
    ("visibility",
       v ← dict_get data "visibility" (VInt 10000);
       km ← div_int v 1000;
       n ← int_of_float km;
       Ok (VStr (pretty n)));
    ("uv_index", Ok (VStr "0"));
    ("precipitation", Ok (VStr "0"));
    ("weather_code", v ← at_path data [K "weather"; I 0; K "id"]; Ok (VStr (str v)));
    ("timestamp", Ok (VStr (isoformat now)));
    ("source", Ok (VStr "OpenWeatherMap"))
  ].

Definition owm_request (self : WeatherScraper) (city : string) : request :=
  {| url := owm_base_url self +:+ "/weather";
     params := [("q", VStr city); ("appid", appid self); ("units", VStr "metric")];
     headers := [];
     timeout := 10 |}.

Definition _get_weather_from_owm (self : WeatherScraper) (city : string)
    (now : datetime) : net value :=
  response ← get_ok (owm_request self city);
  pure (data ← json response; owm_weather_data data now).

(** *** get_current_weather *)

Definition get_current_weather (self : WeatherScraper) (city : string)
    (now : datetime) : net value := fun w =>
  match try_wttr self city now w with
  | (Ok weather_data, w) => (Ok weather_data, w)
  | (Raised e, w) =>
      if has_key self then
        match _get_weather_from_owm self city now w with
        | (Ok weather_data, w) => (Ok weather_data, w)
        | (Raised owm_error, w) =>
            (raise Exception ("Both sources failed - wttr.in: " +:+ exn_str e
                                +:+ ", OpenWeatherMap: " +:+ exn_str owm_error), w)
        end
      else
        (raise Exception
           ("wttr.in failed and no OpenWeatherMap API key configured: "
              +:+ exn_str e), w)
  end.

(** *** get_tomorrow_forecast *)

Definition hourly_point (hour : value) : result value :=
  VDict <$> dict_of [
    ("time", getitem hour "time");
    ("temp", getitem hour "tempC");
    ("feels_like", getitem hour "FeelsLikeC");
    ("condition", at_path hour [K "weatherDesc"; I 0; K "value"]);
    ("precipitation", getitem hour "precipMM");
    ("humidity", getitem hour "humidity");
    ("wind_speed", getitem hour "windspeedKmph");
    ("chance_of_rain", getitem hour "chanceofrain")
  ].

Definition _parse_hourly (hourly_data : value) : result value :=
  hours ← iter hourly_data;
  VList <$> mapM hourly_point hours.

Definition forecast_data (tomorrow : value) : result value :=
  VDict <$> dict_of [
    ("date", getitem tomorrow "date");
    ("max_temp", getitem tomorrow "maxtempC");
    ("min_temp", getitem tomorrow "mintempC");
    ("avg_temp", getitem tomorrow "avgtempC");
    ("condition",
       at_path tomorrow [K "hourly"; I 4; K "weatherDesc"; I 0; K "value"]);
    ("sunrise", at_path tomorrow [K "astronomy"; I 0; K "sunrise"]);
    ("sunset", at_path tomorrow [K "astronomy"; I 0; K "sunset"]);
    ("moonrise", at_path tomorrow [K "astronomy"; I 0; K "moonrise"]);
    ("moonset", at_path tomorrow [K "astronomy"; I 0; K "moonset"]);
    ("moon_phase", at_path tomorrow [K "astronomy"; I 0; K "moon_phase"]);
    ("total_snow", getitem tomorrow "totalSnow_cm");
    ("sun_hour", getitem tomorrow "sunHour");
    ("uv_index", getitem tomorrow "uvIndex");
    ("hourly_forecast", getitem tomorrow "hourly" ≫= _parse_hourly)
  ].

(** What the [try] does with the document. *)
Definition tomorrow_of (data : value) : result value :=
  blocks ← getitem data "weather";
  n ← len blocks;
  if Z.ltb 1 n then
    tomorrow ← at_path data [K "weather"; I 1];
    forecast_data tomorrow
  else raise Exception "Tomorrow's forecast not available".

Definition get_tomorrow_forecast (self : WeatherScraper) (city : string)
  : net value := fun w =>
  match (response ← get_ok (wttr_request self city);
         pure (data ← json response; tomorrow_of data)) w with
  | (Ok forecast, w) => (Ok forecast, w)
  | (Raised e, w) =>
      if is_request_exception e then
        (raise Exception ("Failed to fetch forecast data: " +:+ exn_str e), w)
      else if is_parse_exception e then
        (raise Exception ("Failed to parse forecast data: " +:+ exn_str e), w)
      else (Raised e, w)
  end.

(** *** get_historical_weather

    [now k] is the clock in the pass of the loop for [day_offset = k]. *)

Definition geocode_request (self : WeatherScraper) (city : string) : request :=
  {| url := owm_base_url self +:+ "/weather";
     params := [("q", VStr city); ("appid", appid self)];
     headers := [];
     timeout := 10 |}.

Definition coord_request (self : WeatherScraper) (lat lon : value) : request :=
  {| url := owm_base_url self +:+ "/weather";
     params := [("lat", lat); ("lon", lon); ("appid", appid self);
                ("units", VStr "metric")];
     headers := [];
     timeout := 10 |}.

(** Noon, [day_offset] days ago. *)
Definition target_date (now : datetime) (day_offset : Z) : datetime :=
  replace_time (minus_days now day_offset) 12 0 0 0.

Definition daily_weather (location_data data : value) (target : datetime)
  : result value :=
  VDict <$> dict_of [
    ("city", getitem location_data "name");
    ("country", at_path location_data [K "sys"; K "country"]);
    ("temperature", at_path data [K "main"; K "temp"] ≫= str_int);
    ("humidity", v ← at_path data [K "main"; K "humidity"]; Ok (VStr (str v)));
    ("condition",
       d ← at_path data [K "weather"; I 0; K "description"];
       VStr <$> str_method "title" title d);
    ("timestamp", Ok (VStr (isoformat target)));
    ("date", Ok (VStr (date_isoformat target)))
  ].

(** [range(1, min(days + 1, 8))] *)
Definition day_offsets (days : Z) : list Z :=
  Z.of_nat <$> seq 1 (Z.to_nat (Z.min (days + 1) 8 - 1)).

Fixpoint history_loop (self : WeatherScraper) (location_data lat lon : value)
    (now : Z -> datetime) (offsets : list Z) (historical_data : list value)
  : net (list value) :=
  match offsets with
  | [] => mret historical_data
  | day_offset :: rest =>
      let target := target_date (now day_offset) day_offset in
      response ← get (coord_request self lat lon);
      if Z.eqb (status_code response) 200 then
        daily ← pure (data ← json response;
                      daily_weather location_data data target);
        history_loop self location_data lat lon now rest
                     (historical_data ++ [daily])%list
      else history_loop self location_data lat lon now rest historical_data
  end.

(** The body of the [try]. *)
Definition try_history (self : WeatherScraper) (city : string) (days : Z)
    (now : Z -> datetime) : net (list value) :=
  response ← get_ok (geocode_request self city);
  location_data ← pure (json response);
  lat ← pure (at_path location_data [K "coord"; K "lat"]);
  lon ← pure (at_path location_data [K "coord"; K "lon"]);
  history_loop self location_data lat lon now (day_offsets days) [].

Definition get_historical_weather (self : WeatherScraper) (city : string)
    (days : Z) (now : Z -> datetime) (w : world) : list value * world :=
  if negb (has_key self) then ([], w)
  else
    match try_history self city days now w with
    | (Ok historical_data, w) => (historical_data, w)
    | (Raised e, w) =>
        ([], print ("Error fetching historical data: " +:+ exn_str e) w)
    end.

End WithLib.

End Scraper.

(** * Notions of the specification *)

(** ** The local store *)

Module StorageSpec.
Import Storage.

(** [m] is the most recent Monday 00:00:00 at the moment [now]. *)
Definition most_recent_monday (now m : datetime) : Prop :=
  weekday m = 0 /\ micros m = 0 /\ le m now /\
  forall m', weekday m' = 0 -> micros m' = 0 -> le m' now -> le m' m.

(** The search history after the calls [calls] (oldest first), as pairs of
    city and time of the call, newest first. *)
Definition recorded (stored : list (string * datetime)) (call : string * datetime)
  : list (string * datetime) :=
  take 20 (call :: filter (fun e => lower e.1 <> lower call.1) stored).

Section WithLib.
Context {py : PyLib}.

(** The timestamp of a stored entry, when it has a naive one. *)
Definition entry_time (entry : value) : option datetime :=
  match getitem entry "timestamp" with
  | Ok (VStr s) => match fromisoformat s with
                   | Naive d => Some d
                   | _ => None
                   end
  | _ => None
  end.

(** A sequence of [add_search] calls, oldest first. *)
Fixpoint record_searches (self : DataStorage) (calls : list (string * datetime))
  : io unit :=
  match calls with
  | [] => mret tt
  | (city, now) :: rest => add_search self city now ;; record_searches self rest
  end.

Definition entries (stored : list (string * datetime)) : list value :=
  (fun e => search_entry e.1 e.2) <$> stored.

End WithLib.
End StorageSpec.


(** ** The weather source adapter *)

Module ScraperSpec.
Import Net Scraper.

(** The errors the specification names are all raised as plain
    [Exception]s; they differ by their message. *)
Definition SourceUnavailable (message : string) : exn := Exn Exception message.

Definition ForecastUnavailable : exn :=
  Exn Exception "Tomorrow's forecast not available".

(** The exact value of a finite float. *)
Definition float_value (f : float) : option Q :=
  match f with
  | S754_zero _ => Some 0%Q
  | S754_finite s m e =>
      let n := if s then Z.neg m else Z.pos m in
      Some (if Z.leb 0 e then inject_Z (n * 2 ^ e) else n # Z.to_pos (2 ^ (- e)))
  | _ => None
  end.

(** Rounding toward zero. *)
Definition truncate (q : Q) : Z :=
  if Qle_bool 0 q then Qfloor q else Qceiling q.

(** Rounding to the nearest integer, a tie to the even one ([round]). *)
Definition round_nearest (q : Q) : Z :=
  let below := Qfloor q in
  match (q - inject_Z below ?= 1 # 2)%Q with
  | Lt => below
  | Gt => below + 1
  | Eq => if Z.even below then below else below + 1
  end.

(** The specification's words: [round((deg + 11.25) / 22.5) mod 16]. *)
Definition claimed_direction_index (deg : Q) : Z :=
  round_nearest ((deg + (1125 # 100)) / (225 # 10)) mod 16.

(** The specification's words: [s * 3.6], rounded to the nearest integer. *)
Definition claimed_wind_speed (s : Q) : Z :=
  round_nearest (s * (36 # 10)).

End ScraperSpec.

(** ** The city resolver *)

Module AutocompleteSpec.
Import Net Autocomplete.

Section WithLib.
Context {py : PyLib}.

(** The call reaches the network and its [try] raises: the failure that
    is printed and answered with the empty list. *)
Definition fetch_failed (self : CityAutocomplete) (query : string) (limit : Z)
    (w : world) : Prop :=
  (2 <= String.length query)%nat /\
  cache self !! cache_key query limit = None /\
  exists e, (fetch self query limit (wait_if_needed self w)).1.1 = Raised e.

End WithLib.

(** Time passes between two calls. *)
Definition later (seconds : Q) (w : world) : world := sleep seconds w.

End AutocompleteSpec.

(** ** Sample inputs *)

Module Samples.
Import Net.

Definition scraper : Scraper.WeatherScraper :=
  Scraper.__init__ (fun name =>
    if String.eqb name "OPENWEATHERMAP_API_KEY" then Some "0123456789abcdef"
    else None).

Definition scraper_without_key : Scraper.WeatherScraper :=
  Scraper.__init__ (fun _ => None).

(** Wednesday 2024-01-03, 10:00:00. *)
Definition wednesday : datetime := DT 738888 36000000000.

(** A current-weather document of the fallback source: wind of 1.0 m/s
    from 10 degrees. *)
Definition owm_document : value :=
  VDict [
    ("coord", VDict [("lon", VFloat (ratio 1075 100)); ("lat", VFloat (ratio 5991 100))]);
    ("weather", VList [VDict [("id", VInt 803); ("main", VStr "Clouds");
                              ("description", VStr "broken clouds")]]);
    ("main", VDict [("temp", VFloat (ratio 57 10)); ("feels_like", VFloat (ratio 31 10));
                    ("pressure", VInt 1012); ("humidity", VInt 81)]);
    ("visibility", VInt 10000);
    ("wind", VDict [("speed", VFloat (dyadic 1 0)); ("deg", VInt 10)]);
    ("sys", VDict [("country", VStr "NO")]);
    ("name", VStr "Oslo")
  ].

Definition answers (document : value) : exchange :=
  {| outcome := inr {| status_code := 200; http_error := ""; json := Ok document |};
     duration := 1 # 5 |}.

Definition unavailable : exchange :=
  {| outcome := inr {| status_code := 503;
                       http_error := "503 Server Error: Service Unavailable";
                       json := raise RequestsJSONDecodeError
                                 "Expecting value: line 1 column 1 (char 0)" |};
     duration := 1 # 20 |}.

Definition unreachable : exchange :=
  {| outcome := inl (Exn RequestException "Connection refused");
     duration := 1 # 20 |}.

Definition world_of (network : nat -> request -> exchange) : world :=
  {| clock := 1700000000; network := network; sent := []; stdout := [] |}.

(** The primary source is down; the fallback answers. *)
Definition primary_down : world :=
  world_of (fun n _ => match n with
                       | O => unavailable
                       | _ => answers owm_document
                       end).

(** The fallback answers every request. *)
Definition fallback_up : world := world_of (fun _ _ => answers owm_document).

(** Both sources are down. *)
Definition both_down : world := world_of (fun _ _ => unavailable).

(** A geocoding answer with one place. *)
Definition nominatim_document : value :=
  VList [VDict [("name", VStr "Paris");
                ("address", VDict [("city", VStr "Paris");
                                   ("state", VStr "Ile-de-France");
                                   ("country", VStr "France");
                                   ("country_code", VStr "fr")])]].

(** The first geocoding request is refused, the later ones are answered. *)
Definition refused_once : world :=
  world_of (fun n _ => match n with
                       | O => unreachable
                       | _ => answers nominatim_document
                       end).

(** The geocoding service answers. *)
Definition geocoder_up : world := world_of (fun _ _ => answers nominatim_document).

(** One three-hour bucket and one daily block of the primary source. *)
Definition hourly_bucket (time condition : string) : value :=
  VDict [("time", VStr time); ("tempC", VStr "4"); ("FeelsLikeC", VStr "1");
         ("weatherDesc", VList [VDict [("value", VStr condition)]]);
         ("precipMM", VStr "0.0"); ("humidity", VStr "81");
         ("windspeedKmph", VStr "10"); ("chanceofrain", VStr "0")].

Definition daily_block (date : string) : value :=
  VDict [("date", VStr date); ("maxtempC", VStr "6"); ("mintempC", VStr "1");
         ("avgtempC", VStr "4"); ("totalSnow_cm", VStr "0.0");
         ("sunHour", VStr "5.5"); ("uvIndex", VStr "1");
         ("astronomy", VList [VDict [("sunrise", VStr "09:16 AM");
                                     ("sunset", VStr "03:23 PM");
                                     ("moonrise", VStr "12:14 AM");
                                     ("moonset", VStr "11:42 AM");
                                     ("moon_phase", VStr "Last Quarter")]]);
         ("hourly", VList [hourly_bucket "0" "Clear"; hourly_bucket "300" "Clear";
                           hourly_bucket "600" "Cloudy"; hourly_bucket "900" "Cloudy";
                           hourly_bucket "1200" "Partly cloudy";
                           hourly_bucket "1500" "Sunny"; hourly_bucket "1800" "Clear";
                           hourly_bucket "2100" "Clear"])].

Definition wttr_document (blocks : list value) : value :=
  VDict [("current_condition", VList []); ("nearest_area", VList []);
         ("weather", VList blocks)].

(** The primary source answers with a document of one daily block, or
    of two. *)
Definition one_day : world :=
  world_of (fun _ _ => answers (wttr_document [daily_block "2024-01-03"])).

Definition two_days : world :=
  world_of (fun _ _ => answers (wttr_document [daily_block "2024-01-03";
                                                daily_block "2024-01-04"])).

(** The fallback answers, but the request of the second pass of the loop
    over the days is refused. *)
Definition refused_on_second_day : world :=
  world_of (fun n _ => match n with
                       | 2%nat => unreachable
                       | _ => answers owm_document
                       end).

(** The store in the directory [data], and its files when new. *)
Definition storage : Storage.DataStorage :=
  {| Storage.data_dir := "data";
     Storage.history_file := "data/weather_history.json";
     Storage.search_file := "data/search_history.json" |}.

Definition new_files : Storage.fs := (Storage.__init__ "data" ∅).2.

(** A weather history for Oslo: snapshots of last Saturday and of this
    Tuesday, one with a broken timestamp and one without any. *)
Definition snapshot (fields : list (string * value)) : value :=
  VDict (("temperature", VStr "4") :: fields).

Definition saturday_snapshot : value :=
  snapshot [("timestamp", VStr "2023-12-30T18:30:00")].
Definition tuesday_snapshot : value :=
  snapshot [("timestamp", VStr "2024-01-02T08:15:00.250000")].

Definition oslo_snapshots : list value :=
  [saturday_snapshot; tuesday_snapshot;
   snapshot [("timestamp", VStr "yesterday")]; snapshot []].

Definition oslo_files : Storage.fs :=
  <[Storage.history_file storage :=
      Storage.Json (VDict [("oslo", VList oslo_snapshots)])]> new_files.

(** Two searches, a minute apart. *)
Definition paris_twice : list (string * datetime) :=
  [("Paris", wednesday); ("paris", DT 738888 36060000000)].

(** *** Runs *)

Abbreviation lib := Cpython.lib.

(** The primary attempt when both sources are down, and its failure. *)
Definition primary_attempt : result value * world :=
  Scraper.try_wttr (py := lib) scraper "Oslo" wednesday both_down.

Definition service_unavailable : exn :=
  Exn RequestException "503 Server Error: Service Unavailable".

(** The current weather when only the primary source is down. *)
Definition fallback_run : result value * world :=
  Scraper.get_current_weather (py := lib) scraper "Oslo" wednesday primary_down.

Definition fallback_weather : value :=
  match fallback_run.1 with
  | Ok weather_data => weather_data
  | Raised _ => VNone
  end.

(** The forecast from the document of two days. *)
Definition forecast_run : result value * world :=
  Scraper.get_tomorrow_forecast scraper "Oslo" two_days.

Definition forecast : value :=
  match forecast_run.1 with
  | Ok f => f
  | Raised _ => VNone
  end.

(** A search whose request is refused; the same search again; another
    search 0.1 s after the first. *)
Definition refused_search :=
  Autocomplete.search_cities (py := lib) Autocomplete.__init__ "Paris" 8
                             refused_once.

Definition repeated_search :=
  Autocomplete.search_cities (py := lib) refused_search.1.2 "Paris" 8
                             refused_search.2.

Definition next_search :=
  Autocomplete.search_cities (py := lib) refused_search.1.2 "Berlin" 8
                             (AutocompleteSpec.later (1 # 10) refused_search.2).

(** A search that is answered. *)
Definition answered_search :=
  Autocomplete.search_cities (py := lib) Autocomplete.__init__ "Paris" 8
                             geocoder_up.

End Samples.

(** ** Further notions *)

Module StorageNotions.
Import Storage StorageSpec.

(** No file at the path, or one whose text is not JSON: what [_read_json]
    answers with its default. *)
Definition without_document (s : fs) (path : string) : Prop :=
  s !! path = None \/ s !! path = Some Unparseable.

Section WithLib.
Context {py : PyLib}.

(** The entry carries a naive timestamp of the week of [now]. *)
Definition in_week (now : datetime) (entry : value) : Prop :=
  exists d, entry_time entry = Some d /\ le (start_of_week now) d.

(** The snapshot as [save_weather_data] stores it. *)
Definition stamped (weather_data : list (string * value)) (now : datetime)
  : value :=
  VDict match assoc "timestamp" weather_data with
        | None => assoc_set "timestamp" (VStr (isoformat now)) weather_data
        | Some _ => weather_data
        end.

End WithLib.
End StorageNotions.

Module AutocompleteNotions.
Import Net Autocomplete.

(** Every cached sequence has pairwise different display names. *)
Definition cache_unique (self : CityAutocomplete) : Prop :=
  forall key cities,
    cache self !! key = Some cities -> NoDup (display <$> cities).

(** The response is not one for which [raise_for_status] raises. *)
Definition good_status (r : response) : Prop :=
  Z.leb 400 (status_code r) && Z.ltb (status_code r) 600 = false.

End AutocompleteNotions.

(** ** weather_scraper.py: get_weather_emoji *)

Module Emoji.

(** The ten glyphs the function returns, by what they show. *)
Inductive glyph : Set :=
| Sun | SunBehindCloud | Cloud | CloudWithRain | SunBehindRainCloud
| ThunderCloud | Snowflake | Fog | Dash | SunBehindSmallCloud.

(** [weather_code] is accepted and not looked at. *)
Definition get_weather_emoji (condition : string) (weather_code : option string)
  : glyph :=
  let condition_lower := lower condition in
  let has word := str_contains word condition_lower in
  if has "sunny" || has "clear" then Sun
  else if has "partly cloudy" then SunBehindCloud
  else if has "cloudy" || has "overcast" then Cloud
  else if has "rain" || has "drizzle" then
    if has "heavy" then CloudWithRain else SunBehindRainCloud
  else if has "thunder" || has "storm" then ThunderCloud
  else if has "snow" then Snowflake
  else if has "fog" || has "mist" then Fog
  else if has "wind" then Dash
  else SunBehindSmallCloud.

End Emoji.

Module ScraperNotions.
Import Net Scraper.

(** [f] holds of the [n] integers from [from] on. *)
Fixpoint all_from (f : Z -> bool) (n : nat) (from : Z) : bool :=
  match n with
  | O => true
  | S n => f from && all_from f n (from + 1)
  end.

(** [int(v / 1000)] gives the whole kilometres of [v] metres. *)
Definition whole_kilometres (v : Z) : bool :=
  match km ← div_int (VInt v) 1000; int_of_float km with
  | Ok n => Z.eqb n (v / 1000)
  | Raised _ => false
  end.

Section WithLib.
Context {py : PyLib}.

(** One point of the hourly forecast carries the fields of its bucket. *)
Definition point_of (hour point : value) : Prop :=
  getitem point "time" = getitem hour "time" /\
  getitem point "temp" = getitem hour "tempC" /\
  getitem point "feels_like" = getitem hour "FeelsLikeC" /\
  getitem point "condition"
    = at_path hour [K "weatherDesc"; I 0; K "value"] /\
  getitem point "precipitation" = getitem hour "precipMM" /\
  getitem point "humidity" = getitem hour "humidity" /\
  getitem point "wind_speed" = getitem hour "windspeedKmph" /\
  getitem point "chance_of_rain" = getitem hour "chanceofrain".

(** The sample of the historical series for the day [k] days back. *)
Definition sample_of (now : Z -> datetime) (k : Z) (entry : value) : Prop :=
  getitem entry "timestamp" = Ok (VStr (isoformat (target_date (now k) k))) /\
  getitem entry "date" = Ok (VStr (date_isoformat (target_date (now k) k))).

End WithLib.
End ScraperNotions.

(** ** Further sample inputs *)

Module MoreSamples.
Import Net Samples.

(** Thursday 2024-01-04, 00:00:00, of the week of [wednesday]. *)
Definition thursday : datetime := DT 738889 0.

(** A library whose [fromisoformat] also reads the offset [+00:00]. *)
Definition fromisoformat_utc (s : string) : parsed :=
  let n := String.length s in
  if String.eqb (substring (n - 6) 6 s) "+00:00" then
    match Cpython.fromisoformat (substring 0 (n - 6) s) with
    | Naive d => Aware d 0
    | _ => Invalid
    end
  else Cpython.fromisoformat s.

Definition lib_with_offsets : PyLib :=
  Build_PyLib Cpython.upper Cpython.title Cpython.str_float (fun _ => "[...]")
              Cpython.int_of_str Cpython.isoformat Cpython.date_isoformat
              fromisoformat_utc.

(** A history whose one snapshot carries a UTC offset. *)
Definition aware_snapshot : value :=
  snapshot [("timestamp", VStr "2024-01-02T08:15:00+00:00")].

Definition aware_files : Storage.fs :=
  <[Storage.history_file storage :=
      Storage.Json (VDict [("oslo", VList [aware_snapshot])])]> new_files.

(** Both files hold bytes that are not UTF-8 text. *)
Definition not_utf8 : string :=
  "'utf-8' codec can't decode byte 0xff in position 0: invalid start byte".

Definition undecodable_files : Storage.fs :=
  <[Storage.history_file storage := Storage.Undecodable not_utf8]>
    (<[Storage.search_file storage := Storage.Undecodable not_utf8]> ∅).

(** A file stands where the data directory should. *)
Definition occupied_files : Storage.fs :=
  <["data" := Storage.Json (VList [])]> ∅.

(** A search file with an entry that has no [city]. *)
Definition nameless_entry : value :=
  VDict [("timestamp", VStr "2024-01-02T08:15:00")].

Definition nameless_files : Storage.fs :=
  <[Storage.search_file storage := Storage.Json (VList [nameless_entry])]>
    new_files.

(** A snapshot without a timestamp, and saving it for Oslo. *)
Definition fresh_snapshot : list (string * value) := [("temperature", VStr "5")].

Definition saved_run : result unit * Storage.fs :=
  Storage.save_weather_data (py := lib) storage "Oslo" fresh_snapshot
                            wednesday wednesday oslo_files.

Definition cleared_run : result unit * Storage.fs :=
  Storage.clear_old_data (py := lib) storage (fun _ => wednesday) oslo_files.

(** The refusal that [unreachable] raises, and the answer of [answers]. *)
Definition refusal : exn := Exn RequestException "Connection refused".

Definition answer (document : value) : response :=
  {| status_code := 200; http_error := ""; json := Ok document |}.

(** The fallback answers, but the second request of the loop over the
    days with status 503: what the days' requests are answered with, and the
    run of seven days. *)
Definition service_down : response :=
  {| status_code := 503;
     http_error := "503 Server Error: Service Unavailable";
     json := raise RequestsJSONDecodeError
               "Expecting value: line 1 column 1 (char 0)" |}.

Definition second_day_down (k : nat) : response :=
  match k with
  | 2%nat => service_down
  | _ => answer owm_document
  end.

Definition unavailable_on_second_day : world :=
  world_of (fun n _ => match n with
                       | 2%nat => unavailable
                       | _ => answers owm_document
                       end).

Definition six_days_run : list value * world :=
  Scraper.get_historical_weather (py := lib) scraper "Oslo" 7
                                 (fun _ => wednesday) unavailable_on_second_day.

(** Another search, made as soon as [answered_search] has returned. *)
Definition berlin_search :=
  Autocomplete.search_cities (py := lib) answered_search.1.2 "Berlin" 8
                             answered_search.2.

(** A document of the primary source with its current condition. *)
Definition current_condition : value :=
  VDict [("temp_C", VStr "4"); ("FeelsLikeC", VStr "1");
         ("weatherDesc", VList [VDict [("value", VStr "Partly cloudy")]]);
         ("humidity", VStr "81"); ("windspeedKmph", VStr "10");
         ("winddir16Point", VStr "SSW"); ("pressure", VStr "1012");
         ("visibility", VStr "10"); ("uvIndex", VStr "1");
         ("precipMM", VStr "0.0"); ("weatherCode", VStr "116")].

Definition nearest_area : value :=
  VDict [("areaName", VList [VDict [("value", VStr "Oslo")]]);
         ("country", VList [VDict [("value", VStr "Norway")]]);
         ("region", VList [VDict [("value", VStr "Oslo County")]])].

Definition current_document : value :=
  VDict [("current_condition", VList [current_condition]);
         ("nearest_area", VList [nearest_area]);
         ("weather", VList [daily_block "2024-01-03"; daily_block "2024-01-04"])].

Definition primary_up : world := world_of (fun _ _ => answers current_document).

Definition primary_run : result value * world :=
  Scraper.get_current_weather (py := lib) scraper "Oslo" wednesday primary_up.

Definition primary_weather : value :=
  match primary_run.1 with
  | Ok weather_data => weather_data
  | Raised _ => VNone
  end.

(** The primary source refuses the connection; it answers with an empty
    object. *)
Definition primary_unreachable : world := world_of (fun _ _ => unreachable).

Definition empty_object : world := world_of (fun _ _ => answers (VDict [])).

End MoreSamples.
(** * Properties of the local store *)

Module StorageProofs.
Import Storage StorageSpec.

Lemma leb_le a b : leb a b = true <-> le a b.
Proof.
  unfold leb, le.
  rewrite orb_true_iff, andb_true_iff, Z.ltb_lt, Z.eqb_eq, Z.leb_le. tauto.
Qed.

Lemma start_of_week_most_recent now :
  valid now -> most_recent_monday now (start_of_week now).
Proof.
  unfold valid, most_recent_monday, start_of_week, weekday, le, day_micros.
  destruct now as [o us]; simpl. intros Hus.
  repeat split.
  - Z.div_mod_to_equations; lia.
  - Z.div_mod_to_equations; lia.
  - intros [o' us']; simpl. intros Hmon -> Hle.
    Z.div_mod_to_equations; lia.
Qed.

Section WithLib.
Context {py : PyLib}.

Lemma in_current_week_time start entry :
  in_current_week start entry = Ok true ->
  exists d, entry_time entry = Some d /\ le start d.
Proof.
  unfold in_current_week, entry_time, mbind, result_bind.
  destruct (getitem entry "timestamp") as [ts|]; [|discriminate].
  destruct ts; try discriminate.
  destruct (fromisoformat s); try discriminate.
  intros [= Hle]. exists d. split; [done|]. by apply leb_le.
Qed.

Lemma filter_loop_Forall (P : value -> Prop) start :
  (forall entry, in_current_week start entry = Ok true -> P entry) ->
  forall data filtered l,
    Forall P filtered -> filter_loop start data filtered = Ok l -> Forall P l.
Proof.
  intros HP. induction data as [|entry rest IH]; simpl; intros filtered l Hacc.
  - by intros [= <-].
  - destruct (in_current_week start entry) as [[]|e] eqn:E.
    + apply IH. apply Forall_app; split; [done|]. constructor; [by apply HP|constructor].
    + by apply IH.
    + destruct (skipped e); [by apply IH | discriminate].
Qed.

Lemma _filter_current_week_Forall now data l :
  _filter_current_week now data = Ok l ->
  Forall (fun entry => exists d, entry_time entry = Some d
                                 /\ le (start_of_week now) d) l.
Proof.
  unfold _filter_current_week, mbind, result_bind.
  destruct (iter data) as [es|]; [|discriminate].
  apply filter_loop_Forall; [apply in_current_week_time | constructor].
Qed.

(** Reading leaves the files as they are. *)
Lemma _read_json_state filepath s :
  exists r, _read_json filepath s = (r, s).
Proof. unfold _read_json. by eexists. Qed.

(** What a call of [get_weather_history] returns and leaves behind. *)
Lemma get_weather_history_cases self city now s :
  (get_weather_history self city now s).2 = s /\
  (forall l, (get_weather_history self city now s).1 = Ok l ->
     l = [] \/ exists data, _filter_current_week now data = Ok l).
Proof.
  unfold get_weather_history, mbind, io_bind, lift, mret, io_ret.
  destruct (_read_json_state (history_file self) s) as [[history|e] ->];
    [|split; [done|discriminate]].
  destruct (contains (lower city) history) as [[]|]; simpl.
  - destruct (getitem history (lower city)) as [data|]; simpl.
    + split; [done|]. intros l Hl. right. by exists data.
    + split; [done|]. discriminate.
  - split; [done|]. intros l [= <-]. by left.
  - split; [done|]. discriminate.
Qed.

(** C7. For every city and every persisted state, each entry that
    [get_weather_history] returns carries a timestamp at or after the most
    recent Monday 00:00:00 (local time); nothing from before the current
    week is returned. *)
Theorem get_weather_history_current_week self city now s l s' :
  valid now ->
  get_weather_history self city now s = (Ok l, s') ->
  exists monday,
    most_recent_monday now monday /\
    Forall (fun entry => exists d, entry_time entry = Some d /\ le monday d) l.
Proof.
  intros Hnow Hrun. exists (start_of_week now).
  split; [by apply start_of_week_most_recent|].
  destruct (get_weather_history_cases self city now s) as [_ Hl].
  destruct (Hl l) as [->|[data Hdata]]; [by rewrite Hrun | constructor |].
  by eapply _filter_current_week_Forall.
Qed.

Lemma filter_loop_sublist start : forall data filtered l,
  filter_loop start data filtered = Ok l ->
  exists kept, l = (filtered ++ kept)%list /\ kept `sublist_of` data.
Proof.
  induction data as [|entry rest IH]; cbn; intros filtered l.
  - intros [= <-]. exists []. by rewrite app_nil_r.
  - assert (Hskip : filter_loop start rest filtered = Ok l ->
      exists kept, l = (filtered ++ kept)%list /\ kept `sublist_of` entry :: rest).
    { intros (kept & -> & Hsub)%IH. exists kept. split; [done|].
      by apply sublist_cons. }
    destruct (in_current_week start entry) as [[]|e]; [|done|].
    + intros (kept & -> & Hsub)%IH. exists (entry :: kept).
      split; [by rewrite <-app_assoc|]. by apply sublist_skip.
    + destruct (skipped e); [done|discriminate].
Qed.

(** C10. [get_weather_history] writes nothing: whatever it returns or
    raises, every file is as it was. The week purge shows only in the
    returned sequence, a subsequence of the stored one; the entries of
    earlier weeks stay on disk. *)
Theorem get_weather_history_read_only self city now s :
  (get_weather_history self city now s).2 = s /\
  forall history stored returned,
    s !! history_file self = Some (Json (VDict history)) ->
    assoc (lower city) history = Some (VList stored) ->
    (get_weather_history self city now s).1 = Ok returned ->
    returned `sublist_of` stored /\
    (get_weather_history self city now s).2 !! history_file self
      = Some (Json (VDict history)).
Proof.
  destruct (get_weather_history_cases self city now s) as [Hs _].
  split; [done|]. intros history stored returned Hfile Hcity.
  rewrite Hs. intros Hrun. split; [|done]. revert Hrun.
  unfold get_weather_history, mbind, io_bind, _read_json, lift, mret, io_ret.
  rewrite Hfile. cbn [contains]. rewrite Hcity.
  rewrite bool_decide_eq_true_2 by done. cbn [negb getitem]. rewrite Hcity.
  cbn [fst]. unfold _filter_current_week. cbn [iter mbind result_bind].
  by intros (kept & -> & Hsub)%filter_loop_sublist.
Qed.

(** *** The search history *)

Lemma path_join_inj dir a b : path_join dir a = path_join dir b -> a = b.
Proof.
  unfold path_join. destruct dir as [|c dir]; [done|].
  destruct (String.eqb _ "/"); intros Heq.
  - by apply (String.app_inj (String c dir)).
  - by apply (String.app_inj "/"), (String.app_inj (String c dir)).
Qed.

(** The run of [__init__]: nothing is written when [os.makedirs] raises. *)
Lemma __init___run dir s :
  let history := path_join dir "weather_history.json" in
  let search := path_join dir "search_history.json" in
  __init__ dir s
  = match (makedirs dir s).1 with
    | Raised e => (Raised e, s)
    | Ok _ =>
        let s1 := match s !! history with
                  | None => <[history := Json (VDict [])]> s
                  | Some _ => s
                  end in
        (Ok {| data_dir := dir; history_file := history; search_file := search |},
         match s1 !! search with
         | None => <[search := Json (VList [])]> s1
         | Some _ => s1
         end)
    end.
Proof.
  intros history search.
  unfold __init__, makedirs, mbind, io_bind, path_exists, _write_json, mret,
    io_ret.
  cbn [history_file search_file fst]. fold history search.
  destruct (if String.eqb dir "" then _ else _) as [[]|e]; [|done].
  destruct (s !! history) as [content|] eqn:Hhistory.
  - rewrite bool_decide_eq_true_2 by done. cbn [negb].
    destruct (s !! search) as [content'|] eqn:Hsearch.
    + by rewrite bool_decide_eq_true_2.
    + rewrite bool_decide_eq_false_2; [done|]. by intros [? [=]].
  - rewrite bool_decide_eq_false_2 by (by intros [? [=]]). cbn [negb].
    destruct (<[history := Json (VDict [])]> s !! search) as [content'|]
      eqn:Hsearch.
    + by rewrite bool_decide_eq_true_2.
    + rewrite bool_decide_eq_false_2; [done|]. by intros [? [=]].
Qed.

(** A new store has an empty search history. *)
Lemma __init___search_file dir s :
  (makedirs dir s).1 = Ok tt ->
  s !! path_join dir "search_history.json" = None ->
  exists self,
    (__init__ dir s).1 = Ok self /\
    search_file self = path_join dir "search_history.json" /\
    (__init__ dir s).2 !! search_file self = Some (Json (VList [])).
Proof.
  intros Hmade Hnew. rewrite __init___run, Hmade. cbn zeta.
  eexists. split; [reflexivity|]. split; [reflexivity|].
  cbn [snd search_file].
  assert (Hne : path_join dir "weather_history.json"
                <> path_join dir "search_history.json")
    by (by intros ?%path_join_inj).
  destruct (s !! path_join dir "weather_history.json").
  - rewrite Hnew. by rewrite lookup_insert_eq.
  - rewrite lookup_insert_ne, Hnew by done. by rewrite lookup_insert_eq.
Qed.

Lemma without_city_entries city stored :
  without_city city (entries stored)
  = Ok (entries (filter (fun e => lower e.1 <> lower city) stored)).
Proof.
  induction stored as [|[c t] rest IH]; [done|].
  cbn [entries fmap list_fmap without_city] in *. fold (entries rest).
  rewrite IH. cbn.
  case_bool_decide; case_decide; done || reflexivity.
Qed.

Lemma add_search_entries self city now s stored :
  s !! search_file self = Some (Json (VList (entries stored))) ->
  add_search self city now s
  = (Ok tt, <[search_file self :=
               Json (VList (entries (recorded stored (city, now))))]> s).
Proof.
  intros Hfile.
  unfold add_search, mbind, io_bind, _read_json, _write_json, lift.
  rewrite Hfile. cbn [iter]. rewrite without_city_entries.
  unfold recorded, entries. by rewrite fmap_take.
Qed.

Lemma record_searches_entries self calls : forall s stored,
  s !! search_file self = Some (Json (VList (entries stored))) ->
  exists s',
    record_searches self calls s = (Ok tt, s') /\
    s' !! search_file self
      = Some (Json (VList (entries (foldl recorded stored calls)))).
Proof.
  induction calls as [|[city now] rest IH]; intros s stored Hfile.
  - exists s. by split.
  - cbn [record_searches foldl]. unfold mbind, io_bind.
    rewrite (add_search_entries _ _ _ _ _ Hfile).
    apply IH. by rewrite lookup_insert_eq.
Qed.

Lemma get_search_history_entries self s stored :
  s !! search_file self = Some (Json (VList (entries stored))) ->
  get_search_history self s = (Ok (VStr <$> stored.*1), s).
Proof.
  intros Hfile.
  unfold get_search_history, mbind, io_bind, _read_json, lift.
  rewrite Hfile. cbn [iter]. f_equal. clear Hfile.
  induction stored as [|[c t] rest IH]; [done|].
  cbn [entries fmap list_fmap mapM] in *. fold (entries rest). rewrite IH. reflexivity.
Qed.

(** The bound, the uniqueness and the order, one call at a time. *)
Lemma recorded_invariant stored call seen :
  (length stored <= 20)%nat ->
  NoDup (lower <$> stored.*1) ->
  stored `sublist_of` seen ->
  (length (recorded stored call) <= 20)%nat /\
  NoDup (lower <$> (recorded stored call).*1) /\
  recorded stored call `sublist_of` call :: seen /\
  head (recorded stored call) = Some call.
Proof.
  intros Hlen Hnd Hsub. unfold recorded.
  set (kept := filter (fun e => lower e.1 <> lower call.1) stored).
  assert (Hkept : kept `sublist_of` stored) by apply sublist_filter.
  repeat split.
  - rewrite length_take. lia.
  - apply (sublist_NoDup _ (lower <$> (call :: kept).*1));
      [|do 2 apply fmap_sublist; apply sublist_take].
    cbn. apply NoDup_cons. split.
    + intros (k & Hk & Hin)%list_elem_of_fmap.
      apply list_elem_of_fmap in Hin as (e & -> & He).
      apply list_elem_of_filter in He as [He _]. by apply He.
    + apply (sublist_NoDup _ (lower <$> stored.*1)); [done|].
      by do 2 apply fmap_sublist.
  - etrans; [apply sublist_take|]. apply sublist_skip. by etrans.
Qed.

Lemma foldl_recorded_invariant calls : forall stored seen,
  (length stored <= 20)%nat ->
  NoDup (lower <$> stored.*1) ->
  stored `sublist_of` seen ->
  let final := foldl recorded stored calls in
  (length final <= 20)%nat /\
  NoDup (lower <$> final.*1) /\
  final `sublist_of` (reverse calls ++ seen)%list /\
  (calls <> [] -> head final = last calls).
Proof.
  induction calls as [|call rest IH]; intros stored seen Hlen Hnd Hsub;
    cbn [foldl].
  - by repeat split.
  - destruct (recorded_invariant stored call seen) as (Hl & Hn & Hs & Hh); [lia|done..|].
    destruct (IH _ _ Hl Hn Hs) as (Hl' & Hn' & Hs' & Hh').
    repeat split; [done..| |].
    + by rewrite reverse_cons, <-app_assoc.
    + intros _. destruct rest as [|call' rest']; [done|].
      rewrite Hh' by done. done.
Qed.

(** Read by the clock: while the clock does not run backwards from one
    call to the next, a subsequence of the calls read backwards has its
    times in descending order. *)
Lemma newest_first_by_time (stored calls : list (string * datetime)) :
  stored `sublist_of` reverse calls ->
  StronglySorted (fun a b => le a.2 b.2) calls ->
  StronglySorted (fun a b => le b.2 a.2) stored.
Proof.
  intros Hsub Hcalls.
  assert (Hrev : StronglySorted (fun a b => le b.2 a.2) (reverse calls)).
  { clear Hsub. induction Hcalls as [|c calls _ IH Hc].
    - constructor.
    - rewrite reverse_cons. apply StronglySorted_app. repeat split.
      + intros a b Ha ->%list_elem_of_singleton.
        rewrite Forall_forall in Hc. apply Hc.
        by apply elem_of_reverse.
      + done.
      + repeat constructor. }
  clear Hcalls. induction Hsub as [|x l1 l2 Hsub IH|x l1 l2 Hsub IH].
  - constructor.
  - apply StronglySorted_cons in Hrev as [Hx Hrev].
    constructor; [by apply IH|].
    rewrite Forall_forall in *. intros y Hy. apply Hx.
    by eapply elem_of_sublist.
  - apply StronglySorted_cons in Hrev as [_ Hrev]. by apply IH.
Qed.

(** C6. After any sequence of [add_search] calls on an empty store the
    persisted history has at most 20 entries, at most one entry per
    lower-cased city name, and is ordered newest first: it is a subsequence
    of the calls read backwards, led by the latest call, so its times
    descend while the clock does not run backwards. Searching "Paris" and
    then "paris" leaves the single entry of the second call. *)
Theorem add_search_history_invariant self calls s :
  s !! search_file self = Some (Json (VList [])) ->
  exists s' stored,
    record_searches self calls s = (Ok tt, s') /\
    s' !! search_file self = Some (Json (VList (entries stored))) /\
    get_search_history self s' = (Ok (VStr <$> stored.*1), s') /\
    (length stored <= 20)%nat /\
    NoDup (lower <$> stored.*1) /\
    stored `sublist_of` reverse calls /\
    (calls <> [] -> head stored = last calls) /\
    (StronglySorted (fun a b => le a.2 b.2) calls ->
       StronglySorted (fun a b => le b.2 a.2) stored) /\
    (forall t1 t2, calls = [("Paris", t1); ("paris", t2)] ->
       stored = [("paris", t2)]).
Proof.
  intros Hfile.
  destruct (record_searches_entries self calls s [] Hfile) as (s' & Hrun & Hfile').
  exists s', (foldl recorded [] calls).
  destruct (foldl_recorded_invariant calls [] []) as (Hl & Hn & Hs & Hh);
    [cbn; lia | constructor | done |].
  rewrite app_nil_r in Hs.
  repeat split;
    [done|done|by apply get_search_history_entries|done|done|done|done| |].
  - by apply newest_first_by_time.
  - intros t1 t2 ->. reflexivity.
Qed.

End WithLib.
End StorageProofs.

(** * Properties of the weather source adapter *)

Module ScraperProofs.
Import Net Scraper ScraperSpec ScraperNotions.

Section WithLib.
Context {py : PyLib}.

(** C1. When the primary source fails and either no fallback key is
    configured or the fallback fails too, [get_current_weather] raises: the
    message names wttr.in and its failure and says that no key is configured,
    or names both sources each with its failure. No weather is returned. *)
Theorem get_current_weather_source_unavailable self city now w e w1 :
  try_wttr self city now w = (Raised e, w1) ->
  has_key self = false \/
    (exists e2 w2, _get_weather_from_owm self city now w1 = (Raised e2, w2)) ->
  exists message w',
    get_current_weather self city now w
      = (Raised (SourceUnavailable message), w') /\
    ((has_key self = false /\ w' = w1 /\
      message = "wttr.in failed and no OpenWeatherMap API key configured: "
                  +:+ exn_str e)
     \/
     (has_key self = true /\
      exists owm_error,
        _get_weather_from_owm self city now w1 = (Raised owm_error, w') /\
        message = "Both sources failed - wttr.in: " +:+ exn_str e
                    +:+ ", OpenWeatherMap: " +:+ exn_str owm_error)).
Proof.
  intros Hwttr Hfallback. unfold get_current_weather. rewrite Hwttr.
  destruct (has_key self) eqn:Hkey.
  - destruct Hfallback as [|(e2 & w2 & Howm)]; [done|].
    rewrite Howm. eexists _, w2. split; [reflexivity|].
    right. split; [done|]. by exists e2.
  - eexists _, w1. split; [reflexivity|]. by left.
Qed.

(** *** The forecast *)

Lemma dict_of_fields fields d :
  dict_of fields = Ok d ->
  Forall2 (fun f kv => f.1 = kv.1 /\ f.2 = Ok kv.2) fields d.
Proof.
  revert d. induction fields as [|[k e] rest IH]; intros d; cbn.
  - intros [= <-]. constructor.
  - destruct e as [v|]; [|discriminate]. cbn.
    destruct (dict_of rest) as [d'|]; [|discriminate]. cbn.
    intros [= <-]. constructor; [done|]. by apply IH.
Qed.

Ltac fields H :=
  apply dict_of_fields in H;
  repeat match goal with
         | F : Forall2 _ (_ :: _) _ |- _ =>
             apply Forall2_cons_inv_l in F as ([? ?] & ? & [? ?] & F & ->);
             simplify_eq/=
         | F : Forall2 _ [] _ |- _ => apply Forall2_nil_inv_l in F as ->
         end.

(** From [(x ← m; k x) = Ok v]: the value of [m], and [k x = Ok v]. *)
Ltac binds H :=
  repeat match type of H with
         | (?m ≫= _) = Ok _ =>
             let E := fresh "E" in
             destruct m eqn:E; [cbn [mbind result_bind] in H|discriminate]
         | (_ <$> ?m) = Ok _ =>
             let E := fresh "E" in
             destruct m eqn:E; [cbn [fmap result_fmap] in H|discriminate]
         | Ok _ = Ok _ => injection H as <-
         end.

Lemma mapM_Forall2 {A B} (f : A -> result B) l : forall l',
  mapM f l = Ok l' -> Forall2 (fun x y => f x = Ok y) l l'.
Proof.
  induction l as [|x l IH]; intros l'; cbn.
  - intros [= <-]. constructor.
  - unfold mbind, result_bind, mret, result_ret.
    destruct (f x) as [y|] eqn:Hy; [|discriminate].
    destruct (mapM f l) as [k|]; [|discriminate].
    intros [= <-]. constructor; [done|]. by apply IH.
Qed.

Lemma hourly_point_fields hour point :
  hourly_point hour = Ok point -> point_of hour point.
Proof.
  unfold hourly_point, point_of. intros Hpoint.
  match type of Hpoint with
  | _ <$> ?m = _ => destruct m as [d|] eqn:Hd; [|discriminate]
  end.
  injection Hpoint as <-. fields Hd. cbn. by repeat split.
Qed.

Lemma forecast_data_dict tomorrow forecast :
  forecast_data tomorrow = Ok forecast -> exists d, tomorrow = VDict d.
Proof.
  destruct tomorrow; try discriminate. by eexists.
Qed.

(** The fields of a forecast are those of its daily block. *)
Lemma forecast_data_fields tomorrow forecast :
  forecast_data tomorrow = Ok forecast ->
  getitem forecast "date" = getitem tomorrow "date" /\
  getitem forecast "max_temp" = getitem tomorrow "maxtempC" /\
  getitem forecast "min_temp" = getitem tomorrow "mintempC" /\
  getitem forecast "avg_temp" = getitem tomorrow "avgtempC" /\
  getitem forecast "condition"
    = at_path tomorrow [K "hourly"; I 4; K "weatherDesc"; I 0; K "value"] /\
  getitem forecast "sunrise"
    = at_path tomorrow [K "astronomy"; I 0; K "sunrise"] /\
  getitem forecast "sunset"
    = at_path tomorrow [K "astronomy"; I 0; K "sunset"] /\
  getitem forecast "moonrise"
    = at_path tomorrow [K "astronomy"; I 0; K "moonrise"] /\
  getitem forecast "moonset"
    = at_path tomorrow [K "astronomy"; I 0; K "moonset"] /\
  getitem forecast "moon_phase"
    = at_path tomorrow [K "astronomy"; I 0; K "moon_phase"] /\
  getitem forecast "total_snow" = getitem tomorrow "totalSnow_cm" /\
  getitem forecast "sun_hour" = getitem tomorrow "sunHour" /\
  getitem forecast "uv_index" = getitem tomorrow "uvIndex" /\
  (exists hours points,
     getitem tomorrow "hourly" = Ok (VList hours) /\
     getitem forecast "hourly_forecast" = Ok (VList points) /\
     Forall2 point_of hours points) /\
  exists items,
    forecast = VDict items /\
    items.*1 = ["date"; "max_temp"; "min_temp"; "avg_temp"; "condition";
                "sunrise"; "sunset"; "moonrise"; "moonset"; "moon_phase";
                "total_snow"; "sun_hour"; "uv_index"; "hourly_forecast"].
Proof.
  unfold forecast_data. intros Hforecast.
  match type of Hforecast with
  | _ <$> ?m = _ => destruct m as [d|] eqn:Hd; [|discriminate]
  end.
  injection Hforecast as <-. fields Hd.
  do 13 (split; [done|]). split; [|by eexists].
  match goal with
  | F : getitem tomorrow "hourly" ≫= _parse_hourly = Ok _ |- _ =>
      rename F into Hhourly
  end.
  match goal with
  | F : at_path tomorrow [K "hourly"; I 4; K "weatherDesc"; I 0; K "value"]
        = Ok _ |- _ => rename F into Hmidday
  end.
  destruct (getitem tomorrow "hourly") as [hourly|] eqn:Hbuckets;
    [|discriminate].
  cbn [mbind result_bind] in Hhourly. unfold _parse_hourly in Hhourly.
  binds Hhourly.
  match goal with
  | F : mapM hourly_point _ = Ok _ |- _ =>
      apply mapM_Forall2 in F; rename F into Hpoints
  end.
  assert (Hlist : exists hours, hourly = VList hours).
  { unfold at_path in Hmidday.
    cbn [foldl subscript mbind result_bind] in Hmidday.
    rewrite Hbuckets in Hmidday. cbn [mbind result_bind] in Hmidday.
    destruct hourly as [| | | |text|hours|items]; try discriminate.
    - cbn in Hmidday. destruct (chars text !! 4%nat) as [c|] eqn:Hc;
        [|discriminate].
      apply list_lookup_fmap_Some in Hc as (letter & -> & _). discriminate.
    - by exists hours. }
  destruct Hlist as [hours ->].
  match goal with
  | E : iter (VList hours) = Ok _ |- _ => cbn in E; injection E as <-
  end.
  eexists hours, _. split; [done|]. split; [reflexivity|].
  eapply Forall2_impl; [exact Hpoints|]. apply hourly_point_fields.
Qed.

(** C4. [get_tomorrow_forecast] raises "Tomorrow's forecast not available"
    whenever the document of the primary source holds fewer than two daily
    blocks, and a forecast it returns is built from the second block: it is
    a dict of fourteen fields, each the value the block at index 1 holds for
    it, the hourly points one for each of its buckets. *)
Theorem get_tomorrow_forecast_second_block self city w :
  (forall response w1 data blocks n,
     get (wttr_request self city) w = (Ok response, w1) ->
     raise_for_status response = Ok tt ->
     json response = Ok data ->
     getitem data "weather" = Ok blocks ->
     len blocks = Ok n ->
     n < 2 ->
     get_tomorrow_forecast self city w = (Raised ForecastUnavailable, w1))
  /\
  (forall forecast w',
     get_tomorrow_forecast self city w = (Ok forecast, w') ->
     exists response data blocks tomorrow,
       get (wttr_request self city) w = (Ok response, w') /\
       json response = Ok data /\
       getitem data "weather" = Ok (VList blocks) /\
       blocks !! 1%nat = Some tomorrow /\
       forecast_data tomorrow = Ok forecast /\
       getitem forecast "date" = getitem tomorrow "date" /\
       getitem forecast "max_temp" = getitem tomorrow "maxtempC" /\
       getitem forecast "min_temp" = getitem tomorrow "mintempC" /\
       getitem forecast "avg_temp" = getitem tomorrow "avgtempC" /\
       getitem forecast "condition"
         = at_path tomorrow [K "hourly"; I 4; K "weatherDesc"; I 0; K "value"] /\
       getitem forecast "sunrise"
         = at_path tomorrow [K "astronomy"; I 0; K "sunrise"] /\
       getitem forecast "sunset"
         = at_path tomorrow [K "astronomy"; I 0; K "sunset"] /\
       getitem forecast "moonrise"
         = at_path tomorrow [K "astronomy"; I 0; K "moonrise"] /\
       getitem forecast "moonset"
         = at_path tomorrow [K "astronomy"; I 0; K "moonset"] /\
       getitem forecast "moon_phase"
         = at_path tomorrow [K "astronomy"; I 0; K "moon_phase"] /\
       getitem forecast "total_snow" = getitem tomorrow "totalSnow_cm" /\
       getitem forecast "sun_hour" = getitem tomorrow "sunHour" /\
       getitem forecast "uv_index" = getitem tomorrow "uvIndex" /\
       (exists hours points,
          getitem tomorrow "hourly" = Ok (VList hours) /\
          getitem forecast "hourly_forecast" = Ok (VList points) /\
          Forall2 point_of hours points) /\
       exists items,
         forecast = VDict items /\
         items.*1 = ["date"; "max_temp"; "min_temp"; "avg_temp"; "condition";
                     "sunrise"; "sunset"; "moonrise"; "moonset"; "moon_phase";
                     "total_snow"; "sun_hour"; "uv_index"; "hourly_forecast"]).
Proof.
  split.
  - intros response w1 data blocks n Hget Hstatus Hjson Hblocks Hlen Hn.
    unfold get_tomorrow_forecast, get_ok, mbind, net_bind, pure, mret, net_ret.
    rewrite Hget, Hstatus, Hjson. cbn [result_bind].
    unfold tomorrow_of. rewrite Hblocks. cbn [mbind result_bind].
    rewrite Hlen. cbn [mbind result_bind].
    destruct (Z.ltb_spec 1 n); [lia|]. reflexivity.
  - intros forecast w'.
    unfold get_tomorrow_forecast, get_ok, mbind, net_bind, pure, mret, net_ret.
    destruct (get (wttr_request self city) w) as [[response|e] w1] eqn:Hget.
    2:{ destruct (is_request_exception e); [discriminate|].
        destruct (is_parse_exception e); discriminate. }
    destruct (raise_for_status response) as [[]|e] eqn:Hstatus.
    2:{ destruct (is_request_exception e); [discriminate|].
        destruct (is_parse_exception e); discriminate. }
    destruct (json response) as [data|e] eqn:Hjson; cbn.
    2:{ destruct (is_request_exception e); [discriminate|].
        destruct (is_parse_exception e); discriminate. }
    destruct (tomorrow_of data) as [f|e] eqn:Htomorrow.
    2:{ destruct (is_request_exception e); [discriminate|].
        destruct (is_parse_exception e); discriminate. }
    intros [= -> ->].
    unfold tomorrow_of in Htomorrow. cbn in Htomorrow.
    destruct (getitem data "weather") as [blocks|] eqn:Hblocks; [|discriminate].
    cbn in Htomorrow.
    destruct (len blocks) as [n|]; [|discriminate]. cbn in Htomorrow.
    destruct (Z.ltb 1 n); [|discriminate].
    destruct (getindex blocks 1) as [tomorrow|] eqn:Hsecond; [|discriminate].
    cbn in Htomorrow.
    destruct (forecast_data_dict _ _ Htomorrow) as [d ->].
    destruct blocks as [| | | | s |l|]; try discriminate.
    + cbn in Hsecond. destruct (chars s !! 1%nat) eqn:E; [|discriminate].
      apply list_lookup_fmap_Some in E as (a & ? & ?). congruence.
    + cbn in Hsecond. destruct (l !! 1%nat) eqn:E; [|discriminate].
      injection Hsecond as ->. exists response, data, l, (VDict d).
      do 4 (split; [done|]). split; [done|].
      by apply forecast_data_fields.
Qed.

(** *** The fallback mapping *)

Lemma wttr_weather_data_source data city now weather_data :
  wttr_weather_data data city now = Ok weather_data ->
  getitem weather_data "source" = Ok (VStr "wttr.in").
Proof.
  unfold wttr_weather_data. intros Hdata.
  repeat match type of Hdata with
         | (?m ≫= _) = Ok _ =>
             destruct m; [cbn [mbind result_bind] in Hdata|discriminate]
         end.
  match type of Hdata with
  | _ <$> ?m = _ => destruct m as [d|] eqn:Hd; [|discriminate]
  end.
  injection Hdata as <-. fields Hd. reflexivity.
Qed.

Lemma truncate_inject_Z z : truncate (inject_Z z) = z.
Proof.
  unfold truncate. destruct (Qle_bool 0 (inject_Z z));
    [apply Qfloor_Z | apply Qceiling_Z].
Qed.

(** [int] of a float is the truncation of its value. *)
Lemma int_of_float_truncate f q :
  float_value f = Some q -> int_of_float f = Ok (truncate q).
Proof.
  destruct f as [s| | |s m e]; try discriminate; cbn.
  - by intros [= <-].
  - intros [= <-]. f_equal. destruct (Z.leb_spec 0 e) as [He|He].
    + rewrite truncate_inject_Z. destruct s; [|done].
      by rewrite <-Pos2Z.opp_pos, Z.mul_opp_l.
    + assert (Hd : Z.pos (Z.to_pos (2 ^ (- e))) = 2 ^ (- e)).
      { apply Z2Pos.id, Z.pow_pos_nonneg; lia. }
      destruct s; unfold truncate, Qle_bool, Qceiling, Qfloor; cbn;
        by rewrite Hd.
Qed.

Lemma owm_weather_data_fields data now weather_data :
  owm_weather_data data now = Ok weather_data ->
  getitem weather_data "source" = Ok (VStr "OpenWeatherMap") /\
  (exists speed kmh n,
     at_path data [K "wind"; K "speed"] = Ok speed /\
     mul_float speed f_3_6 = Ok kmh /\
     int_of_float kmh = Ok n /\
     getitem weather_data "wind_speed" = Ok (VStr (pretty n))) /\
  (exists wind deg index,
     getitem data "wind" = Ok wind /\
     dict_get wind "deg" (VInt 0) = Ok deg /\
     direction_index deg = Ok index /\
     getitem weather_data "wind_direction"
       = Ok (VStr (default "" (directions !! Z.to_nat index)))).
Proof.
  unfold owm_weather_data. intros Hdata.
  match type of Hdata with
  | _ <$> ?m = _ => destruct m as [d|] eqn:Hd; [|discriminate]
  end.
  injection Hdata as <-. fields Hd.
  split; [done|]. split.
  - match goal with
    | F : at_path data [K "wind"; K "speed"] ≫= _ = Ok _ |- _ => binds F
    end.
    by eexists _, _, _.
  - match goal with
    | F : getitem data "wind" ≫= _ = Ok _ |- _ => binds F
    end.
    match goal with
    | E : _degrees_to_direction _ = Ok _ |- _ =>
        unfold _degrees_to_direction in E; binds E
    end.
    by eexists _, _, _.
Qed.

Lemma int_of_float_value f n :
  int_of_float f = Ok n ->
  exists q, float_value f = Some q /\ n = truncate q.
Proof.
  intros Hn. destruct (float_value f) as [q|] eqn:Hq.
  - exists q. split; [done|].
    rewrite (int_of_float_truncate _ _ Hq) in Hn. congruence.
  - destruct f; discriminate.
Qed.

(** A result tagged with the fallback source was made from the fallback's
    document, after the primary source failed. *)
Lemma get_current_weather_fallback self city now w weather_data w' :
  get_current_weather self city now w = (Ok weather_data, w') ->
  getitem weather_data "source" = Ok (VStr "OpenWeatherMap") ->
  exists e w1 response data,
    try_wttr self city now w = (Raised e, w1) /\
    has_key self = true /\
    get (owm_request self city) w1 = (Ok response, w') /\
    json response = Ok data /\
    owm_weather_data data now = Ok weather_data.
Proof.
  unfold get_current_weather. intros Hrun Hsource.
  destruct (try_wttr self city now w) as [[wd|e] w1] eqn:Hwttr.
  - injection Hrun as -> ->.
    unfold try_wttr, get_ok, mbind, net_bind, pure, mret, net_ret in Hwttr.
    destruct (get (wttr_request self city) w) as [[r|] w2]; [|discriminate].
    destruct (raise_for_status r); [|discriminate].
    destruct (json r) as [data|]; [|discriminate].
    cbn [result_bind] in Hwttr.
    destruct (wttr_weather_data data city now) eqn:Hdata; [|discriminate].
    injection Hwttr as -> ->.
    apply wttr_weather_data_source in Hdata. congruence.
  - destruct (has_key self); [|discriminate].
    destruct (_get_weather_from_owm self city now w1) as [[wd|] w2] eqn:Howm;
      [|discriminate].
    injection Hrun as -> ->.
    unfold _get_weather_from_owm, get_ok, mbind, net_bind, pure, mret, net_ret
      in Howm.
    destruct (get (owm_request self city) w1) as [[r|] w2] eqn:Hget;
      [|discriminate].
    destruct (raise_for_status r); [|discriminate].
    destruct (json r) as [data|] eqn:Hjson; [|discriminate].
    cbn [result_bind] in Howm.
    destruct (owm_weather_data data now) eqn:Hdata; [|discriminate].
    injection Howm as -> ->. by exists e, w1, r, data.
Qed.

(** For whole bearings on the compass the float arithmetic is exact. *)
Lemma direction_index_whole d :
  0 <= d <= 360 ->
  direction_index (VInt d) = Ok (((4 * d + 45) / 90) mod 16).
Proof.
  intros Hd.
  assert (Hall : forallb (fun d =>
            match direction_index (VInt d) with
            | Ok i => Z.eqb i (((4 * d + 45) / 90) mod 16)
            | Raised _ => false
            end) (seqZ 0 361) = true) by (vm_compute; reflexivity).
  rewrite forallb_forall in Hall. specialize (Hall d).
  destruct (direction_index (VInt d)) as [i|].
  - f_equal. apply Z.eqb_eq, Hall, list_elem_of_In, elem_of_seqZ. lia.
  - exfalso. apply Bool.diff_false_true, Hall, list_elem_of_In, elem_of_seqZ. lia.
Qed.

(** C2, as the code has it. On the fallback path the wind direction is
    the entry of the 16-point table at index [int((deg + 11.25) / 22.5)
    mod 16], where [int] truncates toward zero (it does not round to the
    nearest integer); for a whole bearing from 0 to 360 this is
    [floor((deg + 11.25) / 22.5) mod 16]. *)
Theorem fallback_wind_direction_truncated self city now w weather_data w' :
  get_current_weather self city now w = (Ok weather_data, w') ->
  getitem weather_data "source" = Ok (VStr "OpenWeatherMap") ->
  exists w1 response data wind deg x q,
    get (owm_request self city) w1 = (Ok response, w') /\
    json response = Ok data /\
    getitem data "wind" = Ok wind /\
    dict_get wind "deg" (VInt 0) = Ok deg /\
    add_float deg f_11_25 = Ok x /\
    float_value (fdiv x f_22_5) = Some q /\
    getitem weather_data "wind_direction"
      = Ok (VStr (default "" (directions !! Z.to_nat (truncate q mod 16)))) /\
    (forall d, deg = VInt d -> 0 <= d <= 360 ->
       truncate q mod 16 = ((4 * d + 45) / 90) mod 16).
Proof.
  intros Hrun Hsource.
  destruct (get_current_weather_fallback _ _ _ _ _ _ Hrun Hsource)
    as (e & w1 & response & data & _ & _ & Hget & Hjson & Hdata).
  apply owm_weather_data_fields in Hdata
    as (_ & _ & wind & deg & index & Hwind & Hdeg & Hindex & Hfield).
  pose proof Hindex as Hindex'. unfold direction_index in Hindex. binds Hindex.
  match goal with
  | E : int_of_float _ = Ok _ |- _ =>
      apply int_of_float_value in E as (q & Hq & ->)
  end.
  eexists w1, response, data, wind, deg, _, q.
  repeat split; try done.
  intros d -> Hd. rewrite (direction_index_whole d Hd) in Hindex'. congruence.
Qed.

(** C3, as the code has it. On the fallback path the wind speed is the
    decimal string of [int(speed * 3.6)], the product truncated toward zero
    (not rounded to the nearest integer); for a speed of 5.0 it is "18". *)
Theorem fallback_wind_speed_truncated self city now w weather_data w' :
  get_current_weather self city now w = (Ok weather_data, w') ->
  getitem weather_data "source" = Ok (VStr "OpenWeatherMap") ->
  exists w1 response data speed kmh q,
    get (owm_request self city) w1 = (Ok response, w') /\
    json response = Ok data /\
    at_path data [K "wind"; K "speed"] = Ok speed /\
    mul_float speed f_3_6 = Ok kmh /\
    float_value kmh = Some q /\
    getitem weather_data "wind_speed" = Ok (VStr (pretty (truncate q))) /\
    (speed = VFloat (dyadic 5 0) ->
       getitem weather_data "wind_speed" = Ok (VStr "18")).
Proof.
  intros Hrun Hsource.
  destruct (get_current_weather_fallback _ _ _ _ _ _ Hrun Hsource)
    as (e & w1 & response & data & _ & _ & Hget & Hjson & Hdata).
  apply owm_weather_data_fields in Hdata
    as (_ & (speed & kmh & n & Hspeed & Hkmh & Hn & Hfield) & _).
  pose proof Hn as Hn'. apply int_of_float_value in Hn as (q & Hq & ->).
  exists w1, response, data, speed, kmh, q.
  repeat split; try done.
  intros ->. rewrite Hfield. vm_compute in Hkmh. injection Hkmh as <-.
  vm_compute in Hq. injection Hq as <-. reflexivity.
Qed.

(** *** The historical samples *)

Lemma get_world req w :
  network (get req w).2 = network w /\
  length (sent (get req w).2) = S (length (sent w)).
Proof. done. Qed.

(** A pass of the loop whose request raises ends the loop, whatever the
    earlier passes did. *)
Lemma history_loop_raises self location_data lat lon now e (k : nat) oracle base :
  (forall req, outcome (oracle (base + k)%nat req) = inl e) ->
  forall n j w historical_data,
    network w = oracle ->
    length (sent w) = (base + j)%nat ->
    (j <= k < j + n)%nat ->
    exists e' w',
      history_loop self location_data lat lon now (Z.of_nat <$> seq j n)
                   historical_data w = (Raised e', w').
Proof.
  intros Hk. induction n as [|n IH]; intros j w acc Hnet Hsent Hj; [lia|].
  cbn [seq fmap list_fmap history_loop]. unfold mbind at 1, net_bind at 1.
  destruct (get (coord_request self lat lon) w) as [r w1] eqn:Hget.
  pose proof (get_world (coord_request self lat lon) w) as [Hnet1 Hsent1].
  rewrite Hget in Hnet1, Hsent1. cbn in Hnet1, Hsent1.
  destruct (decide (j = k)) as [->|Hne].
  - unfold get in Hget. rewrite Hnet, Hsent, Hk in Hget.
    injection Hget as <- <-. by eexists _, _.
  - destruct r as [response|e']; [|by eexists _, _].
    assert (Hrest : forall acc', exists e' w',
      history_loop self location_data lat lon now (Z.of_nat <$> seq (S j) n)
                   acc' w1 = (Raised e', w')).
    { intros acc'. apply IH; [congruence | lia | lia]. }
    destruct (Z.eqb (status_code response) 200); [|apply Hrest].
    unfold mbind at 1, net_bind at 1, pure.
    match goal with
    | |- context [match ?r with Ok _ => _ | Raised _ => _ end] =>
        destruct r as [daily|e']
    end; [apply Hrest|by eexists _, _].
Qed.

Lemma daily_weather_fields location_data data target entry :
  daily_weather location_data data target = Ok entry ->
  getitem entry "city" = getitem location_data "name" /\
  getitem entry "timestamp" = Ok (VStr (isoformat target)) /\
  getitem entry "date" = Ok (VStr (date_isoformat target)).
Proof.
  unfold daily_weather. intros Hentry.
  match type of Hentry with
  | _ <$> ?m = _ => destruct m as [d|] eqn:Hd; [|discriminate]
  end.
  injection Hentry as <-. fields Hd. cbn. by repeat split.
Qed.

(** The loop when every request is answered: a day answered with a status
    other than 200 is left out, and the loop goes on. *)
Lemma history_loop_answered self location_data lat lon now
    (answer : nat -> response) oracle base :
  forall n j w historical_data,
    network w = oracle ->
    length (sent w) = (base + j)%nat ->
    (forall k, (j <= k < j + n)%nat ->
       outcome (oracle (base + k)%nat (coord_request self lat lon))
         = inr (answer k) /\
       (status_code (answer k) = 200 ->
          exists daily,
            (data ← json (answer k);
             daily_weather location_data data
               (target_date (now (Z.of_nat k)) (Z.of_nat k))) = Ok daily)) ->
    exists new w',
      history_loop self location_data lat lon now (Z.of_nat <$> seq j n)
                   historical_data w = (Ok (historical_data ++ new)%list, w') /\
      stdout w' = stdout w /\
      Forall2 (sample_of now)
        (filter (fun k => status_code (answer (Z.to_nat k)) = 200)
                (Z.of_nat <$> seq j n))
        new.
Proof.
  induction n as [|n IH]; intros j w acc Hnet Hsent Hanswers.
  - exists [], w. rewrite app_nil_r. split; [done|]. split; [done|]. constructor.
  - cbn [seq fmap list_fmap history_loop]. unfold mbind at 1, net_bind at 1.
    destruct (Hanswers j) as [Hanswer Hdaily]; [lia|].
    destruct (get (coord_request self lat lon) w) as [r w1] eqn:Hget.
    assert (r = Ok (answer j) /\ network w1 = oracle
            /\ length (sent w1) = (base + S j)%nat /\ stdout w1 = stdout w)
      as (-> & Hnet1 & Hsent1 & Hout1).
    { unfold get in Hget. rewrite Hnet, Hsent, Hanswer in Hget.
      injection Hget as <- <-. cbn [network sent stdout length].
      split; [done|]. split; [done|]. split; [lia|done]. }
    assert (Hrest : forall acc',
      exists new w',
        history_loop self location_data lat lon now (Z.of_nat <$> seq (S j) n)
                     acc' w1 = (Ok (acc' ++ new)%list, w') /\
        stdout w' = stdout w /\
        Forall2 (sample_of now)
          (filter (fun k => status_code (answer (Z.to_nat k)) = 200)
                  (Z.of_nat <$> seq (S j) n))
          new).
    { intros acc'. rewrite <-Hout1. apply IH; [done | done |].
      intros k Hk. apply Hanswers. lia. }
    rewrite filter_cons, Nat2Z.id.
    destruct (Z.eqb_spec (status_code (answer j)) 200) as [Hgood|Hbad].
    + rewrite decide_True by done.
      destruct (Hdaily Hgood) as [daily Hmapped].
      unfold mbind at 1, net_bind at 1, pure. rewrite Hmapped.
      destruct (Hrest (acc ++ [daily])%list) as (new & w' & -> & Hout & Hnew).
      exists (daily :: new), w'.
      split; [by rewrite <-app_assoc|]. split; [done|].
      constructor; [|done].
      binds Hmapped.
      match goal with
      | E : daily_weather _ _ _ = Ok _ |- _ =>
          apply daily_weather_fields in E as (_ & Htime & Hdate)
      end.
      by split.
    + rewrite decide_False by done. apply Hrest.
Qed.

(** C5. With an API key configured, [get_historical_weather] returns the
    empty list, and raises nothing, whenever its [try] raises: in particular
    when the geocoding request fails, and when the request of any pass of
    the per-day loop raises. A day answered with a status other than 200 is
    no such failure: when every request is answered and the answers of
    status 200 map, nothing is printed and the samples are those of the days
    answered with status 200, in order. *)
Theorem get_historical_weather_failure_empty self city days now w :
  has_key self = true ->
  (forall e w',
     try_history self city days now w = (Raised e, w') ->
     get_historical_weather self city days now w
       = ([], print ("Error fetching historical data: " +:+ exn_str e) w'))
  /\
  (forall e,
     (get_ok (geocode_request self city) w).1 = Raised e ->
     (get_historical_weather self city days now w).1 = [])
  /\
  (forall e (k : nat),
     (1 <= k)%nat -> Z.of_nat k <= Z.min days 7 ->
     (forall req, outcome (network w (length (sent w) + k)%nat req) = inl e) ->
     (get_historical_weather self city days now w).1 = [])
  /\
  (forall located w1 location_data lat lon (answer : nat -> response),
     get_ok (geocode_request self city) w = (Ok located, w1) ->
     json located = Ok location_data ->
     at_path location_data [K "coord"; K "lat"] = Ok lat ->
     at_path location_data [K "coord"; K "lon"] = Ok lon ->
     (forall k : nat,
        (1 <= k)%nat -> Z.of_nat k <= Z.min days 7 ->
        outcome (network w (length (sent w) + k)%nat
                   (coord_request self lat lon)) = inr (answer k) /\
        (status_code (answer k) = 200 ->
           exists daily,
             (data ← json (answer k);
              daily_weather location_data data
                (target_date (now (Z.of_nat k)) (Z.of_nat k))) = Ok daily)) ->
     stdout (get_historical_weather self city days now w).2 = stdout w /\
     Forall2 (sample_of now)
       (filter (fun k => status_code (answer (Z.to_nat k)) = 200)
               (day_offsets days))
       (get_historical_weather self city days now w).1).
Proof.
  intros Hkey. unfold get_historical_weather. rewrite Hkey. cbn [negb].
  assert (Hworld : forall r w1,
    get_ok (geocode_request self city) w = (r, w1) ->
    network w1 = network w /\ length (sent w1) = S (length (sent w))
    /\ stdout w1 = stdout w).
  { intros r w1 Hgeo.
    unfold get_ok, get, mbind, net_bind, pure, mret, net_ret in Hgeo.
    destruct (outcome _) as [e'|r']; [by injection Hgeo as _ <-|].
    destruct (raise_for_status r'); by injection Hgeo as _ <-. }
  split; [|split; [|split]].
  - by intros e w' ->.
  - intros e Hgeo. unfold try_history, mbind at 1, net_bind at 1.
    destruct (get_ok (geocode_request self city) w) as [[r|e'] w1]; [done|done].
  - intros e k Hk1 Hk7 Hfail.
    enough (exists e' w', try_history self city days now w = (Raised e', w'))
      as (e' & w' & ->) by done.
    unfold try_history, mbind at 1, net_bind at 1.
    destruct (get_ok (geocode_request self city) w) as [[r|e'] w1] eqn:Hgeo;
      [|by eexists _, _].
    destruct (Hworld _ _ eq_refl) as (Hnet & Hsent & _).
    unfold mbind, net_bind, pure.
    destruct (json r) as [location_data|]; [|by eexists _, _].
    destruct (at_path location_data [K "coord"; K "lat"]); [|by eexists _, _].
    destruct (at_path location_data [K "coord"; K "lon"]); [|by eexists _, _].
    unfold day_offsets.
    eapply (history_loop_raises _ _ _ _ _ e k (network w) (length (sent w)));
      [done | done | lia | lia].
  - intros located w1 location_data lat lon answer Hgeo Hjson Hlat Hlon
      Hanswers.
    destruct (Hworld _ _ Hgeo) as (Hnet & Hsent & Hout).
    unfold try_history, mbind, net_bind, pure.
    rewrite Hgeo, Hjson, Hlat, Hlon. unfold day_offsets.
    destruct (history_loop_answered self location_data lat lon now answer
                (network w) (length (sent w))
                (Z.to_nat (Z.min (days + 1) 8 - 1)) 1 w1 [])
      as (new & w' & -> & Hout' & Hnew); [done | lia | |].
    { intros k Hk. apply Hanswers; lia. }
    cbn [fst snd app]. split; [congruence|done].
Qed.

End WithLib.
End ScraperProofs.

(** * Properties of the city resolver *)

Module AutocompleteProofs.
Import Net Autocomplete AutocompleteSpec.

Section WithLib.
Context {py : PyLib}.

(** C8, as the code has it. When the first [search_cities(query, limit)]
    did not end in a caught failure, a second call with the same arguments
    returns the same sequence and touches neither the object nor the world:
    no request is sent. For a query of two characters or more the sequence
    is the cache entry under the key of the lower-cased query and the
    limit. *)
Theorem search_cities_repeat_from_cache self query limit w cities self1 w1 :
  search_cities self query limit w = (cities, self1, w1) ->
  ~ fetch_failed self query limit w ->
  forall w2,
    search_cities self1 query limit w2 = (cities, self1, w2) /\
    ((2 <= String.length query)%nat ->
       cache self1 !! cache_key query limit = Some cities).
Proof.
  unfold search_cities, fetch_failed. intros Hrun Hok w2.
  destruct (bool_decide (query = "") || Nat.ltb (String.length query) 2)
    eqn:Hshort.
  { injection Hrun as <- <- <-. split; [done|].
    intros Hlen. apply orb_true_iff in Hshort as [Hempty|Hlt].
    - apply bool_decide_eq_true in Hempty. subst. cbn in Hlen. lia.
    - apply Nat.ltb_lt in Hlt. lia. }
  apply orb_false_iff in Hshort as [_ Hlen]. apply Nat.ltb_ge in Hlen.
  destruct (cache self !! cache_key query limit) as [cached|] eqn:Hcache.
  { injection Hrun as <- <- <-. by rewrite Hcache. }
  destruct (fetch self query limit (wait_if_needed self w))
    as [[[unique_cities|e] self'] w'] eqn:Hfetch.
  - injection Hrun as <- <- <-. cbn [cache set_cache].
    rewrite lookup_insert_eq. done.
  - exfalso. apply Hok. repeat split; [done|]. by exists e.
Qed.

(** What the rate limiter does achieve: a request leaves no sooner than
    [min_request_interval] after [last_request_time]. *)
Lemma wait_if_needed_clock self w :
  (last_request_time self + min_request_interval self
   <= clock (wait_if_needed self w))%Q.
Proof.
  unfold wait_if_needed. destruct (Qlt_le_dec _ _); cbn [clock sleep]; lra.
Qed.

(** What it misses: [last_request_time] moves only when the request is
    answered with a good status. *)
Lemma fetch_last_request_time self query limit w :
  let '(_, self', w') := fetch self query limit w in
  match outcome (network w (length (sent w))
                   {| url := nominatim_url self;
                      params := [("q", VStr query); ("format", VStr "json");
                                 ("limit", VInt limit);
                                 ("featuretype", VStr "city");
                                 ("addressdetails", VInt 1)];
                      headers := user_agent self;
                      timeout := 5 |}) with
  | inl _ => self' = self
  | inr r => if Z.leb 400 (status_code r) && Z.ltb (status_code r) 600
             then self' = self
             else last_request_time self' = clock w'
  end.
Proof.
  unfold fetch, get. cbn [mbind result_bind].
  destruct (outcome _) as [e|r]; [done|]. cbn [mbind result_bind].
  unfold raise_for_status.
  by destruct (Z.leb 400 (status_code r) && Z.ltb (status_code r) 600).
Qed.

End WithLib.

End AutocompleteProofs.

(** * The properties on the sample inputs *)

Module Runs.
Import Net Samples ScraperSpec.

(** ** The local store *)

Lemma add_search_history_invariant_witness :
  new_files !! Storage.search_file storage = Some (Storage.Json (VList [])) /\
  exists s' stored,
    StorageSpec.record_searches (py := lib) storage paris_twice new_files
      = (Ok tt, s') /\
    s' !! Storage.search_file storage
      = Some (Storage.Json (VList (StorageSpec.entries (py := lib) stored))) /\
    Storage.get_search_history storage s' = (Ok (VStr <$> stored.*1), s') /\
    (length stored <= 20)%nat /\
    NoDup (lower <$> stored.*1) /\
    stored `sublist_of` reverse paris_twice /\
    (paris_twice <> [] -> head stored = last paris_twice) /\
    (StronglySorted (fun a b => le a.2 b.2) paris_twice ->
       StronglySorted (fun a b => le b.2 a.2) stored) /\
    (forall t1 t2, paris_twice = [("Paris", t1); ("paris", t2)] ->
       stored = [("paris", t2)]).
Proof.
  split; [reflexivity|].
  apply (StorageProofs.add_search_history_invariant (py := lib) storage).
  reflexivity.
Defined.

Lemma get_weather_history_current_week_witness :
  valid wednesday /\
  Storage.get_weather_history (py := lib) storage "Oslo" wednesday oslo_files
    = (Ok [tuesday_snapshot], oslo_files) /\
  exists monday,
    StorageSpec.most_recent_monday wednesday monday /\
    Forall (fun entry => exists d, StorageSpec.entry_time (py := lib) entry = Some d
                                   /\ le monday d) [tuesday_snapshot].
Proof.
  split; [|split].
  - unfold valid, day_micros. cbn. lia.
  - reflexivity.
  - apply (StorageProofs.get_weather_history_current_week (py := lib)
             storage "Oslo" wednesday oslo_files [tuesday_snapshot] oslo_files).
    + unfold valid, day_micros. cbn. lia.
    + reflexivity.
Defined.

Lemma get_weather_history_read_only_witness :
  oslo_files !! Storage.history_file storage
    = Some (Storage.Json (VDict [("oslo", VList oslo_snapshots)])) /\
  assoc (lower "Oslo") [("oslo", VList oslo_snapshots)]
    = Some (VList oslo_snapshots) /\
  (Storage.get_weather_history (py := lib) storage "Oslo" wednesday oslo_files).1
    = Ok [tuesday_snapshot] /\
  [tuesday_snapshot] `sublist_of` oslo_snapshots /\
  (Storage.get_weather_history (py := lib) storage "Oslo" wednesday oslo_files).2
    !! Storage.history_file storage
    = Some (Storage.Json (VDict [("oslo", VList oslo_snapshots)])).
Proof.
  split; [reflexivity|]. split; [reflexivity|]. split; [reflexivity|].
  apply (proj2 (StorageProofs.get_weather_history_read_only (py := lib)
                  storage "Oslo" wednesday oslo_files)
           [("oslo", VList oslo_snapshots)] oslo_snapshots [tuesday_snapshot]);
    reflexivity.
Defined.

(** The purge shows in what is returned, not on disk: the snapshot of
    last Saturday is still in the file after the read, and gone after
    [clear_old_data]. *)
Lemma oslo_history_on_disk :
  (Storage.get_weather_history (py := lib) storage "Oslo" wednesday oslo_files).2
    !! Storage.history_file storage
    = oslo_files !! Storage.history_file storage /\
  (Storage.clear_old_data (py := lib) storage (fun _ => wednesday) oslo_files).2
    !! Storage.history_file storage
    = Some (Storage.Json (VDict [("oslo", VList [tuesday_snapshot])])).
Proof. split; reflexivity. Qed.

(** ** The weather source adapter *)

Lemma get_current_weather_source_unavailable_witness :
  primary_attempt = (Raised service_unavailable, primary_attempt.2) /\
  (Scraper.has_key scraper = false \/
   exists e2 w2,
     Scraper._get_weather_from_owm (py := lib) scraper "Oslo" wednesday
       primary_attempt.2 = (Raised e2, w2)) /\
  exists message w',
    Scraper.get_current_weather (py := lib) scraper "Oslo" wednesday both_down
      = (Raised (SourceUnavailable message), w') /\
    ((Scraper.has_key scraper = false /\ w' = primary_attempt.2 /\
      message = "wttr.in failed and no OpenWeatherMap API key configured: "
                  +:+ exn_str service_unavailable)
     \/
     (Scraper.has_key scraper = true /\
      exists owm_error,
        Scraper._get_weather_from_owm (py := lib) scraper "Oslo" wednesday
          primary_attempt.2 = (Raised owm_error, w') /\
        message = "Both sources failed - wttr.in: "
                    +:+ exn_str service_unavailable
                    +:+ ", OpenWeatherMap: " +:+ exn_str owm_error)).
Proof.
  assert (Hrun : primary_attempt = (Raised service_unavailable, primary_attempt.2))
    by reflexivity.
  assert (Howm : Scraper.has_key scraper = false \/
                 exists e2 w2,
                   Scraper._get_weather_from_owm (py := lib) scraper "Oslo"
                     wednesday primary_attempt.2 = (Raised e2, w2)).
  { right. eexists _, _. reflexivity. }
  split; [exact Hrun|]. split; [exact Howm|].
  exact (ScraperProofs.get_current_weather_source_unavailable (py := lib)
           scraper "Oslo" wednesday both_down service_unavailable
           primary_attempt.2 Hrun Howm).
Defined.

(** The two messages. *)
Lemma get_current_weather_without_key :
  (Scraper.get_current_weather (py := lib) scraper_without_key "Oslo" wednesday
     both_down).1
  = Raised (SourceUnavailable
      "wttr.in failed and no OpenWeatherMap API key configured: 503 Server Error: Service Unavailable").
Proof. reflexivity. Qed.

Lemma get_current_weather_both_down :
  (Scraper.get_current_weather (py := lib) scraper "Oslo" wednesday both_down).1
  = Raised (SourceUnavailable
      "Both sources failed - wttr.in: 503 Server Error: Service Unavailable, OpenWeatherMap: 503 Server Error: Service Unavailable").
Proof. reflexivity. Qed.

Lemma fallback_run_ok : fallback_run = (Ok fallback_weather, fallback_run.2).
Proof. reflexivity. Qed.

Lemma fallback_weather_source :
  getitem fallback_weather "source" = Ok (VStr "OpenWeatherMap").
Proof. reflexivity. Qed.

(** C2, as stated, fails. The sample bearing is 10 degrees: the code
    reports N, index [int(21.25 / 22.5) = 0]; rounding to the nearest integer
    gives index 1, NNE. *)
Lemma fallback_wind_direction_not_rounded :
  fallback_run = (Ok fallback_weather, fallback_run.2) /\
  getitem fallback_weather "source" = Ok (VStr "OpenWeatherMap") /\
  Scraper.at_path owm_document [Scraper.K "wind"; Scraper.K "deg"]
    = Ok (VInt 10) /\
  getitem fallback_weather "wind_direction" = Ok (VStr "N") /\
  Scraper.directions !! Z.to_nat (claimed_direction_index 10) = Some "NNE" /\
  getitem fallback_weather "wind_direction"
    <> Ok (VStr (default "" (Scraper.directions
                               !! Z.to_nat (claimed_direction_index 10)))).
Proof. repeat split; try reflexivity. vm_compute. discriminate. Qed.

(** C3, as stated, fails. The sample speed is 1.0 m/s: the code reports
    "3", [int(3.6)]; rounding to the nearest integer gives 4. *)
Lemma fallback_wind_speed_not_rounded :
  fallback_run = (Ok fallback_weather, fallback_run.2) /\
  getitem fallback_weather "source" = Ok (VStr "OpenWeatherMap") /\
  Scraper.at_path owm_document [Scraper.K "wind"; Scraper.K "speed"]
    = Ok (VFloat (dyadic 1 0)) /\
  (exists q, float_value (dyadic 1 0) = Some q /\ (q == 1)%Q) /\
  getitem fallback_weather "wind_speed" = Ok (VStr "3") /\
  claimed_wind_speed 1 = 4 /\
  getitem fallback_weather "wind_speed"
    <> Ok (VStr (pretty (claimed_wind_speed 1))).
Proof.
  repeat split; try reflexivity.
  - eexists. split; reflexivity.
  - vm_compute. discriminate.
Qed.

Lemma fallback_wind_direction_truncated_witness :
  fallback_run = (Ok fallback_weather, fallback_run.2) /\
  getitem fallback_weather "source" = Ok (VStr "OpenWeatherMap") /\
  exists w1 response data wind deg x q,
    get (Scraper.owm_request scraper "Oslo") w1 = (Ok response, fallback_run.2) /\
    json response = Ok data /\
    getitem data "wind" = Ok wind /\
    dict_get wind "deg" (VInt 0) = Ok deg /\
    add_float deg Scraper.f_11_25 = Ok x /\
    float_value (fdiv x Scraper.f_22_5) = Some q /\
    getitem fallback_weather "wind_direction"
      = Ok (VStr (default "" (Scraper.directions
                                !! Z.to_nat (truncate q mod 16)))) /\
    (forall d, deg = VInt d -> 0 <= d <= 360 ->
       truncate q mod 16 = ((4 * d + 45) / 90) mod 16).
Proof.
  split; [reflexivity|]. split; [reflexivity|].
  apply (ScraperProofs.fallback_wind_direction_truncated (py := lib)
           scraper "Oslo" wednesday primary_down fallback_weather fallback_run.2);
    reflexivity.
Defined.

Lemma fallback_wind_speed_truncated_witness :
  fallback_run = (Ok fallback_weather, fallback_run.2) /\
  getitem fallback_weather "source" = Ok (VStr "OpenWeatherMap") /\
  exists w1 response data speed kmh q,
    get (Scraper.owm_request scraper "Oslo") w1 = (Ok response, fallback_run.2) /\
    json response = Ok data /\
    Scraper.at_path data [Scraper.K "wind"; Scraper.K "speed"] = Ok speed /\
    mul_float speed Scraper.f_3_6 = Ok kmh /\
    float_value kmh = Some q /\
    getitem fallback_weather "wind_speed" = Ok (VStr (pretty (truncate q))) /\
    (speed = VFloat (dyadic 5 0) ->
       getitem fallback_weather "wind_speed" = Ok (VStr "18")).
Proof.
  split; [reflexivity|]. split; [reflexivity|].
  apply (ScraperProofs.fallback_wind_speed_truncated (py := lib)
           scraper "Oslo" wednesday primary_down fallback_weather fallback_run.2);
    reflexivity.
Defined.

(** A speed of 5.0 m/s, and of 5 m/s, is reported as "18". *)
Lemma wind_speed_five :
  (kmh ← mul_float (VFloat (dyadic 5 0)) Scraper.f_3_6; int_of_float kmh) = Ok 18 /\
  (kmh ← mul_float (VInt 5) Scraper.f_3_6; int_of_float kmh) = Ok 18.
Proof. split; reflexivity. Qed.

Lemma forecast_run_ok : forecast_run = (Ok forecast, forecast_run.2).
Proof. reflexivity. Qed.

Lemma get_tomorrow_forecast_second_block_witness :
  (get (Scraper.wttr_request scraper "Oslo") one_day
     = (Ok {| status_code := 200; http_error := "";
              json := Ok (wttr_document [daily_block "2024-01-03"]) |},
        (get (Scraper.wttr_request scraper "Oslo") one_day).2) /\
   getitem (wttr_document [daily_block "2024-01-03"]) "weather"
     = Ok (VList [daily_block "2024-01-03"]) /\
   len (VList [daily_block "2024-01-03"]) = Ok 1 /\
   Scraper.get_tomorrow_forecast scraper "Oslo" one_day
     = (Raised ForecastUnavailable,
        (get (Scraper.wttr_request scraper "Oslo") one_day).2))
  /\
  (forecast_run = (Ok forecast, forecast_run.2) /\
   exists response data blocks tomorrow,
     get (Scraper.wttr_request scraper "Oslo") two_days
       = (Ok response, forecast_run.2) /\
     json response = Ok data /\
     getitem data "weather" = Ok (VList blocks) /\
     blocks !! 1%nat = Some tomorrow /\
     Scraper.forecast_data tomorrow = Ok forecast /\
     getitem forecast "date" = getitem tomorrow "date" /\
     getitem forecast "max_temp" = getitem tomorrow "maxtempC" /\
     getitem forecast "min_temp" = getitem tomorrow "mintempC" /\
     getitem forecast "avg_temp" = getitem tomorrow "avgtempC" /\
     getitem forecast "condition"
       = Scraper.at_path tomorrow
           [Scraper.K "hourly"; Scraper.I 4; Scraper.K "weatherDesc";
            Scraper.I 0; Scraper.K "value"] /\
     getitem forecast "sunrise"
       = Scraper.at_path tomorrow
           [Scraper.K "astronomy"; Scraper.I 0; Scraper.K "sunrise"] /\
     getitem forecast "sunset"
       = Scraper.at_path tomorrow
           [Scraper.K "astronomy"; Scraper.I 0; Scraper.K "sunset"] /\
     getitem forecast "moonrise"
       = Scraper.at_path tomorrow
           [Scraper.K "astronomy"; Scraper.I 0; Scraper.K "moonrise"] /\
     getitem forecast "moonset"
       = Scraper.at_path tomorrow
           [Scraper.K "astronomy"; Scraper.I 0; Scraper.K "moonset"] /\
     getitem forecast "moon_phase"
       = Scraper.at_path tomorrow
           [Scraper.K "astronomy"; Scraper.I 0; Scraper.K "moon_phase"] /\
     getitem forecast "total_snow" = getitem tomorrow "totalSnow_cm" /\
     getitem forecast "sun_hour" = getitem tomorrow "sunHour" /\
     getitem forecast "uv_index" = getitem tomorrow "uvIndex" /\
     (exists hours points,
        getitem tomorrow "hourly" = Ok (VList hours) /\
        getitem forecast "hourly_forecast" = Ok (VList points) /\
        Forall2 ScraperNotions.point_of hours points) /\
     exists items,
       forecast = VDict items /\
       items.*1 = ["date"; "max_temp"; "min_temp"; "avg_temp"; "condition";
                   "sunrise"; "sunset"; "moonrise"; "moonset"; "moon_phase";
                   "total_snow"; "sun_hour"; "uv_index"; "hourly_forecast"]).
Proof.
  split.
  - split; [reflexivity|]. split; [reflexivity|]. split; [reflexivity|].
    apply (proj1 (ScraperProofs.get_tomorrow_forecast_second_block
                    scraper "Oslo" one_day)
             {| status_code := 200; http_error := "";
                json := Ok (wttr_document [daily_block "2024-01-03"]) |}
             (get (Scraper.wttr_request scraper "Oslo") one_day).2
             (wttr_document [daily_block "2024-01-03"])
             (VList [daily_block "2024-01-03"]) 1);
      [reflexivity | reflexivity | reflexivity | reflexivity | reflexivity | lia].
  - split; [reflexivity|].
    apply (proj2 (ScraperProofs.get_tomorrow_forecast_second_block
                    scraper "Oslo" two_days) forecast forecast_run.2).
    reflexivity.
Defined.

(** The forecast of the sample is that of the second block. *)
Lemma forecast_date :
  getitem forecast "date" = Ok (VStr "2024-01-04") /\
  getitem forecast "condition" = Ok (VStr "Partly cloudy").
Proof. split; reflexivity. Qed.

(** C5, as stated, fails. The second request of the loop over the days
    is answered with status 503, a failure of that request: the call leaves
    the day out, returns the samples of the other six days and prints
    nothing. *)
Lemma get_historical_weather_skips_unavailable_day :
  Scraper.has_key scraper = true /\
  (forall req,
     outcome (network MoreSamples.unavailable_on_second_day
                (length (sent MoreSamples.unavailable_on_second_day) + 2)%nat
                req)
     = inr MoreSamples.service_down) /\
  raise_for_status MoreSamples.service_down
    = raise RequestException "503 Server Error: Service Unavailable" /\
  length MoreSamples.six_days_run.1 = 6%nat /\
  stdout MoreSamples.six_days_run.2 = [] /\
  MoreSamples.six_days_run.1 <> [].
Proof.
  split; [reflexivity|]. split; [reflexivity|]. split; [reflexivity|].
  split; [reflexivity|]. split; [reflexivity|].
  vm_compute. discriminate.
Qed.

Lemma get_historical_weather_failure_empty_witness :
  (Scraper.has_key scraper = true /\
   (forall req,
      outcome (network refused_on_second_day
                 (length (sent refused_on_second_day) + 2)%nat req)
      = inl (Exn RequestException "Connection refused")) /\
   (Scraper.get_historical_weather (py := lib) scraper "Oslo" 7
      (fun _ => wednesday) refused_on_second_day).1 = [])
  /\
  (get_ok (Scraper.geocode_request scraper "Oslo")
          MoreSamples.unavailable_on_second_day
     = (Ok (MoreSamples.answer owm_document),
        (get_ok (Scraper.geocode_request scraper "Oslo")
                MoreSamples.unavailable_on_second_day).2) /\
   stdout MoreSamples.six_days_run.2
     = stdout MoreSamples.unavailable_on_second_day /\
   Forall2 (ScraperNotions.sample_of (py := lib) (fun _ => wednesday))
     (filter (fun k => status_code (MoreSamples.second_day_down (Z.to_nat k))
                       = 200)
             (Scraper.day_offsets 7))
     MoreSamples.six_days_run.1).
Proof.
  split.
  - split; [reflexivity|]. split; [reflexivity|].
    apply (proj1 (proj2 (proj2
             (ScraperProofs.get_historical_weather_failure_empty
                (py := lib) scraper "Oslo" 7 (fun _ => wednesday)
                refused_on_second_day eq_refl)))
             (Exn RequestException "Connection refused") 2%nat);
      [lia | cbn; lia | reflexivity].
  - split; [reflexivity|].
    apply (proj2 (proj2 (proj2
             (ScraperProofs.get_historical_weather_failure_empty
                (py := lib) scraper "Oslo" 7 (fun _ => wednesday)
                MoreSamples.unavailable_on_second_day eq_refl)))
             (MoreSamples.answer owm_document)
             (get_ok (Scraper.geocode_request scraper "Oslo")
                     MoreSamples.unavailable_on_second_day).2
             owm_document (VFloat (ratio 5991 100)) (VFloat (ratio 1075 100))
             MoreSamples.second_day_down);
      [reflexivity | reflexivity | reflexivity | reflexivity |].
    intros k Hk _. split.
    + destruct k as [|[|[|k]]]; [lia|reflexivity..].
    + destruct k as [|[|[|k]]]; [lia| |discriminate|];
        intros _; eexists; reflexivity.
Defined.

(** When nothing fails the samples come back, one per day. *)
Lemma get_historical_weather_three_days :
  length (Scraper.get_historical_weather (py := lib) scraper "Oslo" 3
            (fun _ => wednesday) fallback_up).1 = 3%nat.
Proof. reflexivity. Qed.

(** ** The city resolver *)

Import Autocomplete AutocompleteSpec.

Lemma search_cities_repeat_from_cache_witness :
  answered_search = (answered_search.1.1, answered_search.1.2, answered_search.2) /\
  ~ fetch_failed (py := lib) Autocomplete.__init__ "Paris" 8 geocoder_up /\
  forall w2,
    search_cities (py := lib) answered_search.1.2 "Paris" 8 w2
      = (answered_search.1.1, answered_search.1.2, w2) /\
    ((2 <= String.length "Paris")%nat ->
       cache answered_search.1.2 !! cache_key "Paris" 8
         = Some answered_search.1.1).
Proof.
  assert (Hok : ~ fetch_failed (py := lib) Autocomplete.__init__ "Paris" 8
                    geocoder_up).
  { intros (_ & _ & e & He). vm_compute in He. discriminate. }
  split; [reflexivity|]. split; [exact Hok|].
  exact (AutocompleteProofs.search_cities_repeat_from_cache (py := lib)
           Autocomplete.__init__ "Paris" 8 geocoder_up
           answered_search.1.1 answered_search.1.2 answered_search.2
           eq_refl Hok).
Defined.

(** C8, as stated, fails: the first request is refused, nothing is cached,
    and the second identical call sends a second request and returns another
    sequence. *)
Lemma search_cities_repeat_after_failure :
  refused_search.1.1 = [] /\
  length (sent refused_search.2) = 1%nat /\
  repeated_search.1.1 <> refused_search.1.1 /\
  display <$> repeated_search.1.1 = ["Paris, France"] /\
  length (sent repeated_search.2) = 2%nat.
Proof. vm_compute. repeat split; discriminate. Qed.

(** C9 at the failing input: a refused request leaves
    [last_request_time] as it was, so a different query 0.1 s later is sent
    at once, 0.15 s after the first request left. *)
Lemma search_cities_no_wait_after_failure :
  last_request_time refused_search.1.2 = 0%Q /\
  exists t1 request1 t2 request2,
    sent next_search.2 = [(t2, request2); (t1, request1)] /\
    (t2 - t1 == 3 # 20)%Q /\ (t2 - t1 < 1)%Q.
Proof.
  split; [reflexivity|]. vm_compute.
  eexists _, _, _, _. split; [reflexivity|]. by vm_compute.
Qed.

(** After an answered request the next one waits out the second. *)
Lemma search_cities_waits_after_success :
  exists t1 request1 t2 request2,
    sent (search_cities (py := lib) answered_search.1.2 "Berlin" 8
            (later (1 # 10) answered_search.2)).2
      = [(t2, request2); (t1, request1)] /\
    (t2 - t1 == 6 # 5)%Q.
Proof.
  vm_compute. eexists _, _, _, _. split; [reflexivity|]. by vm_compute.
Qed.

End Runs.

(** * Further properties of the local store *)

Module StorageFacts.
Import Storage StorageSpec StorageNotions.

(** *** Dicts *)

Lemma assoc_assoc_set_eq k v d : assoc k (assoc_set k v d) = Some v.
Proof.
  induction d as [|[k' v'] d IH]; cbn.
  - by rewrite String.eqb_refl.
  - destruct (String.eqb_spec k' k) as [->|Hne]; cbn.
    + by rewrite String.eqb_refl.
    + by destruct (String.eqb_spec k' k).
Qed.

Lemma assoc_assoc_set_ne k k' v d :
  k <> k' -> assoc k (assoc_set k' v d) = assoc k d.
Proof.
  intros Hne. induction d as [|[k0 v0] d IH]; cbn.
  - by destruct (String.eqb_spec k' k).
  - destruct (String.eqb_spec k0 k') as [->|Hne']; cbn.
    + destruct (String.eqb_spec k' k); [congruence|done].
    + by destruct (String.eqb_spec k0 k).
Qed.

Lemma assoc_set_keys k v d :
  is_Some (assoc k d) -> (assoc_set k v d).*1 = d.*1.
Proof.
  induction d as [|[k' v'] d IH]; cbn; intros [x Hx]; [done|].
  destruct (String.eqb_spec k' k) as [->|Hne]; cbn; [done|].
  f_equal. apply IH. by exists x.
Qed.

Lemma assoc_Some_elem_of k v d : assoc k d = Some v -> (k, v) ∈ d.
Proof.
  induction d as [|[k' v'] d IH]; cbn; [done|].
  destruct (String.eqb_spec k' k) as [->|Hne].
  - intros [= ->]. by left.
  - intros ?. right. by apply IH.
Qed.

(** *** __init__ *)

Lemma length_append a b :
  String.length (a +:+ b) = (String.length a + String.length b)%nat.
Proof.
  induction a as [|c a IH]; [done|].
  change (String c a +:+ b) with (String c (a +:+ b)). cbn. by rewrite IH.
Qed.

Lemma path_join_length dir name :
  dir <> "" ->
  (String.length dir + String.length name
   <= String.length (path_join dir name))%nat.
Proof.
  intros Hdir. unfold path_join. destruct dir as [|c dir]; [done|].
  destruct (String.eqb _ "/"); rewrite !length_append; cbn; lia.
Qed.

(** A level is a prefix of the path. *)
Lemma levels_from_length level : forall rest before,
  level ∈ levels_from before rest ->
  (String.length level <= String.length before + String.length rest)%nat.
Proof.
  assert (Hhere : forall before (n : nat),
    level ∈ (if is_level before then [before] else []) ->
    (String.length level <= String.length before + n)%nat).
  { intros before n. destruct (is_level before).
    - intros ->%list_elem_of_singleton. lia.
    - by intros ?%elem_of_nil. }
  induction rest as [|c rest IH]; intros before; cbn [levels_from].
  - apply Hhere.
  - intros [Hlevel|Hlevel]%elem_of_app.
    + destruct (Ascii.eqb c "/"); [by apply Hhere|by apply elem_of_nil in Hlevel].
    + apply IH in Hlevel. rewrite length_append in Hlevel. cbn in *. lia.
Qed.

(** The files of a store are not among the levels of its directory. *)
Lemma path_join_not_level dir name :
  dir <> "" -> name <> "" -> path_join dir name ∉ levels dir.
Proof.
  intros Hdir Hname Hlevel%levels_from_length.
  pose proof (path_join_length dir name Hdir) as Hlength.
  destruct name; [done|]. cbn in *. lia.
Qed.

Lemma mkdir_levels_spec name s : forall paths,
  (Forall (fun path => s !! path = None) paths ->
     mkdir_levels name paths s = Ok tt) /\
  (Exists (fun path => is_Some (s !! path)) paths ->
     exists e,
       mkdir_levels name paths s = Raised e /\
       (exn_class_of e = FileExistsError
        \/ exn_class_of e = NotADirectoryError)).
Proof.
  induction paths as [|path rest [IHok IHraise]]; cbn [mkdir_levels].
  - split; [done|]. by intros ?%Exists_nil.
  - split.
    + intros [Hpath Hrest]%Forall_cons. rewrite Hpath. by apply IHok.
    + intros Hsome. destruct (s !! path) as [content|] eqn:Hpath.
      * destruct rest; eexists; (split; [reflexivity|]); cbn; auto.
      * apply Exists_cons in Hsome as [Hhere|Hrest]; [|by apply IHraise].
        rewrite Hpath in Hhere. by destruct Hhere.
Qed.

(** X1. [DataStorage(dir)] raises what [os.makedirs(dir, exist_ok=True)]
    raises, before anything is written: a [FileNotFoundError] for the empty
    path, a [FileExistsError] or a [NotADirectoryError] when a file stands
    where the directory or one of its ancestors should. Otherwise it returns
    the object of the two paths, creates the history file as [{}] and the
    search file as [[]] when they are absent, keeps every file that exists as
    it is, and touches no other path; doing it twice is doing it once. *)
Theorem __init___files dir s :
  (dir = "" ->
     exists message,
       __init__ dir s = (raise FileNotFoundError message, s)) /\
  (dir <> "" ->
   (exists level, level ∈ levels dir /\ is_Some (s !! level)) ->
     exists e,
       __init__ dir s = (Raised e, s) /\
       (exn_class_of e = FileExistsError
        \/ exn_class_of e = NotADirectoryError)) /\
  (dir <> "" ->
   (forall level, level ∈ levels dir -> s !! level = None) ->
     (__init__ dir s).1
       = Ok {| data_dir := dir;
               history_file := path_join dir "weather_history.json";
               search_file := path_join dir "search_history.json" |} /\
     (forall p,
        (__init__ dir s).2 !! p
        = match s !! p with
          | Some content => Some content
          | None =>
              if decide (p = path_join dir "weather_history.json")
              then Some (Json (VDict []))
              else if decide (p = path_join dir "search_history.json")
                   then Some (Json (VList []))
                   else None
          end) /\
     __init__ dir (__init__ dir s).2 = __init__ dir s).
Proof.
  assert (Hne : path_join dir "weather_history.json"
                <> path_join dir "search_history.json")
    by (by intros ?%StorageProofs.path_join_inj).
  assert (Hmade : forall s,
    dir <> "" ->
    (forall level, level ∈ levels dir -> s !! level = None) ->
    (makedirs dir s).1 = Ok tt).
  { intros s' Hdir Hfree. unfold makedirs. cbn [fst].
    destruct (String.eqb_spec dir ""); [done|].
    apply mkdir_levels_spec. by apply Forall_forall. }
  assert (Hfiles : forall s p,
    (makedirs dir s).1 = Ok tt ->
     (__init__ dir s).2 !! p
     = match s !! p with
       | Some content => Some content
       | None =>
           if decide (p = path_join dir "weather_history.json")
           then Some (Json (VDict []))
           else if decide (p = path_join dir "search_history.json")
                then Some (Json (VList []))
                else None
       end).
  { clear s. intros s p Hok.
    rewrite StorageProofs.__init___run, Hok. cbn zeta. cbn [snd].
    destruct (s !! path_join dir "weather_history.json") as [h|] eqn:Hh.
    - destruct (s !! path_join dir "search_history.json") as [c|] eqn:Hc.
      + destruct (s !! p) eqn:Hp; [done|].
        repeat case_decide; congruence.
      + destruct (decide (p = path_join dir "search_history.json")) as [->|Hp].
        * rewrite lookup_insert_eq, Hc. by rewrite decide_False by done.
        * rewrite lookup_insert_ne by done.
          destruct (s !! p) eqn:Hsp; [done|]. by rewrite decide_False by congruence.
    - rewrite lookup_insert_ne by done.
      destruct (s !! path_join dir "search_history.json") as [c|] eqn:Hc.
      + destruct (decide (p = path_join dir "weather_history.json")) as [->|Hp].
        * by rewrite lookup_insert_eq, Hh.
        * rewrite lookup_insert_ne by done. destruct (s !! p) eqn:Hsp; [done|].
          by rewrite decide_False by congruence.
      + destruct (decide (p = path_join dir "search_history.json")) as [->|Hp].
        * rewrite lookup_insert_eq, Hc. by rewrite decide_False by done.
        * rewrite lookup_insert_ne by done.
          destruct (decide (p = path_join dir "weather_history.json")) as [->|Hp'].
          -- by rewrite lookup_insert_eq, Hh.
          -- rewrite lookup_insert_ne by done. by destruct (s !! p). }
  split; [|split].
  - intros ->. eexists. reflexivity.
  - intros Hdir (level & Hlevel & Hfile).
    rewrite StorageProofs.__init___run. unfold makedirs. cbn [fst].
    destruct (String.eqb_spec dir ""); [done|].
    destruct (proj2 (mkdir_levels_spec dir s (levels dir))) as (e & -> & He).
    { apply Exists_exists. by exists level. }
    by exists e.
  - intros Hdir Hfree. pose proof (Hmade s Hdir Hfree) as Hok.
    assert (Hself : (__init__ dir s).1
       = Ok {| data_dir := dir;
               history_file := path_join dir "weather_history.json";
               search_file := path_join dir "search_history.json" |}).
    { by rewrite StorageProofs.__init___run, Hok. }
    split; [exact Hself|]. split; [intros p; by apply Hfiles|].
    assert (Hok' : (makedirs dir (__init__ dir s).2).1 = Ok tt).
    { apply Hmade; [done|]. intros level Hlevel. rewrite Hfiles by done.
      rewrite (Hfree level Hlevel).
      rewrite !decide_False; [done|..]; intros ->;
        by apply (path_join_not_level dir _ Hdir) in Hlevel. }
    rewrite (surjective_pairing (__init__ dir s)) at 2. rewrite Hself.
    rewrite StorageProofs.__init___run, Hok'. cbn zeta.
    assert (Hh : is_Some ((__init__ dir s).2
                            !! path_join dir "weather_history.json")).
    { rewrite Hfiles by done. destruct (s !! _); [done|].
      by rewrite decide_True. }
    assert (Hc : is_Some ((__init__ dir s).2
                            !! path_join dir "search_history.json")).
    { rewrite Hfiles by done. destruct (s !! _); [done|].
      by rewrite decide_False, decide_True. }
    destruct Hh as [h Hh], Hc as [c Hc]. by rewrite Hh, Hc.
Qed.

(** *** Reading what is not there *)

Lemma str_contains_app needle a b :
  str_contains needle b = true -> str_contains needle (a +:+ b) = true.
Proof.
  intros Hb. induction a as [|c a IH]; [done|].
  change (String c a +:+ b) with (String c (a +:+ b)).
  cbn [str_contains]. rewrite IH. apply orb_true_r.
Qed.

Lemma path_join_contains needle dir name :
  str_contains needle name = true ->
  str_contains needle (path_join dir name) = true.
Proof.
  intros Hname. unfold path_join. destruct dir as [|c dir]; [done|].
  destruct (String.eqb _ "/").
  - by apply str_contains_app.
  - by apply str_contains_app, (str_contains_app _ "/").
Qed.

Section WithLib.
Context {py : PyLib}.

(** X2. With no history file, or one whose text is not JSON,
    [get_weather_history] returns the empty list for every city. With one
    whose bytes are not UTF-8 it raises the [UnicodeDecodeError] of the
    read, which [_read_json] does not catch. It writes nothing either way. *)
Theorem get_weather_history_unreadable self city now s :
  (without_document s (history_file self) ->
     get_weather_history self city now s = (Ok [], s)) /\
  (forall reason,
     s !! history_file self = Some (Undecodable reason) ->
     get_weather_history self city now s
     = (raise UnicodeDecodeError reason, s)).
Proof.
  unfold get_weather_history, mbind, io_bind, _read_json, lift, mret, io_ret.
  split.
  - intros [-> | ->];
      by destruct (str_contains "history" (history_file self)).
  - by intros reason ->.
Qed.

(** X3. With no search file, or one whose text is not JSON,
    [get_search_history] returns the empty list and [add_search] stores the
    new entry alone. What [_read_json] yields for the search file of a store
    is then the empty dict, not the empty list: its name contains "history"
    too. With a search file whose bytes are not UTF-8 both raise the
    [UnicodeDecodeError] of the read, and [add_search] writes nothing. *)
Theorem search_file_unreadable self s :
  (without_document s (search_file self) ->
     get_search_history self s = (Ok [], s) /\
     (forall city now,
        add_search self city now s
        = (Ok tt,
           <[search_file self := Json (VList [search_entry city now])]> s)) /\
     (forall dir,
        search_file self = path_join dir "search_history.json" ->
        (_read_json (search_file self) s).1 = Ok (VDict []))) /\
  (forall reason,
     s !! search_file self = Some (Undecodable reason) ->
     get_search_history self s = (raise UnicodeDecodeError reason, s) /\
     (forall city now,
        add_search self city now s = (raise UnicodeDecodeError reason, s))).
Proof.
  split.
  - intros Hfile. split; [|split].
    + unfold get_search_history, mbind, io_bind, _read_json, lift.
      destruct Hfile as [-> | ->];
        destruct (str_contains "history" (search_file self)); reflexivity.
    + intros city now.
      unfold add_search, mbind, io_bind, _read_json, _write_json, lift.
      destruct Hfile as [-> | ->];
        destruct (str_contains "history" (search_file self)); reflexivity.
    + intros dir Hpath. unfold _read_json. cbn [fst].
      assert (Hname : str_contains "history" (search_file self) = true)
        by (rewrite Hpath; by apply path_join_contains).
      rewrite Hname. by destruct Hfile as [-> | ->].
  - intros reason Hfile. split; [|intros city now].
    + unfold get_search_history, mbind, io_bind, _read_json, lift.
      by rewrite Hfile.
    + unfold add_search, mbind, io_bind, _read_json, lift. by rewrite Hfile.
Qed.

(** *** The week filter *)

Lemma filter_loop_app start a b : forall filtered,
  filter_loop start (a ++ b)%list filtered
  = filter_loop start a filtered ≫= filter_loop start b.
Proof.
  induction a as [|entry a IH]; intros filtered; [done|].
  cbn [app filter_loop].
  destruct (in_current_week start entry) as [[]|e]; [apply IH..|].
  destruct (skipped e); [apply IH|done].
Qed.

(** Entries that a filter let through pass any filter without raising. *)
Lemma filter_loop_passed start' l : forall filtered,
  Forall (fun entry => exists b, in_current_week start' entry = Ok b) l ->
  exists kept, filter_loop start' l filtered = Ok (filtered ++ kept)%list /\
               kept `sublist_of` l /\
               (Forall (fun entry => in_current_week start' entry = Ok true) l ->
                kept = l).
Proof.
  induction l as [|entry l IH]; intros filtered Hl.
  - exists []. by rewrite app_nil_r.
  - apply Forall_cons in Hl as [[b Hb] Hl]. cbn [filter_loop]. rewrite Hb.
    destruct b.
    + destruct (IH (filtered ++ [entry])%list Hl) as (kept & -> & Hsub & Hall).
      exists (entry :: kept). split; [by rewrite <-app_assoc|].
      split; [by apply sublist_skip|].
      intros [_ Hl']%Forall_cons. by rewrite Hall.
    + destruct (IH filtered Hl) as (kept & -> & Hsub & Hall).
      exists kept. split; [done|]. split; [by apply sublist_cons|].
      intros [Hb' _]%Forall_cons. congruence.
Qed.

Lemma in_current_week_any_start start start' entry b :
  in_current_week start entry = Ok b ->
  exists b', in_current_week start' entry = Ok b'.
Proof.
  unfold in_current_week, mbind, result_bind.
  destruct (getitem entry "timestamp") as [ts|]; [|discriminate].
  destruct ts; try discriminate.
  destruct (fromisoformat s); try discriminate. by eexists.
Qed.

(** X4. Purging is idempotent: what [_filter_current_week] returns passes
    again unchanged under any clock of the same week. *)
Theorem _filter_current_week_idempotent now now' data_list filtered :
  _filter_current_week now data_list = Ok filtered ->
  start_of_week now' = start_of_week now ->
  _filter_current_week now' (VList filtered) = Ok filtered.
Proof.
  unfold _filter_current_week, mbind, result_bind. intros Hrun ->.
  destruct (iter data_list) as [entries|]; [|discriminate]. cbn [iter].
  assert (Hall : Forall (fun entry =>
            in_current_week (start_of_week now) entry = Ok true) filtered)
    by (eapply StorageProofs.filter_loop_Forall; [|constructor|exact Hrun]; done).
  destruct (filter_loop_passed (start_of_week now) filtered [])
    as (kept & -> & _ & Hkept).
  - eapply Forall_impl; [exact Hall|]. by eexists.
  - by rewrite Hkept.
Qed.

(** The exceptions the body of the [try] can raise. *)
Lemma in_current_week_raises start entry e :
  in_current_week start entry = Raised e ->
  skipped e = true \/ exn_class_of e = TypeError.
Proof.
  unfold in_current_week, mbind, result_bind.
  destruct entry; cbn; try (intros [= <-]; by right).
  - destruct (assoc "timestamp" items) as [ts|]; [|intros [= <-]; by left].
    destruct ts; try (intros [= <-]; by right).
    destruct (fromisoformat s); intros [= <-]; auto.
Qed.

Lemma filter_loop_TypeError start entry e data :
  entry ∈ data ->
  in_current_week start entry = Raised e ->
  exn_class_of e = TypeError ->
  forall filtered, exists message,
    filter_loop start data filtered = Raised (Exn TypeError message).
Proof.
  intros Hin Hentry Hclass.
  induction Hin as [entry data|entry other data Hin IH]; intros filtered;
    cbn [filter_loop].
  - rewrite Hentry. destruct e as [c message]. cbn in Hclass. subst c.
    by exists message.
  - destruct (in_current_week start other) as [[]|e'] eqn:Hother;
      [by apply IH..|].
    destruct (skipped e') eqn:Hskip; [by apply IH|].
    apply in_current_week_raises in Hother as [|Hc]; [congruence|].
    destruct e' as [c message]. cbn in Hc. subst c. by exists message.
Qed.

(** X5. A stored snapshot whose timestamp carries a UTC offset makes
    [get_weather_history] raise a [TypeError] for that city: the comparison
    with the naive start of the week is not among the exceptions the filter
    skips. The file is left as it is. *)
Theorem get_weather_history_aware_timestamp
    self city now s history stored entry ts t offset :
  s !! history_file self = Some (Json (VDict history)) ->
  assoc (lower city) history = Some (VList stored) ->
  entry ∈ stored ->
  getitem entry "timestamp" = Ok (VStr ts) ->
  fromisoformat ts = Aware t offset ->
  exists message,
    get_weather_history self city now s = (Raised (Exn TypeError message), s).
Proof.
  intros Hfile Hcity Hin Hts Haware.
  unfold get_weather_history, mbind, io_bind, _read_json, lift, mret, io_ret.
  rewrite Hfile. cbn [contains]. rewrite Hcity.
  rewrite bool_decide_eq_true_2 by done. cbn [negb getitem]. rewrite Hcity.
  unfold _filter_current_week. cbn [iter mbind result_bind].
  assert (Hentry : in_current_week (start_of_week now) entry
            = raise TypeError "can't compare offset-naive and offset-aware datetimes").
  { unfold in_current_week. rewrite Hts. cbn [mbind result_bind].
    by rewrite Haware. }
  destruct (filter_loop_TypeError _ _ _ _ Hin Hentry eq_refl []) as [message ->].
  by exists message.
Qed.

(** *** add_search *)

Lemma without_city_raises city entry e searches :
  entry ∈ searches ->
  getitem entry "city" = Raised e ->
  exists e', without_city city searches = Raised e'.
Proof.
  intros Hin Hentry.
  induction Hin as [entry searches|entry other searches Hin IH];
    cbn [without_city].
  - rewrite Hentry. by eexists.
  - destruct (getitem other "city") as [c|]; [|by eexists]. cbn.
    destruct (str_method "lower" lower c); [|by eexists]. cbn.
    destruct (IH Hentry) as [e' ->]. by eexists.
Qed.

(** X6. [add_search] writes at most the search file, and nothing at all
    when it raises; it raises when a stored entry has no [city]. *)
Theorem add_search_raises_unchanged self city now s :
  (forall e, (add_search self city now s).1 = Raised e ->
             (add_search self city now s).2 = s) /\
  (forall path, path <> search_file self ->
                (add_search self city now s).2 !! path = s !! path) /\
  (forall searches entry e,
     s !! search_file self = Some (Json (VList searches)) ->
     entry ∈ searches ->
     getitem entry "city" = Raised e ->
     exists e', add_search self city now s = (Raised e', s)).
Proof.
  unfold add_search, mbind, io_bind, _write_json, lift.
  destruct (StorageProofs._read_json_state (search_file self) s) as [r Hread].
  rewrite Hread.
  split; [|split].
  - destruct r as [searches|]; [|done].
    destruct (iter searches) as [elements|]; [|done].
    destruct (without_city city elements); [discriminate|done].
  - intros path Hpath. destruct r as [searches|]; [|done].
    destruct (iter searches) as [elements|]; [|done].
    destruct (without_city city elements); [|done].
    cbn [snd]. by rewrite lookup_insert_ne.
  - intros stored entry e Hfile Hin Hentry.
    unfold _read_json in Hread. rewrite Hfile in Hread. injection Hread as <-.
    cbn [iter].
    destruct (without_city_raises city entry e stored Hin Hentry) as [e' ->].
    by exists e'.
Qed.

(** *** save_weather_data *)

(** What a call that returns has read, kept and written. *)
Lemma save_weather_data_inv self city weather_data now now' s s' :
  save_weather_data self city weather_data now now' s = (Ok tt, s') ->
  exists d d' old filtered,
    (_read_json (history_file self) s).1 = Ok (VDict d) /\
    (assoc (lower city) d = Some (VList old)
     \/ assoc (lower city) d = None /\ old = []) /\
    filter_loop (start_of_week now') (old ++ [stamped weather_data now])%list []
      = Ok filtered /\
    assoc (lower city) d' = Some (VList filtered) /\
    (forall k, k <> lower city -> assoc k d' = assoc k d) /\
    s' = <[history_file self := Json (VDict d')]> s.
Proof.
  unfold save_weather_data, mbind, io_bind, _write_json, lift.
  destruct (StorageProofs._read_json_state (history_file self) s) as [r ->].
  cbn [fst]. destruct r as [history|]; [|discriminate].
  fold (stamped weather_data now).
  destruct history as [| | | |text|l|d]; try discriminate.
  - cbn [contains]. destruct (str_contains (lower city) text); discriminate.
  - cbn [contains]. destruct (existsb _ l); discriminate.
  - cbn [contains setitem getitem].
    destruct (assoc (lower city) d) as [snapshots|] eqn:Hcity.
    + rewrite bool_decide_eq_true_2 by done. cbn [negb getitem]. rewrite Hcity.
      destruct snapshots as [| | | | |old|]; try discriminate.
      cbn [append setitem].
      unfold _filter_current_week. cbn [iter mbind result_bind].
      destruct (filter_loop _ _ []) as [filtered|] eqn:Hfilter; [|discriminate].
      intros [= <-].
      exists d, (assoc_set (lower city) (VList filtered) d), old, filtered.
      repeat split; auto.
      * apply assoc_assoc_set_eq.
      * intros k Hk. by apply assoc_assoc_set_ne.
    + rewrite bool_decide_eq_false_2 by (by intros [? [=]]).
      cbn [negb getitem setitem].
      rewrite assoc_assoc_set_eq. cbn [append app setitem].
      unfold _filter_current_week. cbn [iter mbind result_bind].
      destruct (filter_loop _ _ []) as [filtered|] eqn:Hfilter; [|discriminate].
      intros [= <-].
      exists d, (assoc_set (lower city) (VList filtered)
                   (assoc_set (lower city) (VList []) d)), [], filtered.
      repeat split; auto.
      * apply assoc_assoc_set_eq.
      * intros k Hk. by rewrite !assoc_assoc_set_ne.
Qed.

(** X7. When [save_weather_data] returns, the history file holds a dict
    in which the list of the saved city is purged to the current week and is
    a subsequence of the old list followed by the new snapshot; the lists of
    all other cities are as they were (unpurged), as is every other file. *)
Theorem save_weather_data_purges_one_city
    self city weather_data now now' s s' :
  save_weather_data self city weather_data now now' s = (Ok tt, s') ->
  exists d d' old filtered,
    (_read_json (history_file self) s).1 = Ok (VDict d) /\
    s' = <[history_file self := Json (VDict d')]> s /\
    (assoc (lower city) d = Some (VList old)
     \/ assoc (lower city) d = None /\ old = []) /\
    assoc (lower city) d' = Some (VList filtered) /\
    Forall (in_week now') filtered /\
    filtered `sublist_of` (old ++ [stamped weather_data now])%list /\
    (forall k, k <> lower city -> assoc k d' = assoc k d).
Proof.
  intros (d & d' & old & filtered & Hread & Hold & Hfilter & Hcity & Hother & ->)
    %save_weather_data_inv.
  exists d, d', old, filtered. repeat split; try done.
  - eapply StorageProofs.filter_loop_Forall; [|constructor|exact Hfilter].
    apply StorageProofs.in_current_week_time.
  - by apply StorageProofs.filter_loop_sublist in Hfilter as (kept & -> & Hsub).
Qed.

(** X8. Saving and reading back: a snapshot saved without a timestamp is
    stamped with the clock, and while the clock stays in the week of the
    stamp, [get_weather_history] returns it as the last entry of the city. *)
Theorem save_then_get_weather_history
    self city weather_data now now' now'' s s' :
  save_weather_data self city weather_data now now' s = (Ok tt, s') ->
  assoc "timestamp" weather_data = None ->
  fromisoformat (isoformat now) = Naive now ->
  le (start_of_week now') now ->
  le (start_of_week now'') now ->
  exists earlier,
    get_weather_history self city now'' s'
    = (Ok (earlier ++ [stamped weather_data now])%list, s').
Proof.
  intros (d & d' & old & filtered & Hread & Hold & Hfilter & Hcity & Hother & ->)
    %save_weather_data_inv Hstamp Hiso Hweek' Hweek''.
  assert (Hsnapshot : forall start,
    in_current_week start (stamped weather_data now) = Ok (leb start now)).
  { intros start. unfold in_current_week, stamped. rewrite Hstamp.
    cbn [getitem]. rewrite assoc_assoc_set_eq. cbn [mbind result_bind].
    by rewrite Hiso. }
  rewrite filter_loop_app in Hfilter.
  destruct (filter_loop (start_of_week now') old []) as [kept|] eqn:Hkept;
    [|discriminate].
  cbn [mbind result_bind filter_loop] in Hfilter.
  rewrite Hsnapshot, (proj2 (StorageProofs.leb_le _ _) Hweek') in Hfilter.
  injection Hfilter as <-.
  assert (Hpassed : Forall (fun entry =>
            exists b, in_current_week (start_of_week now'') entry = Ok b) kept).
  { eapply Forall_impl.
    - eapply (StorageProofs.filter_loop_Forall
                (fun entry => in_current_week (start_of_week now') entry = Ok true)
                (start_of_week now')); [|constructor|exact Hkept]; done.
    - intros entry Hentry.
      exact (in_current_week_any_start _ _ _ _ Hentry). }
  destruct (filter_loop_passed (start_of_week now'') kept [] Hpassed)
    as (earlier & Hearlier & _ & _).
  exists earlier.
  unfold get_weather_history, mbind, io_bind, _read_json, lift, mret, io_ret.
  rewrite lookup_insert_eq. cbn [contains]. rewrite Hcity.
  rewrite bool_decide_eq_true_2 by done. cbn [negb getitem]. rewrite Hcity.
  unfold _filter_current_week. cbn [iter mbind result_bind].
  rewrite filter_loop_app, Hearlier. cbn [mbind result_bind filter_loop app].
  by rewrite Hsnapshot, (proj2 (StorageProofs.leb_le _ _) Hweek'').
Qed.

(** *** clear_old_data *)

Lemma elem_of_keys_assoc k (d : list (string * value)) :
  k ∈ d.*1 -> is_Some (assoc k d).
Proof.
  induction d as [|[k' v'] d IH]; cbn; [by intros ?%elem_of_nil|].
  destruct (String.eqb_spec k' k) as [->|Hne]; [by eexists|].
  intros [?|?]%elem_of_cons; [congruence|by apply IH].
Qed.

Lemma clear_dict_purges now : forall keys i history history',
  NoDup keys ->
  (forall k, k ∈ keys -> is_Some (assoc k history)) ->
  clear_dict now i keys history = Ok history' ->
  history'.*1 = history.*1 /\
  (forall k, k ∉ keys -> assoc k history' = assoc k history) /\
  (forall k v, k ∈ keys -> assoc k history = Some v ->
     exists j l, assoc k history' = Some (VList l)
                 /\ _filter_current_week (now j) v = Ok l).
Proof.
  induction keys as [|city rest IH]; intros i history history' Hnodup Hkeys.
  - intros [= <-]. split; [done|]. split; [done|]. by intros k v ?%elem_of_nil.
  - apply NoDup_cons in Hnodup as [Hcity Hnodup].
    cbn [clear_dict getitem].
    destruct (Hkeys city) as [data Hdata]; [by left|]. rewrite Hdata.
    cbn [mbind result_bind].
    destruct (_filter_current_week (now i) data) as [filtered|] eqn:Hfilter;
      [|discriminate].
    intros Hrest. apply IH in Hrest as (Hk & Hout & Hin); [|done|].
    2:{ intros k Hkin. rewrite assoc_assoc_set_ne; [apply Hkeys; by right|].
        intros ->. done. }
    split; [|split].
    + rewrite Hk. apply assoc_set_keys. by eexists.
    + intros k Hk'. apply not_elem_of_cons in Hk' as [Hne Hk'].
      rewrite Hout by done. by apply assoc_assoc_set_ne.
    + intros k v [->|Hkin]%elem_of_cons Hv.
      * exists i, filtered. rewrite Hout by done.
        rewrite assoc_assoc_set_eq. split; [done|]. congruence.
      * apply (Hin k v Hkin). rewrite assoc_assoc_set_ne; [done|].
        intros ->. done.
Qed.

(** X9. On a history file that holds a dict, a [clear_old_data] that
    returns keeps every city, in order, and replaces the list of each by its
    purge: only entries of the current week remain. No other file changes. *)
Theorem clear_old_data_purges_every_city self now s d s' :
  s !! history_file self = Some (Json (VDict d)) ->
  NoDup d.*1 ->
  clear_old_data self now s = (Ok tt, s') ->
  exists d',
    s' = <[history_file self := Json (VDict d')]> s /\
    d'.*1 = d.*1 /\
    forall city snapshots,
      assoc city d = Some snapshots ->
      exists j purged,
        assoc city d' = Some (VList purged) /\
        _filter_current_week (now j) snapshots = Ok purged /\
        Forall (in_week (now j)) purged.
Proof.
  intros Hfile Hnodup.
  unfold clear_old_data, mbind, io_bind, _read_json, _write_json, lift.
  rewrite Hfile. cbn [fmap result_fmap].
  destruct (clear_dict now 0 d.*1 d) as [d'|] eqn:Hclear; [|discriminate].
  intros [= <-]. exists d'. split; [done|].
  apply clear_dict_purges in Hclear as (Hkeys & _ & Hin);
    [|done|intros k Hk; by apply elem_of_keys_assoc].
  split; [done|]. intros city snapshots Hcity.
  destruct (Hin city snapshots) as (j & purged & Hpurged & Hfilter);
    [|done|].
  - apply assoc_Some_elem_of in Hcity.
    apply list_elem_of_fmap. by exists (city, snapshots).
  - exists j, purged. repeat split; [done..|].
    by apply (StorageProofs._filter_current_week_Forall _ snapshots).
Qed.

End WithLib.
End StorageFacts.

(** * Further properties of the city resolver *)

Module AutocompleteFacts.
Import Net Autocomplete AutocompleteSpec AutocompleteNotions.

Lemma lower_length s : String.length (lower s) = String.length s.
Proof. induction s as [|a s IH]; cbn; [done|]. by rewrite IH. Qed.

(** *** Removing duplicates *)

Lemma unique_spec cities : forall seen,
  unique cities seen `sublist_of` cities /\
  NoDup (display <$> unique cities seen) /\
  (forall c, c ∈ unique cities seen -> display c ∉ seen) /\
  (forall c, c ∈ cities -> display c ∈ seen \/
                           display c ∈ display <$> unique cities seen).
Proof.
  induction cities as [|c cities IH]; intros seen; cbn [unique].
  - split; [done|]. split; [constructor|].
    split; by intros c ?%elem_of_nil.
  - destruct (decide (display c ∈ seen)) as [Hseen|Hnew].
    + destruct (IH seen) as (Hsub & Hnodup & Hout & Hall).
      repeat split; [by apply sublist_cons|done|done|].
      intros c' [->|Hc']%elem_of_cons; [by left|by apply Hall].
    + destruct (IH ({[display c]} ∪ seen)) as (Hsub & Hnodup & Hout & Hall).
      repeat split.
      * by apply sublist_skip.
      * cbn. apply NoDup_cons. split; [|done].
        intros (c' & Heq & Hc')%list_elem_of_fmap.
        apply Hout in Hc'. apply Hc', elem_of_union. left.
        by apply elem_of_singleton.
      * intros c' [->|Hc']%elem_of_cons; [done|].
        apply Hout in Hc'. intros Hseen. apply Hc', elem_of_union. by right.
      * intros c' [->|Hc']%elem_of_cons; [right; cbn; by left|].
        destruct (Hall c' Hc') as [Hin|Hin]; [|right; cbn; by right].
        apply elem_of_union in Hin as [->%elem_of_singleton|Hin];
          [right; cbn; by left | by left].
Qed.

Section WithLib.
Context {py : PyLib}.

(** *** What a call sends and keeps *)

Lemma wait_if_needed_world self w :
  sent (wait_if_needed self w) = sent w /\
  network (wait_if_needed self w) = network w /\
  stdout (wait_if_needed self w) = stdout w /\
  (clock w <= clock (wait_if_needed self w))%Q.
Proof.
  unfold wait_if_needed. destruct (Qlt_le_dec _ _); cbn; repeat split; lra.
Qed.

(** A fetch sends one request, at the time on the clock, and keeps the
    cache; its cities have pairwise different display names. *)
Lemma fetch_spec self query limit w :
  exists request,
    sent (fetch self query limit w).2 = (clock w, request) :: sent w /\
    stdout (fetch self query limit w).2 = stdout w /\
    cache (fetch self query limit w).1.2 = cache self /\
    min_request_interval (fetch self query limit w).1.2
      = min_request_interval self /\
    (forall cities, (fetch self query limit w).1.1 = Ok cities ->
                    NoDup (display <$> cities)).
Proof.
  unfold fetch, get. cbn [mbind result_bind].
  eexists. destruct (outcome _) as [e|r]; cbn [mbind result_bind fst snd].
  - repeat split; try reflexivity. discriminate.
  - destruct (raise_for_status r); cbn [mbind result_bind fst snd].
    + repeat split; try reflexivity. intros cities Hcities.
      destruct (json r) as [results|]; [|discriminate]. cbn in Hcities.
      destruct (iter results) as [elements|]; [|discriminate]. cbn in Hcities.
      destruct (parse_results elements []) as [parsed|]; [|discriminate].
      injection Hcities as <-. apply unique_spec.
    + repeat split; try reflexivity. discriminate.
Qed.

(** X10. A query of fewer than two characters gets the empty list at
    once: no request is sent, nothing is cached, the clock is not read. *)
Theorem search_cities_short_query self query limit w :
  (String.length query < 2)%nat ->
  search_cities self query limit w = ([], self, w).
Proof.
  intros Hshort. unfold search_cities.
  by rewrite (proj2 (Nat.ltb_lt _ _) Hshort), orb_true_r.
Qed.

(** X11. A search whose request or parsing fails returns the empty list
    instead of raising: it has sent its one request, prints one line with the
    failure, and caches nothing. *)
Theorem search_cities_failure_swallowed self query limit w e :
  (2 <= String.length query)%nat ->
  cache self !! cache_key query limit = None ->
  (fetch self query limit (wait_if_needed self w)).1.1 = Raised e ->
  (search_cities self query limit w).1.1 = [] /\
  cache (search_cities self query limit w).1.2 = cache self /\
  stdout (search_cities self query limit w).2
    = (stdout w ++ ["Error searching cities: " +:+ exn_str e])%list /\
  length (sent (search_cities self query limit w).2) = S (length (sent w)).
Proof.
  intros Hlen Hmiss Hfail. unfold search_cities.
  rewrite (proj2 (Nat.ltb_ge _ _) Hlen), orb_false_r.
  rewrite bool_decide_eq_false_2 by (intros ->; cbn in Hlen; lia).
  rewrite Hmiss.
  destruct (fetch_spec self query limit (wait_if_needed self w))
    as (request & Hsent & Hout & Hcache & _ & _).
  destruct (wait_if_needed_world self w) as (Hsent' & _ & Hout' & _).
  destruct (fetch self query limit (wait_if_needed self w))
    as [[[cities|e'] self'] w'] eqn:Hfetch; cbn in *; [discriminate|].
  injection Hfail as ->.
  repeat split; [done| |].
  - by rewrite Hout, Hout'.
  - by rewrite Hsent, Hsent'.
Qed.

(** X12. The sequences [search_cities] returns have pairwise different
    display names, as long as the cached ones do; and the cache keeps that
    property. It holds of the empty cache of a new object. *)
Theorem search_cities_unique_display self query limit w :
  cache_unique self ->
  NoDup (display <$> (search_cities self query limit w).1.1) /\
  cache_unique (search_cities self query limit w).1.2.
Proof.
  intros Hcache. unfold search_cities.
  destruct (bool_decide (query = "") || Nat.ltb (String.length query) 2).
  { split; [constructor|done]. }
  destruct (cache self !! cache_key query limit) as [cached|] eqn:Hkey.
  { split; [by eapply Hcache|done]. }
  destruct (fetch_spec self query limit (wait_if_needed self w))
    as (request & _ & _ & Hsame & _ & Hunique).
  destruct (fetch self query limit (wait_if_needed self w))
    as [[[cities|e'] self'] w'] eqn:Hfetch; cbn in *.
  - specialize (Hunique cities eq_refl). split; [done|].
    intros key cached. cbn [cache set_cache]. rewrite Hsame.
    destruct (decide (key = cache_key query limit)) as [->|Hne].
    + rewrite lookup_insert_eq. by intros [= <-].
    + rewrite lookup_insert_ne by done. apply Hcache.
  - split; [constructor|]. intros key cached. rewrite Hsame. apply Hcache.
Qed.

Lemma cache_unique_new : cache_unique Autocomplete.__init__.
Proof. intros key cities Hkey. cbn in Hkey. by rewrite lookup_empty in Hkey. Qed.

(** X13. The cache does not tell upper case from lower case: after a
    search that did not fail, a query of two characters or more with the
    same lower-cased text and the same limit is answered from the cache,
    without a request. *)
Theorem search_cities_cache_ignores_case
    self query query' limit w cities self1 w1 :
  search_cities self query limit w = (cities, self1, w1) ->
  ~ fetch_failed self query limit w ->
  (2 <= String.length query)%nat ->
  lower query' = lower query ->
  forall w2, search_cities self1 query' limit w2 = (cities, self1, w2).
Proof.
  intros Hrun Hok Hlen Hlower w2.
  assert (Hlen' : (2 <= String.length query')%nat)
    by (rewrite <-(lower_length query'), Hlower, lower_length; done).
  assert (Hcached : cache self1 !! cache_key query limit = Some cities).
  { revert Hrun. unfold search_cities.
    rewrite (proj2 (Nat.ltb_ge _ _) Hlen), orb_false_r.
    rewrite bool_decide_eq_false_2 by (intros ->; cbn in Hlen; lia).
    destruct (cache self !! cache_key query limit) as [cached|] eqn:Hkey.
    { by intros [= <- <- <-]. }
    destruct (fetch self query limit (wait_if_needed self w))
      as [[[unique_cities|e] self'] w'] eqn:Hfetch.
    - intros [= <- <- <-]. cbn [cache set_cache]. by rewrite lookup_insert_eq.
    - exfalso. apply Hok. repeat split; [done..|]. exists e. by rewrite Hfetch. }
  unfold search_cities.
  rewrite (proj2 (Nat.ltb_ge _ _) Hlen'), orb_false_r.
  rewrite bool_decide_eq_false_2 by (intros ->; cbn in Hlen'; lia).
  unfold cache_key in *. by rewrite Hlower, Hcached.
Qed.

(** An uncached search sends its request no sooner than
    [min_request_interval] after [last_request_time]. *)
Lemma search_cities_sends self query limit w :
  (2 <= String.length query)%nat ->
  cache self !! cache_key query limit = None ->
  exists t request,
    sent (search_cities self query limit w).2 = (t, request) :: sent w /\
    (last_request_time self + min_request_interval self <= t)%Q /\
    (clock w <= t)%Q.
Proof.
  intros Hlen Hmiss. unfold search_cities.
  rewrite (proj2 (Nat.ltb_ge _ _) Hlen), orb_false_r.
  rewrite bool_decide_eq_false_2 by (intros ->; cbn in Hlen; lia).
  rewrite Hmiss.
  destruct (fetch_spec self query limit (wait_if_needed self w))
    as (request & Hsent & _).
  destruct (wait_if_needed_world self w) as (Hsent' & _ & _ & Hclock).
  pose proof (AutocompleteProofs.wait_if_needed_clock self w) as Hwait.
  exists (clock (wait_if_needed self w)), request.
  destruct (fetch self query limit (wait_if_needed self w))
    as [[[cities|e'] self'] w'] eqn:Hfetch; cbn in *;
    by rewrite Hsent, Hsent'.
Qed.

(** A request answered with a good status moves [last_request_time] to
    the time of the answer, whatever the parsing does afterwards. *)
Lemma search_cities_answered self query limit w r :
  (2 <= String.length query)%nat ->
  cache self !! cache_key query limit = None ->
  (forall request, outcome (network w (length (sent w)) request) = inr r) ->
  good_status r ->
  exists t request,
    sent (search_cities self query limit w).2 = (t, request) :: sent w /\
    last_request_time (search_cities self query limit w).1.2
      = (t + duration (network w (length (sent w)) request))%Q /\
    min_request_interval (search_cities self query limit w).1.2
      = min_request_interval self.
Proof.
  intros Hlen Hmiss Hanswer Hgood. unfold search_cities.
  rewrite (proj2 (Nat.ltb_ge _ _) Hlen), orb_false_r.
  rewrite bool_decide_eq_false_2 by (intros ->; cbn in Hlen; lia).
  rewrite Hmiss.
  destruct (wait_if_needed_world self w) as (Hsent & Hnet & _ & _).
  destruct (wait_if_needed self w) as [clock0 network0 sent0 stdout0].
  cbn in Hsent, Hnet. subst sent0 network0.
  eexists _, _.
  unfold fetch, get. cbn [network sent clock]. rewrite Hanswer.
  cbn [mbind result_bind]. unfold raise_for_status. rewrite Hgood.
  cbn [mbind result_bind clock].
  match goal with
  | |- context [match ?parsed with Ok _ => _ | Raised _ => _ end] =>
      destruct parsed
  end; cbn; done.
Qed.

(** X14. What the rate limiter does achieve: when a request was answered
    with a good status, the request of the next uncached search leaves at
    least [min_request_interval] after it, however soon the search is made. *)
Theorem search_cities_spacing_after_answer
    self query1 limit1 query2 limit2 w r w2 :
  (2 <= String.length query1)%nat ->
  cache self !! cache_key query1 limit1 = None ->
  (forall request, outcome (network w (length (sent w)) request) = inr r) ->
  good_status r ->
  (forall request, (0 <= duration (network w (length (sent w)) request))%Q) ->
  (2 <= String.length query2)%nat ->
  cache (search_cities self query1 limit1 w).1.2 !! cache_key query2 limit2
    = None ->
  sent w2 = sent (search_cities self query1 limit1 w).2 ->
  exists t1 request1 t2 request2,
    sent (search_cities (search_cities self query1 limit1 w).1.2
            query2 limit2 w2).2
      = (t2, request2) :: (t1, request1) :: sent w /\
    (t1 + min_request_interval self <= t2)%Q.
Proof.
  intros Hlen1 Hmiss1 Hanswer Hgood Hduration Hlen2 Hmiss2 Hw2.
  destruct (search_cities_answered self query1 limit1 w r Hlen1 Hmiss1 Hanswer Hgood)
    as (t1 & request1 & Hsent1 & Hlast & Hinterval).
  destruct (search_cities_sends (search_cities self query1 limit1 w).1.2
              query2 limit2 w2 Hlen2 Hmiss2)
    as (t2 & request2 & Hsent2 & Hwait & _).
  exists t1, request1, t2, request2. split.
  - by rewrite Hsent2, Hw2, Hsent1.
  - rewrite Hlast, Hinterval in Hwait.
    specialize (Hduration request1). lra.
Qed.

End WithLib.
End AutocompleteFacts.

(** * Further properties of the weather source adapter *)

Module ScraperFacts.
Import Net Scraper ScraperSpec ScraperNotions.

Lemma all_from_spec f n : forall from v,
  all_from f n from = true -> from <= v < from + Z.of_nat n -> f v = true.
Proof.
  induction n as [|n IH]; intros from v; cbn [all_from]; [lia|].
  intros [Hfrom Hrest]%andb_true_iff Hv.
  destruct (decide (v = from)) as [->|Hne]; [done|].
  apply (IH (from + 1)); [done|lia].
Qed.

(** From [(x ← m; k x) = Ok v]: the value of [m], and [k x = Ok v]. *)
Ltac unbind H :=
  repeat match type of H with
         | (?m ≫= _) = Ok _ =>
             let E := fresh "E" in
             destruct m eqn:E; [cbn [mbind result_bind] in H|discriminate]
         | (_ <$> ?m) = Ok _ =>
             let E := fresh "E" in
             destruct m eqn:E; [cbn [fmap result_fmap] in H|discriminate]
         | Ok _ = Ok _ => injection H as <-
         end.

(** The fields of a dict display, one at a time. *)
Ltac all_fields H :=
  apply ScraperProofs.dict_of_fields in H;
  repeat match goal with
         | F : Forall2 _ (_ :: _) _ |- _ =>
             apply Forall2_cons_inv_l in F as ([? ?] & ? & [? ?] & F & ->);
             simplify_eq/=
         | F : Forall2 _ [] _ |- _ => apply Forall2_nil_inv_l in F as ->
         end.

(** *** The compass *)

(** X15. For a whole bearing from 0 to 360 degrees the fallback reports
    the nearest of the 16 compass points: the point [k] with
    [22.5 k - 11.25 <= deg < 22.5 k + 11.25], where point 16 is N again.
    Whenever an index is computed it lies within the table. *)
Theorem _degrees_to_direction_nearest_point :
  (forall d, 0 <= d <= 360 ->
     exists k name,
       0 <= k <= 16 /\ 90 * k - 45 <= 4 * d < 90 * k + 45 /\
       directions !! Z.to_nat (k mod 16) = Some name /\
       _degrees_to_direction (VInt d) = Ok name) /\
  (forall degrees index,
     direction_index degrees = Ok index ->
     0 <= index < 16 /\
     exists name, name ∈ directions /\ _degrees_to_direction degrees = Ok name).
Proof.
  assert (Htable : forall index, 0 <= index < 16 ->
            exists name, directions !! Z.to_nat index = Some name).
  { intros index Hindex. apply lookup_lt_is_Some. cbn. lia. }
  split.
  - intros d Hd. pose proof (ScraperProofs.direction_index_whole d Hd) as Hindex.
    exists ((4 * d + 45) / 90).
    destruct (Htable (((4 * d + 45) / 90) mod 16)) as [name Hname];
      [apply Z.mod_pos_bound; lia|].
    exists name. split; [|split; [|split]].
    + split; [apply Z.div_pos; lia|].
      enough ((4 * d + 45) / 90 < 17) by lia.
      apply Z.div_lt_upper_bound; lia.
    + pose proof (Z.mul_div_le (4 * d + 45) 90).
      pose proof (Z.mul_succ_div_gt (4 * d + 45) 90). lia.
    + done.
    + unfold _degrees_to_direction. rewrite Hindex. cbn [mbind result_bind].
      by rewrite Hname.
  - intros degrees index Hindex.
    assert (Hrange : 0 <= index < 16).
    { unfold direction_index in Hindex. unbind Hindex.
      apply Z.mod_pos_bound. lia. }
    split; [done|]. destruct (Htable index Hrange) as [name Hname].
    exists name. split; [by eapply list_elem_of_lookup_2|].
    unfold _degrees_to_direction. rewrite Hindex. cbn [mbind result_bind].
    by rewrite Hname.
Qed.

(** *** What is sent *)

Lemma get_ok_world request w :
  sent (get_ok request w).2 = (clock w, request) :: sent w /\
  network (get_ok request w).2 = network w /\
  stdout (get_ok request w).2 = stdout w.
Proof.
  unfold get_ok, get, mbind, net_bind, pure, mret, net_ret.
  destruct (outcome _) as [e|r]; [done|].
  by destruct (raise_for_status r).
Qed.

Lemma get_ok_run request w :
  get_ok request w
  = match get request w with
    | (Ok response, w1) =>
        (match raise_for_status response with
         | Ok _ => Ok response
         | Raised e => Raised e
         end, w1)
    | (Raised e, w1) => (Raised e, w1)
    end.
Proof.
  unfold get_ok, mbind, net_bind, pure, mret, net_ret.
  destruct (get request w) as [[response|e] w1]; [|done].
  by destruct (raise_for_status response) as [[]|].
Qed.

(** A request, then a computation on the answer: the world is the one
    the request left. *)
Lemma get_ok_then_world {A} request (k : response -> result A) w :
  ((response ← get_ok request; pure (k response)) w).2 = (get_ok request w).2.
Proof.
  unfold mbind at 1, net_bind at 1, pure.
  destruct (get_ok request w) as [[r|e] w1]; [|done]. by destruct (k r).
Qed.

Section WithLib.
Context {py : PyLib}.

(** *** The primary source *)

Lemma wttr_weather_data_fields data city now weather_data :
  wttr_weather_data data city now = Ok weather_data ->
  exists current,
    at_path data [K "current_condition"; I 0] = Ok current /\
    getitem weather_data "temperature" = getitem current "temp_C" /\
    getitem weather_data "feels_like" = getitem current "FeelsLikeC" /\
    getitem weather_data "humidity" = getitem current "humidity" /\
    getitem weather_data "wind_speed" = getitem current "windspeedKmph" /\
    getitem weather_data "wind_direction" = getitem current "winddir16Point" /\
    getitem weather_data "pressure" = getitem current "pressure" /\
    getitem weather_data "visibility" = getitem current "visibility" /\
    getitem weather_data "uv_index" = getitem current "uvIndex" /\
    getitem weather_data "precipitation" = getitem current "precipMM" /\
    getitem weather_data "weather_code" = getitem current "weatherCode" /\
    getitem weather_data "timestamp" = Ok (VStr (isoformat now)) /\
    getitem weather_data "source" = Ok (VStr "wttr.in").
Proof.
  unfold wttr_weather_data. intros Hdata.
  destruct (at_path data [K "current_condition"; I 0]) as [current|];
    [cbn [mbind result_bind] in Hdata|discriminate].
  repeat match type of Hdata with
         | (?m ≫= _) = Ok _ =>
             destruct m; [cbn [mbind result_bind] in Hdata|discriminate]
         end.
  match type of Hdata with
  | _ <$> ?m = _ => destruct m as [d|] eqn:Hd; [|discriminate]
  end.
  injection Hdata as <-. all_fields Hd.
  exists current. split; [done|]. cbn. by repeat split.
Qed.

(** X16. When the primary source answers with a document that maps,
    [get_current_weather] returns that mapping and has sent the one request:
    the values of the current condition are passed through as they are (no
    unit is converted), the source is "wttr.in", and the fallback is not
    contacted, key or no key. *)
Theorem get_current_weather_primary_verbatim
    self city now w response w1 data weather_data :
  get (wttr_request self city) w = (Ok response, w1) ->
  raise_for_status response = Ok tt ->
  json response = Ok data ->
  wttr_weather_data data city now = Ok weather_data ->
  get_current_weather self city now w = (Ok weather_data, w1) /\
  sent w1 = (clock w, wttr_request self city) :: sent w /\
  exists current,
    at_path data [K "current_condition"; I 0] = Ok current /\
    getitem weather_data "temperature" = getitem current "temp_C" /\
    getitem weather_data "feels_like" = getitem current "FeelsLikeC" /\
    getitem weather_data "humidity" = getitem current "humidity" /\
    getitem weather_data "wind_speed" = getitem current "windspeedKmph" /\
    getitem weather_data "wind_direction" = getitem current "winddir16Point" /\
    getitem weather_data "pressure" = getitem current "pressure" /\
    getitem weather_data "visibility" = getitem current "visibility" /\
    getitem weather_data "uv_index" = getitem current "uvIndex" /\
    getitem weather_data "precipitation" = getitem current "precipMM" /\
    getitem weather_data "weather_code" = getitem current "weatherCode" /\
    getitem weather_data "timestamp" = Ok (VStr (isoformat now)) /\
    getitem weather_data "source" = Ok (VStr "wttr.in").
Proof.
  intros Hget Hstatus Hjson Hdata. split; [|split].
  - unfold get_current_weather, try_wttr, get_ok, mbind, net_bind, pure,
      mret, net_ret.
    rewrite Hget, Hstatus, Hjson. cbn [result_bind]. by rewrite Hdata.
  - unfold get in Hget. by injection Hget as _ <-.
  - by apply (wttr_weather_data_fields data city now).
Qed.

(** X17. [get_current_weather] sends one request when the primary source
    answers usably or no key is configured, and two, the second to the
    fallback, when the primary fails and a key is configured: the fallback
    is contacted only then, and nothing is retried. *)
Theorem get_current_weather_requests self city now w :
  sent (get_current_weather self city now w).2
  = (match (try_wttr self city now w).1 with
     | Ok _ => []
     | Raised _ =>
         if has_key self
         then [(clock (try_wttr self city now w).2, owm_request self city)]
         else []
     end ++ (clock w, wttr_request self city) :: sent w)%list.
Proof.
  assert (Hw : (try_wttr self city now w).2
               = (get_ok (wttr_request self city) w).2)
    by exact (get_ok_then_world (wttr_request self city)
                (fun response => data ← json response;
                                 wttr_weather_data data city now) w).
  destruct (get_ok_world (wttr_request self city) w) as (Hsent & _).
  rewrite <-Hw in Hsent.
  unfold get_current_weather.
  destruct (try_wttr self city now w) as [[weather_data|e] w1]; cbn [fst snd] in *.
  - done.
  - destruct (has_key self); [|done].
    assert (Hw1 : (_get_weather_from_owm self city now w1).2
                  = (get_ok (owm_request self city) w1).2)
      by exact (get_ok_then_world (owm_request self city)
                  (fun response => data ← json response;
                                   owm_weather_data data now) w1).
    destruct (get_ok_world (owm_request self city) w1) as (Hsent1 & _).
    rewrite <-Hw1 in Hsent1.
    destruct (_get_weather_from_owm self city now w1) as [[wd|e'] w2];
      cbn [fst snd app] in *; by rewrite Hsent1, Hsent.
Qed.

(** *** The fallback source *)

Lemma owm_weather_data_more_fields data now weather_data :
  owm_weather_data data now = Ok weather_data ->
  getitem weather_data "region" = Ok (VStr "") /\
  getitem weather_data "uv_index" = Ok (VStr "0") /\
  getitem weather_data "precipitation" = Ok (VStr "0") /\
  getitem weather_data "timestamp" = Ok (VStr (isoformat now)) /\
  (exists v km n,
     dict_get data "visibility" (VInt 10000) = Ok v /\
     div_int v 1000 = Ok km /\
     int_of_float km = Ok n /\
     getitem weather_data "visibility" = Ok (VStr (pretty n))) /\
  (exists wind deg name,
     getitem data "wind" = Ok wind /\
     dict_get wind "deg" (VInt 0) = Ok deg /\
     _degrees_to_direction deg = Ok name /\
     getitem weather_data "wind_direction" = Ok (VStr name)).
Proof.
  unfold owm_weather_data. intros Hdata.
  match type of Hdata with
  | _ <$> ?m = _ => destruct m as [d|] eqn:Hd; [|discriminate]
  end.
  injection Hdata as <-. all_fields Hd.
  repeat split; try done.
  - match goal with
    | F : dict_get data "visibility" _ ≫= _ = Ok _ |- _ => unbind F
    end.
    by eexists _, _, _.
  - match goal with
    | F : getitem data "wind" ≫= _ = Ok _ |- _ => unbind F
    end.
    by eexists _, _, _.
Qed.

(** X18. On the fallback path the region is empty and the UV index and
    the precipitation are "0"; a document without [visibility] is reported
    with "10" (km), and a wind without [deg] as blowing from N. *)
Theorem fallback_constants_and_defaults self city now w weather_data w' :
  get_current_weather self city now w = (Ok weather_data, w') ->
  getitem weather_data "source" = Ok (VStr "OpenWeatherMap") ->
  getitem weather_data "region" = Ok (VStr "") /\
  getitem weather_data "uv_index" = Ok (VStr "0") /\
  getitem weather_data "precipitation" = Ok (VStr "0") /\
  exists w1 response data,
    get (owm_request self city) w1 = (Ok response, w') /\
    json response = Ok data /\
    (forall d, data = VDict d -> assoc "visibility" d = None ->
       getitem weather_data "visibility" = Ok (VStr "10")) /\
    (forall wind, getitem data "wind" = Ok (VDict wind) ->
       assoc "deg" wind = None ->
       getitem weather_data "wind_direction" = Ok (VStr "N")).
Proof.
  intros Hrun Hsource.
  destruct (ScraperProofs.get_current_weather_fallback _ _ _ _ _ _ Hrun Hsource)
    as (e & w1 & response & data & _ & _ & Hget & Hjson & Hdata).
  apply owm_weather_data_more_fields in Hdata
    as (Hregion & Huv & Hrain & _ & Hvisibility & Hwind).
  repeat split; try done.
  exists w1, response, data. repeat split; try done.
  - intros d -> Hmissing.
    destruct Hvisibility as (v & km & n & Hv & Hkm & Hn & ->).
    cbn in Hv. rewrite Hmissing in Hv. injection Hv as <-.
    vm_compute in Hkm. injection Hkm as <-.
    vm_compute in Hn. by injection Hn as <-.
  - intros wind Hwind' Hmissing.
    destruct Hwind as (wind0 & deg & name & Hwind & Hdeg & Hname & ->).
    rewrite Hwind' in Hwind. injection Hwind as <-.
    cbn in Hdeg. rewrite Hmissing in Hdeg. injection Hdeg as <-.
    vm_compute in Hname. by injection Hname as <-.
Qed.

Lemma whole_kilometres_checked :
  all_from whole_kilometres (Z.to_nat 20001) 0 = true.
Proof. vm_cast_no_check (eq_refl true). Qed.

(** X19. On the fallback path a visibility of [v] whole metres, for [v]
    from 0 to 20000, is reported as the decimal of the whole kilometres,
    [v] div 1000: the float division followed by [int] agrees with the
    integer division. *)
Theorem fallback_visibility_whole_kilometres
    self city now w weather_data w' :
  get_current_weather self city now w = (Ok weather_data, w') ->
  getitem weather_data "source" = Ok (VStr "OpenWeatherMap") ->
  exists w1 response data,
    get (owm_request self city) w1 = (Ok response, w') /\
    json response = Ok data /\
    forall v, dict_get data "visibility" (VInt 10000) = Ok (VInt v) ->
              0 <= v <= 20000 ->
              getitem weather_data "visibility" = Ok (VStr (pretty (v / 1000))).
Proof.
  intros Hrun Hsource.
  destruct (ScraperProofs.get_current_weather_fallback _ _ _ _ _ _ Hrun Hsource)
    as (e & w1 & response & data & _ & _ & Hget & Hjson & Hdata).
  apply owm_weather_data_more_fields in Hdata
    as (_ & _ & _ & _ & (v0 & km & n & Hv & Hkm & Hn & ->) & _).
  exists w1, response, data. repeat split; try done.
  intros v Hv' Hrange. rewrite Hv' in Hv. injection Hv as <-.
  pose proof (all_from_spec whole_kilometres (Z.to_nat 20001) 0 v
                whole_kilometres_checked) as Hchecked.
  rewrite Z2Nat.id in Hchecked by lia.
  unfold whole_kilometres in Hchecked. rewrite Hkm in Hchecked.
  cbn [mbind result_bind] in Hchecked. rewrite Hn in Hchecked.
  do 3 f_equal. apply Z.eqb_eq, Hchecked. lia.
Qed.

(** *** The forecast *)

Lemma get_tomorrow_forecast_run self city w :
  get_tomorrow_forecast self city w
  = match get_ok (wttr_request self city) w with
    | (Ok response, w1) =>
        match data ← json response; tomorrow_of data with
        | Ok forecast => (Ok forecast, w1)
        | Raised e =>
            if is_request_exception e then
              (raise Exception ("Failed to fetch forecast data: " +:+ exn_str e), w1)
            else if is_parse_exception e then
              (raise Exception ("Failed to parse forecast data: " +:+ exn_str e), w1)
            else (Raised e, w1)
        end
    | (Raised e, w1) =>
        if is_request_exception e then
          (raise Exception ("Failed to fetch forecast data: " +:+ exn_str e), w1)
        else if is_parse_exception e then
          (raise Exception ("Failed to parse forecast data: " +:+ exn_str e), w1)
        else (Raised e, w1)
    end.
Proof.
  unfold get_tomorrow_forecast, mbind at 1, net_bind at 1, pure.
  by destruct (get_ok (wttr_request self city) w) as [[response|e] w1].
Qed.

(** X20. A forecast request that fails in transport (the request raises,
    or the status is an HTTP error) is raised again as an [Exception] saying
    "Failed to fetch forecast data" with the cause; so is a body that is
    not JSON, when [response.json()] raises the decode error of [requests],
    which is a [RequestException] too. *)
Theorem get_tomorrow_forecast_fetch_failure self city w :
  (forall e w1,
     get (wttr_request self city) w = (Raised e, w1) ->
     is_request_exception e = true ->
     get_tomorrow_forecast self city w
     = (raise Exception ("Failed to fetch forecast data: " +:+ exn_str e), w1))
  /\
  (forall response w1,
     get (wttr_request self city) w = (Ok response, w1) ->
     400 <= status_code response < 600 ->
     get_tomorrow_forecast self city w
     = (raise Exception ("Failed to fetch forecast data: "
                           +:+ http_error response), w1))
  /\
  (forall response w1 message,
     get (wttr_request self city) w = (Ok response, w1) ->
     raise_for_status response = Ok tt ->
     json response = raise RequestsJSONDecodeError message ->
     get_tomorrow_forecast self city w
     = (raise Exception ("Failed to fetch forecast data: " +:+ message), w1)).
Proof.
  split; [|split].
  - intros e w1 Hget He.
    by rewrite get_tomorrow_forecast_run, get_ok_run, Hget, He.
  - intros response w1 Hget Hstatus.
    rewrite get_tomorrow_forecast_run, get_ok_run, Hget.
    unfold raise_for_status.
    rewrite (proj2 (Z.leb_le _ _) (proj1 Hstatus)),
      (proj2 (Z.ltb_lt _ _) (proj2 Hstatus)). reflexivity.
  - intros response w1 message Hget Hstatus Hjson.
    rewrite get_tomorrow_forecast_run, get_ok_run, Hget, Hstatus, Hjson.
    reflexivity.
Qed.

(** X21. A forecast document without the key [weather] is reported as
    "Failed to parse forecast data: 'weather'"; a document that is not an
    object makes the [TypeError] of the subscript come out as it is, with no
    message of the forecast around it. *)
Theorem get_tomorrow_forecast_document_shape self city w response w1 data :
  get (wttr_request self city) w = (Ok response, w1) ->
  raise_for_status response = Ok tt ->
  json response = Ok data ->
  (forall d, data = VDict d -> assoc "weather" d = None ->
     get_tomorrow_forecast self city w
     = (raise Exception "Failed to parse forecast data: 'weather'", w1)) /\
  ((forall d, data <> VDict d) ->
     exists message,
       get_tomorrow_forecast self city w = (raise TypeError message, w1)).
Proof.
  intros Hget Hstatus Hjson.
  rewrite get_tomorrow_forecast_run, get_ok_run, Hget, Hstatus, Hjson.
  cbn [mbind result_bind]. unfold tomorrow_of. split.
  - intros d -> Hmissing. cbn [getitem]. by rewrite Hmissing.
  - intros Hshape. destruct data; cbn; try (by eexists). by destruct (Hshape items).
Qed.

(** X22. The forecast made of a daily block takes its condition from the
    fifth three-hour bucket (index 4), and its hourly points from the
    buckets one for one and in their order; so a block that yields a forecast
    has at least five buckets. *)
Theorem forecast_data_hourly tomorrow forecast :
  forecast_data tomorrow = Ok forecast ->
  getitem forecast "date" = getitem tomorrow "date" /\
  getitem forecast "condition"
    = at_path tomorrow [K "hourly"; I 4; K "weatherDesc"; I 0; K "value"] /\
  exists hours points,
    getitem tomorrow "hourly" = Ok (VList hours) /\
    getitem forecast "hourly_forecast" = Ok (VList points) /\
    Forall2 point_of hours points /\
    (5 <= length hours)%nat /\ length points = length hours.
Proof.
  unfold forecast_data. intros Hforecast.
  match type of Hforecast with
  | _ <$> ?m = _ => destruct m as [d|] eqn:Hd; [|discriminate]
  end.
  injection Hforecast as <-. all_fields Hd.
  split; [done|]. split; [done|].
  match goal with
  | F : getitem tomorrow "hourly" ≫= _parse_hourly = Ok _ |- _ =>
      rename F into Hhourly
  end.
  match goal with
  | F : at_path tomorrow [K "hourly"; I 4; K "weatherDesc"; I 0; K "value"]
        = Ok _ |- _ => rename F into Hmidday
  end.
  destruct (getitem tomorrow "hourly") as [hourly|] eqn:Hbuckets;
    [|discriminate].
  cbn [mbind result_bind] in Hhourly. unfold _parse_hourly in Hhourly.
  unbind Hhourly.
  match goal with
  | F : mapM hourly_point _ = Ok _ |- _ =>
      apply ScraperProofs.mapM_Forall2 in F; rename F into Hpoints
  end.
  assert (Hfive : exists hours bucket,
            hourly = VList hours /\ hours !! 4%nat = Some bucket).
  { unfold at_path in Hmidday. cbn [foldl subscript mbind result_bind] in Hmidday.
    rewrite Hbuckets in Hmidday. cbn [mbind result_bind] in Hmidday.
    destruct hourly as [| | | |text|hours|d]; try discriminate.
    - cbn in Hmidday. destruct (chars text !! 4%nat) as [c|] eqn:Hc;
        [|discriminate].
      apply list_lookup_fmap_Some in Hc as (letter & -> & _). discriminate.
    - cbn [getindex] in Hmidday.
      destruct (hours !! 4%nat) as [bucket|] eqn:Hbucket; [|discriminate].
      by exists hours, bucket. }
  destruct Hfive as (hours & bucket & -> & Hbucket).
  match goal with
  | E : iter (VList hours) = Ok _ |- _ => cbn in E; injection E as <-
  end.
  eexists hours, _. split; [done|]. split; [reflexivity|].
  split; [|split].
  - eapply Forall2_impl; [exact Hpoints|]. apply ScraperProofs.hourly_point_fields.
  - apply lookup_lt_Some in Hbucket. lia.
  - symmetry. by eapply Forall2_length.
Qed.

(** X23. [get_tomorrow_forecast] sends exactly one request, to the primary
    source, whatever comes of it: there is no second attempt and no
    fallback, with or without a key. *)
Theorem get_tomorrow_forecast_one_request self city w :
  sent (get_tomorrow_forecast self city w).2
  = (clock w, wttr_request self city) :: sent w.
Proof.
  rewrite get_tomorrow_forecast_run.
  destruct (get_ok_world (wttr_request self city) w) as (Hsent & _).
  destruct (get_ok (wttr_request self city) w) as [[response|e] w1];
    cbn [snd] in Hsent.
  - destruct (data ← json response; tomorrow_of data) as [forecast|e]; [done|].
    destruct (is_request_exception e); [done|].
    by destruct (is_parse_exception e).
  - destruct (is_request_exception e); [done|].
    by destruct (is_parse_exception e).
Qed.

(** *** The historical samples *)

Lemma history_loop_samples self location_data lat lon now :
  forall offsets historical_data w r w',
    history_loop self location_data lat lon now offsets historical_data w
      = (r, w') ->
    (length (sent w') <= length offsets + length (sent w))%nat.
Proof.
  induction offsets as [|k offsets IH]; intros acc w r w'; cbn [history_loop].
  - intros [= _ <-]. cbn. lia.
  - unfold mbind at 1, net_bind at 1.
    pose proof (ScraperProofs.get_world (coord_request self lat lon) w)
      as [_ Hsent].
    destruct (get (coord_request self lat lon) w) as [[response|e] w1];
      cbn [snd] in Hsent.
    + assert (Hrest : forall acc',
        history_loop self location_data lat lon now offsets acc' w1 = (r, w') ->
        (length (sent w') <= length (k :: offsets) + length (sent w))%nat).
      { intros acc' Hle%IH. rewrite Hsent in Hle. cbn. lia. }
      destruct (Z.eqb (status_code response) 200); [|apply Hrest].
      unfold mbind at 1, net_bind at 1, pure.
      match goal with
      | |- context [match ?r with Ok _ => _ | Raised _ => _ end] =>
          destruct r as [daily|e']
      end; [apply Hrest|].
      intros [= _ <-]. cbn [length]. lia.
    + intros [= _ <-]. cbn [length]. lia.
Qed.

Lemma history_loop_labels self location_data lat lon now :
  forall offsets historical_data w l w',
    history_loop self location_data lat lon now offsets historical_data w
      = (Ok l, w') ->
    exists ks new,
      l = (historical_data ++ new)%list /\
      ks `sublist_of` offsets /\
      Forall2 (sample_of now) ks new /\
      Forall (fun entry => getitem entry "city" = getitem location_data "name")
             new.
Proof.
  induction offsets as [|k offsets IH]; intros acc w l w'; cbn [history_loop].
  - intros [= <- <-]. exists [], []. rewrite app_nil_r. by repeat constructor.
  - unfold mbind at 1, net_bind at 1.
    destruct (get (coord_request self lat lon) w) as [[response|e] w1];
      [|discriminate].
    destruct (Z.eqb (status_code response) 200).
    + unfold mbind at 1, net_bind at 1, pure.
      destruct (data ← json response; daily_weather _ _ _) as [daily|e]
        eqn:Hdaily; [|discriminate].
      intros (ks & new & -> & Hsub & Hks & Hcity)%IH.
      unbind Hdaily.
      match goal with
      | E : daily_weather _ _ _ = Ok _ |- _ =>
          apply ScraperProofs.daily_weather_fields in E as (Hname & Htime & Hdate)
      end.
      exists (k :: ks), (daily :: new).
      split; [by rewrite <-app_assoc|]. split; [by apply sublist_skip|].
      split; constructor; done.
    + intros (ks & new & -> & Hsub & Hks & Hcity)%IH.
      exists ks, new. split; [done|]. split; [by apply sublist_cons|done].
Qed.

Lemma day_offsets_range days :
  Forall (fun k => 1 <= k <= Z.min days 7) (day_offsets days) /\
  (length (day_offsets days) <= 7)%nat /\
  Z.of_nat (length (day_offsets days)) <= Z.max 0 days.
Proof.
  unfold day_offsets. split; [|rewrite length_fmap, length_seq; lia].
  apply Forall_forall. intros k (n & -> & Hn)%list_elem_of_fmap.
  apply elem_of_seq in Hn. lia.
Qed.

(** X24. [get_historical_weather] returns at most [min(days, 7)] samples
    and sends at most one request more than that; without a key it returns
    the empty list and sends nothing. The samples follow the day offsets
    1, 2, ... in order (an offset whose answer is not status 200 is left
    out), each stamped with noon of its day, and all carry the one city name
    of the geocoding answer. *)
Theorem get_historical_weather_samples self city days now w :
  (has_key self = false ->
     get_historical_weather self city days now w = ([], w)) /\
  (exists ks,
     ks `sublist_of` day_offsets days /\
     Forall (fun k => 1 <= k <= Z.min days 7) ks /\
     Forall2 (fun k entry => sample_of now k entry /\
                             micros (target_date (now k) k) = 43200000000)
             ks (get_historical_weather self city days now w).1) /\
  (exists name,
     Forall (fun entry => getitem entry "city" = name)
            (get_historical_weather self city days now w).1) /\
  (length (get_historical_weather self city days now w).1 <= 7)%nat /\
  Z.of_nat (length (get_historical_weather self city days now w).1)
    <= Z.max 0 days /\
  (length (sent (get_historical_weather self city days now w).2)
     <= length (sent w) + 8)%nat.
Proof.
  destruct (day_offsets_range days) as (Hrange & Hseven & Hdays).
  assert (Hempty :
    (exists ks,
       ks `sublist_of` day_offsets days /\
       Forall (fun k => 1 <= k <= Z.min days 7) ks /\
       Forall2 (fun k entry => sample_of now k entry /\
                               micros (target_date (now k) k) = 43200000000)
               ks (@nil value)) /\
    (exists name : result value,
       Forall (fun entry => getitem entry "city" = name) (@nil value)) /\
    (length (@nil value) <= 7)%nat /\
    Z.of_nat (length (@nil value)) <= Z.max 0 days).
  { split; [|split; [|cbn; lia]].
    - exists []. split; [apply sublist_nil_l|]. by split; constructor.
    - exists (Ok VNone). constructor. }
  unfold get_historical_weather.
  destruct (has_key self); cbn [negb].
  2:{ split; [done|]. destruct Hempty as (? & ? & ? & ?).
      repeat split; try done. cbn. lia. }
  split; [done|].
  assert (Hsent : (length (sent (try_history self city days now w).2)
                   <= length (sent w) + 8)%nat).
  { unfold try_history. unfold mbind at 1, net_bind at 1.
    destruct (get_ok_world (geocode_request self city) w) as (Hgeo & _).
    destruct (get_ok (geocode_request self city) w) as [[response|e] w1];
      cbn [snd] in Hgeo; [|cbn [snd]; rewrite Hgeo; cbn [length]; lia].
    unfold mbind at 1, net_bind at 1, pure.
    destruct (json response) as [location_data|];
      [|cbn [snd]; rewrite Hgeo; cbn [length]; lia].
    unfold mbind at 1, net_bind at 1.
    destruct (at_path location_data [K "coord"; K "lat"]) as [lat|];
      [|cbn [snd]; rewrite Hgeo; cbn [length]; lia].
    unfold mbind at 1, net_bind at 1.
    destruct (at_path location_data [K "coord"; K "lon"]) as [lon|];
      [|cbn [snd]; rewrite Hgeo; cbn [length]; lia].
    destruct (history_loop self location_data lat lon now (day_offsets days)
                [] w1) as [r w'] eqn:Hloop.
    apply history_loop_samples in Hloop. rewrite Hgeo in Hloop.
    cbn [length] in Hloop. cbn [snd]. lia. }
  destruct (try_history self city days now w) as [[historical_data|e] w'] eqn:Hrun;
    cbn [fst snd] in *.
  2:{ destruct Hempty as (? & ? & ? & ?). by repeat split. }
  revert Hrun. unfold try_history. unfold mbind at 1, net_bind at 1.
  destruct (get_ok (geocode_request self city) w) as [[response|] w1];
    [|discriminate].
  unfold mbind at 1, net_bind at 1, pure.
  destruct (json response) as [location_data|]; [|discriminate].
  unfold mbind at 1, net_bind at 1.
  destruct (at_path location_data [K "coord"; K "lat"]) as [lat|];
    [|discriminate].
  unfold mbind at 1, net_bind at 1.
  destruct (at_path location_data [K "coord"; K "lon"]) as [lon|];
    [|discriminate].
  intros (ks & new & -> & Hsub & Hks & Hcity)%history_loop_labels.
  cbn [app].
  assert (Hks' : Forall (fun k => 1 <= k <= Z.min days 7) ks).
  { rewrite Forall_forall in *. intros k Hk. apply Hrange.
    by eapply elem_of_sublist. }
  assert (Hlen : length new = length ks) by (symmetry; by eapply Forall2_length).
  apply sublist_length in Hsub as Hle.
  split; [|split; [|split; [|split]]]; try lia; try done.
  - exists ks. split; [done|]. split; [done|].
    eapply Forall2_impl; [exact Hks|]. intros k entry Hsample. by split.
  - by exists (getitem location_data "name").
Qed.

End WithLib.

(** *** The glyph *)

Import Emoji.

Lemma lower_char_idempotent a : lower_char (lower_char a) = lower_char a.
Proof. destruct a as [[] [] [] [] [] [] [] []]; reflexivity. Qed.

Lemma lower_idempotent s : lower (lower s) = lower s.
Proof.
  induction s as [|a s IH]; cbn; [done|].
  by rewrite lower_char_idempotent, IH.
Qed.

Lemma prefix_app_contains q p : forall s,
  String.prefix (p +:+ q) s = true -> str_contains q s = true.
Proof.
  induction p as [|c p IH]; intros s.
  - change ("" +:+ q) with q. intros Hq. destruct s; cbn [str_contains]; by rewrite Hq.
  - change (String c p +:+ q) with (String c (p +:+ q)).
    destruct s as [|c' s]; [discriminate|]. cbn [String.prefix].
    destruct (Ascii.ascii_dec c c'); [|discriminate].
    intros Hs%IH. cbn [str_contains]. rewrite Hs. apply orb_true_r.
Qed.

Lemma str_contains_suffix_word p q : forall s,
  str_contains (p +:+ q) s = true -> str_contains q s = true.
Proof.
  induction s as [|c s IH].
  - cbn [str_contains]. rewrite orb_false_r. apply prefix_app_contains.
  - cbn [str_contains]. intros [Hhere|Hlater]%orb_true_iff.
    + by apply (prefix_app_contains q p (String c s)) in Hhere.
    + rewrite (IH Hlater). apply orb_true_r.
Qed.

(** X25. [get_weather_emoji] does not tell upper case from lower case and
    does not look at the weather code. A condition that says "partly cloudy"
    says "cloudy" too, and the order of the tests decides: it gets the sun
    behind a cloud, or the sun when it also says "sunny" or "clear", never
    the plain cloud. *)
Theorem get_weather_emoji_case_and_order :
  (forall condition code code',
     get_weather_emoji condition code = get_weather_emoji (lower condition) code')
  /\
  (forall condition code,
     str_contains "partly cloudy" (lower condition) = true ->
     str_contains "cloudy" (lower condition) = true /\
     (get_weather_emoji condition code = SunBehindCloud
      \/ get_weather_emoji condition code = Sun)).
Proof.
  split.
  - intros condition code code'. unfold get_weather_emoji.
    by rewrite lower_idempotent.
  - intros condition code Hpartly. split.
    + by apply (str_contains_suffix_word "partly ").
    + unfold get_weather_emoji. rewrite Hpartly.
      destruct (_ || _); auto.
Qed.

End ScraperFacts.

(** * The further properties on the samples *)

Module MoreRuns.
Import Net Samples MoreSamples.
Import Storage StorageSpec StorageNotions.

(** ** The local store *)

Lemma __init___files_witness :
  (exists message,
     __init__ "" ∅ = (raise FileNotFoundError message, ∅)) /\
  (exists e,
     __init__ "data/new" occupied_files = (Raised e, occupied_files) /\
     (exn_class_of e = FileExistsError
      \/ exn_class_of e = NotADirectoryError)) /\
  (__init__ "data" ∅).1 = Ok storage /\
  (forall p,
     new_files !! p
     = match (∅ : fs) !! p with
       | Some content => Some content
       | None =>
           if decide (p = path_join "data" "weather_history.json")
           then Some (Json (VDict []))
           else if decide (p = path_join "data" "search_history.json")
                then Some (Json (VList []))
                else None
       end) /\
  __init__ "data" new_files = __init__ "data" ∅.
Proof.
  split; [|split].
  - exact (proj1 (StorageFacts.__init___files "" ∅) eq_refl).
  - apply (proj1 (proj2 (StorageFacts.__init___files "data/new"
                           occupied_files))); [done|].
    exists "data". split; [|by eexists].
    apply list_elem_of_here.
  - apply (proj2 (proj2 (StorageFacts.__init___files "data" ∅))); [done|].
    intros level _. apply lookup_empty.
Defined.

Lemma get_weather_history_unreadable_witness :
  without_document ∅ (history_file storage) /\
  get_weather_history (py := lib) storage "Oslo" wednesday ∅ = (Ok [], ∅) /\
  undecodable_files !! history_file storage = Some (Undecodable not_utf8) /\
  get_weather_history (py := lib) storage "Oslo" wednesday undecodable_files
    = (raise UnicodeDecodeError not_utf8, undecodable_files).
Proof.
  assert (Hfile : without_document ∅ (history_file storage))
    by (left; reflexivity).
  assert (Hbytes : undecodable_files !! history_file storage
                   = Some (Undecodable not_utf8)) by reflexivity.
  split; [exact Hfile|]. split; [|split; [exact Hbytes|]].
  - exact (proj1 (StorageFacts.get_weather_history_unreadable (py := lib)
                    storage "Oslo" wednesday ∅) Hfile).
  - exact (proj2 (StorageFacts.get_weather_history_unreadable (py := lib)
                    storage "Oslo" wednesday undecodable_files)
             not_utf8 Hbytes).
Defined.

Lemma search_file_unreadable_witness :
  without_document ∅ (search_file storage) /\
  (get_search_history storage ∅ = (Ok [], ∅) /\
   (forall city now,
      add_search (py := lib) storage city now ∅
      = (Ok tt, <[search_file storage :=
                    Json (VList [search_entry (py := lib) city now])]> ∅)) /\
   (forall dir,
      search_file storage = path_join dir "search_history.json" ->
      (_read_json (search_file storage) ∅).1 = Ok (VDict []))) /\
  undecodable_files !! search_file storage = Some (Undecodable not_utf8) /\
  get_search_history storage undecodable_files
    = (raise UnicodeDecodeError not_utf8, undecodable_files) /\
  (forall city now,
     add_search (py := lib) storage city now undecodable_files
     = (raise UnicodeDecodeError not_utf8, undecodable_files)).
Proof.
  assert (Hfile : without_document ∅ (search_file storage))
    by (left; reflexivity).
  assert (Hbytes : undecodable_files !! search_file storage
                   = Some (Undecodable not_utf8)) by reflexivity.
  split; [exact Hfile|]. split; [|split; [exact Hbytes|]].
  - exact (proj1 (StorageFacts.search_file_unreadable (py := lib) storage ∅)
             Hfile).
  - exact (proj2 (StorageFacts.search_file_unreadable (py := lib) storage
                    undecodable_files) not_utf8 Hbytes).
Defined.

Lemma _filter_current_week_idempotent_witness :
  _filter_current_week (py := lib) wednesday (VList oslo_snapshots)
    = Ok [tuesday_snapshot] /\
  start_of_week thursday = start_of_week wednesday /\
  _filter_current_week (py := lib) thursday (VList [tuesday_snapshot])
    = Ok [tuesday_snapshot].
Proof.
  split; [reflexivity|]. split; [reflexivity|].
  apply (StorageFacts._filter_current_week_idempotent (py := lib)
           wednesday thursday (VList oslo_snapshots) [tuesday_snapshot]);
    reflexivity.
Defined.

Lemma get_weather_history_aware_timestamp_witness :
  aware_files !! history_file storage
    = Some (Json (VDict [("oslo", VList [aware_snapshot])])) /\
  fromisoformat (PyLib := lib_with_offsets) "2024-01-02T08:15:00+00:00"
    = Aware (DT 738887 29700000000) 0 /\
  exists message,
    get_weather_history (py := lib_with_offsets) storage "Oslo" wednesday
                        aware_files
    = (Raised (Exn TypeError message), aware_files).
Proof.
  split; [reflexivity|]. split; [reflexivity|].
  apply (StorageFacts.get_weather_history_aware_timestamp
           (py := lib_with_offsets) storage "Oslo" wednesday aware_files
           [("oslo", VList [aware_snapshot])] [aware_snapshot] aware_snapshot
           "2024-01-02T08:15:00+00:00" (DT 738887 29700000000) 0);
    try reflexivity.
  apply list_elem_of_here.
Defined.

Lemma add_search_raises_unchanged_witness :
  nameless_files !! search_file storage = Some (Json (VList [nameless_entry])) /\
  getitem nameless_entry "city" = raise KeyError "'city'" /\
  exists e,
    add_search (py := lib) storage "Oslo" wednesday nameless_files
    = (Raised e, nameless_files).
Proof.
  split; [reflexivity|]. split; [reflexivity|].
  apply (proj2 (proj2 (StorageFacts.add_search_raises_unchanged (py := lib)
                         storage "Oslo" wednesday nameless_files))
           [nameless_entry] nameless_entry (Exn KeyError "'city'"));
    try reflexivity.
  apply list_elem_of_here.
Defined.

Lemma save_weather_data_purges_one_city_witness :
  saved_run = (Ok tt, saved_run.2) /\
  exists d d' old filtered,
    (_read_json (history_file storage) oslo_files).1 = Ok (VDict d) /\
    saved_run.2 = <[history_file storage := Json (VDict d')]> oslo_files /\
    (assoc (lower "Oslo") d = Some (VList old)
     \/ assoc (lower "Oslo") d = None /\ old = []) /\
    assoc (lower "Oslo") d' = Some (VList filtered) /\
    Forall (in_week (py := lib) wednesday) filtered /\
    filtered `sublist_of`
      (old ++ [stamped (py := lib) fresh_snapshot wednesday])%list /\
    (forall k, k <> lower "Oslo" -> assoc k d' = assoc k d).
Proof.
  split; [reflexivity|].
  apply (StorageFacts.save_weather_data_purges_one_city (py := lib)
           storage "Oslo" fresh_snapshot wednesday wednesday oslo_files
           saved_run.2).
  reflexivity.
Defined.

Lemma save_then_get_weather_history_witness :
  saved_run = (Ok tt, saved_run.2) /\
  fromisoformat (PyLib := lib) (isoformat (PyLib := lib) wednesday)
    = Naive wednesday /\
  le (start_of_week wednesday) wednesday /\
  le (start_of_week thursday) wednesday /\
  exists earlier,
    get_weather_history (py := lib) storage "Oslo" thursday saved_run.2
    = (Ok (earlier ++ [stamped (py := lib) fresh_snapshot wednesday])%list,
       saved_run.2).
Proof.
  assert (Hweek : le (start_of_week wednesday) wednesday)
    by (left; vm_compute; reflexivity).
  assert (Hweek' : le (start_of_week thursday) wednesday)
    by (left; vm_compute; reflexivity).
  split; [reflexivity|]. split; [reflexivity|].
  split; [exact Hweek|]. split; [exact Hweek'|].
  exact (StorageFacts.save_then_get_weather_history (py := lib)
           storage "Oslo" fresh_snapshot wednesday wednesday thursday
           oslo_files saved_run.2 eq_refl eq_refl eq_refl Hweek Hweek').
Defined.

Lemma clear_old_data_purges_every_city_witness :
  oslo_files !! history_file storage
    = Some (Json (VDict [("oslo", VList oslo_snapshots)])) /\
  cleared_run = (Ok tt, cleared_run.2) /\
  exists d',
    cleared_run.2 = <[history_file storage := Json (VDict d')]> oslo_files /\
    d'.*1 = ["oslo"] /\
    forall city snapshots,
      assoc city [("oslo", VList oslo_snapshots)] = Some snapshots ->
      exists (j : nat) purged,
        assoc city d' = Some (VList purged) /\
        _filter_current_week (py := lib) wednesday snapshots = Ok purged /\
        Forall (in_week (py := lib) wednesday) purged.
Proof.
  split; [reflexivity|]. split; [reflexivity|].
  apply (StorageFacts.clear_old_data_purges_every_city (py := lib)
           storage (fun _ => wednesday) oslo_files
           [("oslo", VList oslo_snapshots)] cleared_run.2);
    try reflexivity.
  apply NoDup_singleton.
Defined.

(** ** The place-name lookup *)

Import Autocomplete AutocompleteSpec AutocompleteNotions.

Lemma search_cities_short_query_witness :
  (String.length "P" < 2)%nat /\
  search_cities (py := lib) __init__ "P" 8 geocoder_up
    = ([], __init__, geocoder_up).
Proof.
  assert (Hshort : (String.length "P" < 2)%nat) by (cbn; lia).
  split; [exact Hshort|].
  exact (AutocompleteFacts.search_cities_short_query (py := lib)
           __init__ "P" 8 geocoder_up Hshort).
Defined.

Lemma search_cities_failure_swallowed_witness :
  (fetch (py := lib) __init__ "Paris" 8
         (wait_if_needed __init__ refused_once)).1.1 = Raised refusal /\
  refused_search.1.1 = [] /\
  cache refused_search.1.2 = cache __init__ /\
  stdout refused_search.2
    = (stdout refused_once
         ++ ["Error searching cities: " +:+ exn_str refusal])%list /\
  length (sent refused_search.2) = S (length (sent refused_once)).
Proof.
  split; [reflexivity|].
  apply (AutocompleteFacts.search_cities_failure_swallowed (py := lib)
           __init__ "Paris" 8 refused_once refusal).
  - cbn. lia.
  - reflexivity.
  - reflexivity.
Defined.

Lemma search_cities_unique_display_witness :
  cache_unique __init__ /\
  NoDup (display <$> answered_search.1.1) /\
  cache_unique answered_search.1.2.
Proof.
  assert (Hnew : cache_unique __init__).
  { intros key cities Hkey. cbn in Hkey. by rewrite lookup_empty in Hkey. }
  split; [exact Hnew|].
  exact (AutocompleteFacts.search_cities_unique_display (py := lib)
           __init__ "Paris" 8 geocoder_up Hnew).
Defined.

Lemma search_cities_cache_ignores_case_witness :
  lower "PARIS" = lower "Paris" /\
  forall w2,
    search_cities (py := lib) answered_search.1.2 "PARIS" 8 w2
    = (answered_search.1.1, answered_search.1.2, w2).
Proof.
  split; [reflexivity|].
  apply (AutocompleteFacts.search_cities_cache_ignores_case (py := lib)
           __init__ "Paris" "PARIS" 8 geocoder_up
           answered_search.1.1 answered_search.1.2 answered_search.2).
  - reflexivity.
  - intros (_ & _ & e & He). vm_compute in He. discriminate He.
  - cbn. lia.
  - reflexivity.
Defined.

Lemma search_cities_spacing_after_answer_witness :
  good_status (answer nominatim_document) /\
  cache answered_search.1.2 !! cache_key "Berlin" 8 = None /\
  exists t1 request1 t2 request2,
    sent berlin_search.2
      = (t2, request2) :: (t1, request1) :: sent geocoder_up /\
    (t1 + min_request_interval __init__ <= t2)%Q.
Proof.
  assert (Hgood : good_status (answer nominatim_document)) by reflexivity.
  assert (Hnew : cache answered_search.1.2 !! cache_key "Berlin" 8 = None)
    by (vm_compute; reflexivity).
  split; [exact Hgood|]. split; [exact Hnew|].
  apply (AutocompleteFacts.search_cities_spacing_after_answer (py := lib)
           __init__ "Paris" 8 "Berlin" 8 geocoder_up
           (answer nominatim_document) answered_search.2).
  - cbn. lia.
  - reflexivity.
  - intros request. reflexivity.
  - exact Hgood.
  - intros request. cbn. unfold Qle. cbn. lia.
  - cbn. lia.
  - exact Hnew.
  - reflexivity.
Defined.

(** ** The weather source adapter *)

Import Scraper ScraperSpec ScraperNotions Emoji.

Lemma _degrees_to_direction_nearest_point_witness :
  0 <= 10 <= 360 /\
  exists k name,
    0 <= k <= 16 /\ 90 * k - 45 <= 4 * 10 < 90 * k + 45 /\
    directions !! Z.to_nat (k mod 16) = Some name /\
    _degrees_to_direction (VInt 10) = Ok name.
Proof.
  assert (Hrange : 0 <= 10 <= 360) by lia.
  split; [exact Hrange|].
  exact (proj1 ScraperFacts._degrees_to_direction_nearest_point 10 Hrange).
Defined.

Lemma get_current_weather_primary_verbatim_witness :
  get (wttr_request scraper "Oslo") primary_up
    = (Ok (answer current_document), primary_run.2) /\
  wttr_weather_data (py := lib) current_document "Oslo" wednesday
    = Ok primary_weather /\
  primary_run = (Ok primary_weather, primary_run.2) /\
  sent primary_run.2 = (clock primary_up, wttr_request scraper "Oslo") :: [].
Proof.
  split; [reflexivity|]. split; [reflexivity|].
  destruct (ScraperFacts.get_current_weather_primary_verbatim (py := lib)
              scraper "Oslo" wednesday primary_up (answer current_document)
              primary_run.2 current_document primary_weather
              eq_refl eq_refl eq_refl eq_refl) as (Hrun & Hsent & _).
  split; [exact Hrun|exact Hsent].
Defined.

Lemma fallback_constants_and_defaults_witness :
  fallback_run = (Ok fallback_weather, fallback_run.2) /\
  getitem fallback_weather "source" = Ok (VStr "OpenWeatherMap") /\
  getitem fallback_weather "region" = Ok (VStr "") /\
  getitem fallback_weather "uv_index" = Ok (VStr "0") /\
  getitem fallback_weather "precipitation" = Ok (VStr "0").
Proof.
  split; [reflexivity|]. split; [reflexivity|].
  destruct (ScraperFacts.fallback_constants_and_defaults (py := lib)
              scraper "Oslo" wednesday primary_down fallback_weather
              fallback_run.2 eq_refl eq_refl)
    as (Hregion & Huv & Hprecipitation & _).
  split; [exact Hregion|]. split; [exact Huv|exact Hprecipitation].
Defined.

Lemma fallback_visibility_whole_kilometres_witness :
  fallback_run = (Ok fallback_weather, fallback_run.2) /\
  getitem fallback_weather "source" = Ok (VStr "OpenWeatherMap") /\
  exists w1 response data,
    get (owm_request scraper "Oslo") w1 = (Ok response, fallback_run.2) /\
    json response = Ok data /\
    forall v, dict_get data "visibility" (VInt 10000) = Ok (VInt v) ->
              0 <= v <= 20000 ->
              getitem fallback_weather "visibility"
                = Ok (VStr (pretty (v / 1000))).
Proof.
  split; [reflexivity|]. split; [reflexivity|].
  apply (ScraperFacts.fallback_visibility_whole_kilometres (py := lib)
           scraper "Oslo" wednesday primary_down fallback_weather
           fallback_run.2);
    reflexivity.
Defined.

Lemma get_tomorrow_forecast_fetch_failure_witness :
  get (wttr_request scraper "Oslo") primary_unreachable
    = (Raised refusal, (get (wttr_request scraper "Oslo") primary_unreachable).2)
  /\
  is_request_exception refusal = true /\
  get_tomorrow_forecast scraper "Oslo" primary_unreachable
    = (raise Exception ("Failed to fetch forecast data: " +:+ exn_str refusal),
       (get (wttr_request scraper "Oslo") primary_unreachable).2).
Proof.
  split; [reflexivity|]. split; [reflexivity|].
  apply (proj1 (ScraperFacts.get_tomorrow_forecast_fetch_failure
                  scraper "Oslo" primary_unreachable) refusal);
    reflexivity.
Defined.

Lemma get_tomorrow_forecast_document_shape_witness :
  get (wttr_request scraper "Oslo") empty_object
    = (Ok (answer (VDict [])),
       (get (wttr_request scraper "Oslo") empty_object).2) /\
  get_tomorrow_forecast scraper "Oslo" empty_object
    = (raise Exception "Failed to parse forecast data: 'weather'",
       (get (wttr_request scraper "Oslo") empty_object).2).
Proof.
  split; [reflexivity|].
  apply (proj1 (ScraperFacts.get_tomorrow_forecast_document_shape
                  scraper "Oslo" empty_object (answer (VDict []))
                  (get (wttr_request scraper "Oslo") empty_object).2
                  (VDict []) eq_refl eq_refl eq_refl) []);
    reflexivity.
Defined.

Lemma forecast_data_hourly_witness :
  forecast_data (daily_block "2024-01-04") = Ok forecast /\
  getitem forecast "date" = getitem (daily_block "2024-01-04") "date" /\
  getitem forecast "condition"
    = at_path (daily_block "2024-01-04")
              [K "hourly"; I 4; K "weatherDesc"; I 0; K "value"] /\
  exists hours points,
    getitem (daily_block "2024-01-04") "hourly" = Ok (VList hours) /\
    getitem forecast "hourly_forecast" = Ok (VList points) /\
    Forall2 point_of hours points /\
    (5 <= length hours)%nat /\ length points = length hours.
Proof.
  split; [reflexivity|].
  apply (ScraperFacts.forecast_data_hourly (daily_block "2024-01-04") forecast).
  reflexivity.
Defined.

Lemma get_historical_weather_samples_witness :
  has_key scraper_without_key = false /\
  get_historical_weather (py := lib) scraper_without_key "Oslo" 7
                         (fun _ => wednesday) fallback_up
    = ([], fallback_up).
Proof.
  split; [reflexivity|].
  apply (proj1 (ScraperFacts.get_historical_weather_samples (py := lib)
                  scraper_without_key "Oslo" 7 (fun _ => wednesday)
                  fallback_up)).
  reflexivity.
Defined.

Lemma get_weather_emoji_case_and_order_witness :
  str_contains "partly cloudy" (lower "Partly Cloudy") = true /\
  str_contains "cloudy" (lower "Partly Cloudy") = true /\
  (get_weather_emoji "Partly Cloudy" None = SunBehindCloud
   \/ get_weather_emoji "Partly Cloudy" None = Sun).
Proof.
  split; [reflexivity|].
  apply (proj2 ScraperFacts.get_weather_emoji_case_and_order
           "Partly Cloudy" None).
  reflexivity.
Defined.

End MoreRuns.
